(** * Baize skills: the Brave search skill and the file skill

    A shallow embedding of [skills/brave-search/main.py] and
    [skills/file/main.py].  Both scripts are one-shot processes: they read a
    JSON parameter object, perform one operation against the outside world
    (one HTTP request, or a few filesystem calls) and print one JSON envelope.

    The embedding threads an explicit [world] (environment variables, standard
    input and output, the filesystem tree, the remote HTTP endpoint and the log
    of requests sent to it) through a small state-and-exception monad whose
    three outcomes are Python's: normal return, a raised [Exception], and
    [SystemExit], which [except Exception] does not catch.

    What the Python runtime contributes and the scripts do not decide (the JSON
    parser, the text codecs, the wording of library exceptions) is the
    interface [Runtime]; every statement holds for any implementation of it.

    Conventions.  Python [str] is [string], read as the UTF-8 text of the
    value; [bytes] is [list byte].  JSON numbers are integers (a fractional
    number is outside the model).  The filesystem is a POSIX tree of regular
    files and directories, without symbolic links, permissions or I/O faults,
    without the limits an operating system puts on names (length, the NUL
    character), and without concurrent modification between two calls. *)

From Stdlib Require Import ZArith String Ascii List DecimalString.
From Stdlib.Strings Require Import Byte.
From stdpp Require Import gmap strings list fin_maps.

Local Open Scope Z_scope.
Set Warnings "-register-all".

(** ** Python values, exceptions and effects *)

Module Py.

(** The values [json.loads] produces, which are also the values the scripts
    hand to [json.dumps].  A [dict] keeps its insertion order. *)
Inductive value : Type :=
| VNone
| VBool (b : bool)
| VInt (n : Z)
| VStr (s : string)
| VList (items : list value)
| VDict (entries : list (string * value)).

Abbreviation dict := (list (string * value)) (only parsing).

(** [d.get(k)] on the entries of a dict. *)
Fixpoint lookup_key (k : string) (d : dict) : option value :=
  match d with
  | [] => None
  | (k', v) :: d' => if String.eqb k' k then Some v else lookup_key k d'
  end.

Definition keys (d : dict) : list string := map fst d.

(** Truth value of an object, as [not x] and [if x] test it. *)
Definition truthy (v : value) : bool :=
  match v with
  | VNone => false
  | VBool b => b
  | VInt n => negb (Z.eqb n 0)
  | VStr s => negb (String.eqb s "")
  | VList items => match items with [] => false | _ => true end
  | VDict entries => match entries with [] => false | _ => true end
  end.

(** [v == 'literal'] *)
Definition eq_str (v : value) (lit : string) : bool :=
  match v with
  | VStr s => String.eqb s lit
  | _ => false
  end.

Definition str_of_Z (n : Z) : string := NilZero.string_of_int (Z.to_int n).
Definition str_of_nat (n : nat) : string := NilZero.string_of_uint (Nat.to_uint n).

Inductive errno := ENOENT | ENOTDIR | EEXIST | EISDIR.

(** Exceptions below [Exception].  [Exception msg] is the one the search
    script raises itself; the others come from the library. *)
Inductive exn : Type :=
| Exception (msg : string)
| HTTPError (code : Z) (body : list byte)
| OSError (e : errno) (filename : string)
| TypeError (what : string)
| AttributeError (what : string)
| LibraryError (kind : string) (detail : string).

(** What the runtime decides. *)
Class Runtime := {
  (** [json.loads] *)
  json_loads : string -> exn + value;
  (** [str(e)] of a library exception *)
  exn_text : exn -> string;
  (** [str(v)] of a list or a dict *)
  container_str : value -> string;
  (** [text.encode(encoding)] *)
  str_encode : string -> string -> exn + list byte;
  (** [data.decode(encoding)] *)
  bytes_decode : string -> list byte -> exn + string;
  (** the encoding [open] uses when it is given [encoding=None] *)
  locale_encoding : string;
  (** [st_size] of a directory *)
  dir_st_size : Z
}.

(** [str(v)], which is what an f-string field [{v}] inserts. *)
Definition py_str `{Runtime} (v : value) : string :=
  match v with
  | VNone => "None"
  | VBool true => "True"
  | VBool false => "False"
  | VInt n => str_of_Z n
  | VStr s => s
  | _ => container_str v
  end.

(** [str(e)] *)
Definition str_exn `{Runtime} (e : exn) : string :=
  match e with
  | Exception msg => msg
  | _ => exn_text e
  end.

(** *** The world *)

Inductive node := File (data : list byte) | Dir.

(** A resolved location: the names from the root down, innermost first, so
    that the root is [[]] and the parent of [c :: d] is [d]. *)
Abbreviation key := (list string) (only parsing).

Record request := Request {
  req_url : string;
  req_headers : list (string * value)
}.

(** What [urlopen] does with a request: a 2xx response with its body, an
    [HTTPError] with status code and body, or some other exception. *)
Inductive response :=
| Resp2xx (body : list byte)
| RespError (code : Z) (body : list byte)
| RespFail (e : exn).

Record world := World {
  environ : gmap string string;
  stdin : string;
  stdout : list dict;
  fs : gmap key node;
  cwd : key;
  remote : request -> response;
  sent : list request
}.

Definition set_fs (f : gmap key node) (w : world) : world :=
  World (environ w) (stdin w) (stdout w) f (cwd w) (remote w) (sent w).
Definition set_stdin (s : string) (w : world) : world :=
  World (environ w) s (stdout w) (fs w) (cwd w) (remote w) (sent w).
Definition set_stdout (o : list dict) (w : world) : world :=
  World (environ w) (stdin w) o (fs w) (cwd w) (remote w) (sent w).
Definition set_sent (l : list request) (w : world) : world :=
  World (environ w) (stdin w) (stdout w) (fs w) (cwd w) (remote w) l.

(** *** The monad *)

Inductive outcome (A : Type) : Type :=
| Ret (a : A)
| Raise (e : exn)
| Exit (code : Z).
Arguments Ret {A} a.
Arguments Raise {A} e.
Arguments Exit {A} code.

Definition M (A : Type) : Type := world -> outcome A * world.

Definition ret {A} (a : A) : M A := fun w => (Ret a, w).
Definition raise {A} (e : exn) : M A := fun w => (Raise e, w).

Definition bind {A B} (m : M A) (k : A -> M B) : M B :=
  fun w =>
    match m w with
    | (Ret a, w') => k a w'
    | (Raise e, w') => (Raise e, w')
    | (Exit c, w') => (Exit c, w')
    end.

(** [try: m  except Exception as e: h e] -- [SystemExit] passes through. *)
Definition try_except {A} (m : M A) (h : exn -> M A) : M A :=
  fun w =>
    match m w with
    | (Raise e, w') => h e w'
    | r => r
    end.

Definition lift {A} (r : exn + A) : M A :=
  match r with
  | inl e => raise e
  | inr a => ret a
  end.

(** The status the process ends with: 0 when [main] returns, the argument of
    [sys.exit], 1 for an exception nobody caught. *)
Definition exit_code {A} (o : outcome A) : Z :=
  match o with
  | Ret _ => 0
  | Raise _ => 1
  | Exit c => c
  end.

End Py.

Declare Scope py_scope.
Delimit Scope py_scope with py.
Notation "x <~ m ;; k" := (Py.bind m (fun x => k))
  (at level 100, m at next level, right associativity) : py_scope.
Notation "m ;;; k" := (Py.bind m (fun _ => k))
  (at level 100, right associativity) : py_scope.

(** ** Operations both scripts use *)

Module PyOps.
Import Py.
Local Open Scope py_scope.

(** [v.get(k, default)]: only a dict has the method. *)
Definition py_get (v : value) (k : string) (default : value) : M value :=
  match v with
  | VDict entries =>
      ret (match lookup_key k entries with Some x => x | None => default end)
  | _ => raise (AttributeError "get")
  end.

(** [os.environ.get(k)] *)
Definition environ_get (k : string) : M value :=
  fun w =>
    (Ret (match environ w !! k with Some s => VStr s | None => VNone end), w).

(** [k in os.environ] *)
Definition environ_has (k : string) : M bool :=
  fun w =>
    (Ret (match environ w !! k with Some _ => true | None => false end), w).

(** [os.environ[k]] *)
Definition environ_item (k : string) : M string :=
  fun w =>
    match environ w !! k with
    | Some s => (Ret s, w)
    | None => (Raise (LibraryError "KeyError" k), w)
    end.

(** [print(json.dumps(d, ensure_ascii=False))]: one more line on stdout. *)
Definition print_json (d : dict) : M unit :=
  fun w => (Ret tt, set_stdout (stdout w ++ [d]) w).

(** [sys.exit(code)] *)
Definition sys_exit {A} (code : Z) : M A := fun w => (Exit code, w).

End PyOps.

(** ** skills/brave-search/main.py *)

Module BraveSearch.
Import Py PyOps.
Local Open Scope py_scope.

Definition BRAVE_API_URL : string :=
  "https://api.search.brave.com/res/v1/web/search".

(** *** [urllib.parse.quote] with its default [safe='/'] *)

Definition is_safe (c : ascii) : bool :=
  let n := N_of_ascii c in
  ((65 <=? n) && (n <=? 90) || (97 <=? n) && (n <=? 122)
   || (48 <=? n) && (n <=? 57)
   || (n =? 95) || (n =? 46) || (n =? 45) || (n =? 126) || (n =? 47))%N.

Definition hex_digit (n : N) : ascii :=
  ascii_of_N (if (n <? 10)%N then 48 + n else 55 + n)%N.

Fixpoint quote_text (s : string) : string :=
  match s with
  | EmptyString => EmptyString
  | String c s' =>
      if is_safe c then String c (quote_text s')
      else
        let n := N_of_ascii c in
        String "%" (String (hex_digit (n / 16)) (String (hex_digit (n mod 16))
          (quote_text s')))
  end.

Definition quote (v : value) : M string :=
  match v with
  | VStr s => ret (quote_text s)
  | _ => raise (TypeError "quote_from_bytes() expected bytes")
  end.

(** [urllib.request.urlopen(req)]: the request is logged, the remote end
    decides the outcome. *)
Definition urlopen (req : request) : M (list byte) :=
  fun w =>
    let w' := set_sent (sent w ++ [req]) w in
    match remote w req with
    | Resp2xx body => (Ret body, w')
    | RespError code body => (Raise (HTTPError code body), w')
    | RespFail e => (Raise e, w')
    end.

(** [try: m  except urllib.error.HTTPError as e: h e.code e.read()] *)
Definition try_except_http {A} (m : M A) (h : Z -> list byte -> M A) : M A :=
  fun w =>
    match m w with
    | (Raise (HTTPError code body), w') => h code body w'
    | r => r
    end.

(** What [for item in v] visits: the items of a list, the keys of a dict, the
    characters of a str (one-character strs, here one per byte of the text;
    the loop body fails on the first of them either way). *)
Definition py_iter (v : value) : M (list value) :=
  match v with
  | VList items => ret items
  | VDict entries => ret (map (fun kv => VStr (fst kv)) entries)
  | VStr s => ret (map (fun c => VStr (String c EmptyString)) (list_ascii_of_string s))
  | _ => raise (TypeError "object is not iterable")
  end.

Section Script.
Context `{Runtime}.

Definition output_success (data : list dict) (message : string) : M unit :=
  print_json [("success", VBool true);
              ("data", VDict [("results", VList (map VDict data))]);
              ("message", VStr message)].

Definition output_error (error : string) : M unit :=
  print_json [("success", VBool false); ("error", VStr error)].

(** The record [parse_results] appends for one item. *)
Definition result_record (item : value) : M dict :=
  title <~ py_get item "title" (VStr "");;
  url <~ py_get item "url" (VStr "");;
  description <~ py_get item "description" (VStr "");;
  ret [("title", title); ("url", url); ("description", description)].

(** The loop of [parse_results], [results] being the list built so far. *)
Fixpoint parse_loop (items : list value) (results : list dict) : M (list dict) :=
  match items with
  | [] => ret results
  | item :: rest =>
      r <~ result_record item;;
      parse_loop rest (results ++ [r])
  end.

Definition parse_results (json_data : value) : M (list dict) :=
  web <~ py_get json_data "web" (VDict []);;
  web_results <~ py_get web "results" (VList []);;
  items <~ py_iter web_results;;
  parse_loop items [].

Definition search_url (q : string) (count offset : value) : string :=
  BRAVE_API_URL +:+ "?q=" +:+ q +:+ "&count=" +:+ py_str count
    +:+ "&offset=" +:+ py_str offset.

Definition search_request (q : string) (api_key count offset : value) : request :=
  Request (search_url q count offset)
          [("Accept", VStr "application/json");
           ("Accept-Encoding", VStr "gzip");
           ("X-Subscription-Token", api_key)].

Definition http_error_message (code : Z) (error_body : string) : string :=
  "API返回错误: " +:+ str_of_Z code +:+ " - " +:+ error_body.

Definition search_brave (query api_key count offset : value) : M (list dict) :=
  q <~ quote query;;
  let req := search_request q api_key count offset in
  try_except_http
    (body <~ urlopen req;;
     text <~ lift (bytes_decode "utf-8" body);;
     data <~ lift (json_loads text);;
     parse_results data)
    (fun code body =>
       error_body <~ lift (bytes_decode "utf-8" body);;
       raise (Exception (http_error_message code error_body))).

Definition found_message (n : nat) : string :=
  "找到 " +:+ str_of_nat n +:+ " 个结果".

Definition main : M unit :=
  try_except
    (has <~ environ_has "BAIZE_PARAMS";;
     input_data <~ (if has : bool
                    then raw <~ environ_item "BAIZE_PARAMS";; lift (json_loads raw)
                    else ret (VDict [("params", VDict [])]));;
     params <~ py_get input_data "params" (VDict []);;
     query <~ py_get params "query" VNone;;
     count <~ py_get params "count" (VInt 5);;
     offset <~ py_get params "offset" (VInt 0);;
     if negb (truthy query) then
       output_error "请提供搜索关键词 (query)"
     else
       api_key <~ environ_get "BRAVE_API_KEY";;
       if negb (truthy api_key) then
         output_error "未设置 BRAVE_API_KEY 环境变量，请在 .env 文件中添加: BRAVE_API_KEY=your_key"
       else
         results <~ search_brave query api_key count offset;;
         output_success results (found_message (length results)))
    (fun e => output_error (str_exn e);;; sys_exit 1).

End Script.
End BraveSearch.

(** ** [pathlib.Path] over the filesystem tree *)

Module Pathlib.
Import Py PyOps.
Local Open Scope py_scope.

(** A path as [pathlib] keeps it: whether it starts at the root, and its
    components, innermost first.  [Path('a/b/c')] has parts [c; b; a]. *)
Record path := PurePath {
  absolute : bool;
  parts : list string
}.

Fixpoint split_on (sep : ascii) (s : string) : list string :=
  match s with
  | EmptyString => [EmptyString]
  | String c s' =>
      if Ascii.eqb c sep then EmptyString :: split_on sep s'
      else match split_on sep s' with
           | [] => [String c EmptyString]
           | seg :: segs => String c seg :: segs
           end
  end.

Definition is_name (seg : string) : bool :=
  negb (String.eqb seg "") && negb (String.eqb seg ".").

(** Parsing drops empty and [.] components and keeps [..]. *)
Definition parse (s : string) : path :=
  PurePath (String.prefix "/" s) (rev (List.filter is_name (split_on "/" s))).

Definition Path (v : value) : M path :=
  match v with
  | VStr s => ret (parse s)
  | _ => raise (TypeError "expected str, bytes or os.PathLike object")
  end.

(** [path.parent]; the root and [.] are their own parent. *)
Definition parent (p : path) : path := PurePath (absolute p) (tail (parts p)).

Fixpoint join_parts (ps : list string) : string :=
  match ps with
  | [] => ""
  | [c] => c
  | c :: up => join_parts up +:+ "/" +:+ c
  end.

Definition path_str (p : path) : string :=
  match absolute p, parts p with
  | true, ps => "/" +:+ join_parts ps
  | false, [] => "."
  | false, ps => join_parts ps
  end.

(** *** Name resolution *)

(** Where a walk starts. *)
Definition start (p : path) (w : world) : key :=
  if absolute p then [] else cwd w.

(** One step down from directory [d]; [..] goes up, and the root is its own
    parent. *)
Definition enter (c : string) (d : key) : key :=
  if String.eqb c ".." then tail d else c :: d.

(** Resolution of all components: every component but the last must name an
    existing directory; the location reached need not exist. *)
Fixpoint namei (f : gmap key node) (from : key) (ps : list string) : errno + key :=
  match ps with
  | [] => inr from
  | c :: up =>
      match namei f from up with
      | inl e => inl e
      | inr d =>
          match f !! d with
          | None => inl ENOENT
          | Some (File _) => inl ENOTDIR
          | Some Dir => inr (enter c d)
          end
      end
  end.

Definition os_error {A} (e : errno) (p : path) : M A :=
  raise (OSError e (path_str p)).

(** What a path leads to: the node, or the error of the failed lookup. *)
Definition locate (w : world) (p : path) : errno + node :=
  match namei (fs w) (start p w) (parts p) with
  | inl e => inl e
  | inr k =>
      match fs w !! k with
      | None => inl ENOENT
      | Some n => inr n
      end
  end.

(** [os.stat(path)] *)
Definition stat (p : path) : M node :=
  fun w =>
    match locate w p with
    | inl e => os_error e p w
    | inr n => (Ret n, w)
    end.

(** The errors [Path.exists] and [Path.is_dir] turn into [False]. *)
Definition ignored (e : exn) : bool :=
  match e with
  | OSError ENOENT _ | OSError ENOTDIR _ => true
  | _ => false
  end.

(** [path.exists()] *)
Definition path_exists (p : path) : M bool :=
  try_except (stat p;;; ret true)
             (fun e => if ignored e then ret false else raise e).

(** [path.is_dir()] *)
Definition is_dir (p : path) : M bool :=
  try_except (n <~ stat p;; ret (match n with Dir => true | File _ => false end))
             (fun e => if ignored e then ret false else raise e).

(** [os.mkdir(path)] *)
Definition os_mkdir (p : path) : M unit :=
  fun w =>
    match namei (fs w) (start p w) (parts p) with
    | inl e => os_error e p w
    | inr k =>
        match fs w !! k, parts p with
        | Some _, _ => os_error EEXIST p w
        | None, [] => os_error ENOENT p w
        | None, _ :: _ => (Ret tt, set_fs (<[k := Dir]> (fs w)) w)
        end
    end.

(** [path.mkdir(parents=False, exist_ok=exist_ok)] *)
Definition mkdir_flat (exist_ok : bool) (p : path) : M unit :=
  try_except (os_mkdir p)
    (fun e =>
       match e with
       | OSError ENOENT _ => raise e
       | OSError _ _ =>
           d <~ is_dir p;;
           if negb exist_ok || negb d then raise e else ret tt
       | _ => raise e
       end).

(** [path.mkdir(parents=True, exist_ok=True)]: try the directory itself, on
    [FileNotFoundError] make the parent the same way and try again. *)
Fixpoint mkdir_parents_at (abs : bool) (ps : list string) : M unit :=
  let p := PurePath abs ps in
  try_except (os_mkdir p)
    (fun e =>
       match e with
       | OSError ENOENT _ =>
           match ps with
           | [] => raise e
           | _ :: up => mkdir_parents_at abs up;;; mkdir_flat true p
           end
       | OSError _ _ =>
           d <~ is_dir p;;
           if negb d then raise e else ret tt
       | _ => raise e
       end).

Definition mkdir_parents (p : path) : M unit :=
  mkdir_parents_at (absolute p) (parts p).

(** *** Text I/O *)

Section TextIO.
Context `{Runtime}.

(** The [encoding] argument of [open]: a name, or [None] for the locale's. *)
Definition io_encoding (encoding : value) : M string :=
  match encoding with
  | VStr name => ret name
  | VNone => ret locale_encoding
  | _ => raise (TypeError "open() argument 'encoding' must be str or None")
  end.

(** [text.encode(encoding)] *)
Definition py_encode (text encoding : value) : M (list byte) :=
  match text with
  | VStr s =>
      match encoding with
      | VStr name => lift (str_encode name s)
      | _ => raise (TypeError "encode() argument 'encoding' must be str")
      end
  | _ => raise (AttributeError "encode")
  end.

(** Reading in text mode with [newline=None]: [\r\n] and a lone [\r] both
    arrive as [\n]. *)
Fixpoint universal_newlines (s : string) : string :=
  match s with
  | EmptyString => EmptyString
  | String c s' =>
      if Ascii.eqb c "013" then
        match s' with
        | String c' s'' =>
            if Ascii.eqb c' "010" then String "010" (universal_newlines s'')
            else String "010" (universal_newlines s')
        | EmptyString => String "010" EmptyString
        end
      else String c (universal_newlines s')
  end.

(** [open(path, 'w')]: the file is created, or emptied if it is there. *)
Definition open_for_write (p : path) : M key :=
  fun w =>
    match namei (fs w) (start p w) (parts p) with
    | inl e => os_error e p w
    | inr k =>
        match fs w !! k, parts p with
        | Some Dir, _ => os_error EISDIR p w
        | None, [] => os_error ENOENT p w
        | _, _ => (Ret k, set_fs (<[k := File []]> (fs w)) w)
        end
    end.

Definition put_file (k : key) (data : list byte) : M unit :=
  fun w => (Ret tt, set_fs (<[k := File data]> (fs w)) w).

(** [path.write_text(data, encoding=encoding)].  On POSIX the text is written
    as it is encoded ([\n] stays [\n]).  A codec failure leaves the file
    empty: it was opened before anything was encoded. *)
Definition write_text (p : path) (data encoding : value) : M unit :=
  match data with
  | VStr text =>
      name <~ io_encoding encoding;;
      k <~ open_for_write p;;
      encoded <~ lift (str_encode name text);;
      put_file k encoded
  | _ => raise (TypeError "data must be str")
  end.

(** [open(path, 'r')] *)
Definition open_for_read (p : path) : M (list byte) :=
  n <~ stat p;;
  match n with
  | File data => ret data
  | Dir => os_error EISDIR p
  end.

(** [path.read_text(encoding=encoding)] *)
Definition read_text (p : path) (encoding : value) : M string :=
  name <~ io_encoding encoding;;
  data <~ open_for_read p;;
  text <~ lift (bytes_decode name data);;
  ret (universal_newlines text).

(** [path.stat().st_size] *)
Definition st_size (p : path) : M Z :=
  n <~ stat p;;
  ret (match n with
       | File data => Z.of_nat (length data)
       | Dir => dir_st_size
       end).

(** [path.unlink()] *)
Definition unlink (p : path) : M unit :=
  fun w =>
    match namei (fs w) (start p w) (parts p) with
    | inl e => os_error e p w
    | inr k =>
        match fs w !! k with
        | None => os_error ENOENT p w
        | Some Dir => os_error EISDIR p w
        | Some (File _) => (Ret tt, set_fs (delete k (fs w)) w)
        end
    end.

End TextIO.
End Pathlib.

(** ** skills/file/main.py *)

Module FileSkill.
Import Py PyOps Pathlib.
Local Open Scope py_scope.

Section Script.
Context `{Runtime}.

Definition failure (error : string) : dict :=
  [("success", VBool false); ("error", VStr error)].

(** Prints the failure envelope and leaves through [sys.exit(1)]. *)
Definition output_error {A} (message : string) : M A :=
  print_json (failure message);;; sys_exit 1.

Definition read_file (file_path encoding : value) : M dict :=
  try_except
    (path <~ Path file_path;;
     found <~ path_exists path;;
     if negb found then
       ret (failure ("文件不存在: " +:+ py_str file_path))
     else
       content <~ read_text path encoding;;
       size <~ st_size path;;
       ret [("success", VBool true);
            ("data", VDict [("content", VStr content);
                            ("path", file_path);
                            ("size", VInt size)]);
            ("message", VStr content)])
    (fun e => ret (failure ("读取文件失败: " +:+ str_exn e))).

Definition write_file (file_path content encoding : value) : M dict :=
  try_except
    (path <~ Path file_path;;
     mkdir_parents (parent path);;;
     write_text path content encoding;;;
     encoded <~ py_encode content encoding;;
     ret [("success", VBool true);
          ("data", VDict [("path", file_path);
                          ("size", VInt (Z.of_nat (length encoded)))]);
          ("message", VStr ("文件已写入: " +:+ py_str file_path))])
    (fun e => ret (failure ("写入文件失败: " +:+ str_exn e))).

Definition create_file (file_path content encoding : value) : M dict :=
  try_except
    (path <~ Path file_path;;
     mkdir_parents (parent path);;;
     write_text path content encoding;;;
     encoded <~ py_encode content encoding;;
     ret [("success", VBool true);
          ("data", VDict [("path", file_path);
                          ("size", VInt (Z.of_nat (length encoded)))]);
          ("message", VStr ("文件已创建: " +:+ py_str file_path))])
    (fun e => ret (failure ("创建文件失败: " +:+ str_exn e))).

Definition delete_file (file_path : value) : M dict :=
  try_except
    (path <~ Path file_path;;
     found <~ path_exists path;;
     if negb found then
       ret (failure ("文件不存在: " +:+ py_str file_path))
     else
       unlink path;;;
       ret [("success", VBool true);
            ("message", VStr ("文件已删除: " +:+ py_str file_path))])
    (fun e => ret (failure ("删除文件失败: " +:+ str_exn e))).

Definition exists_file (file_path : value) : M dict :=
  try_except
    (path <~ Path file_path;;
     found <~ path_exists path;;
     ret [("success", VBool true);
          ("data", VDict [("exists", VBool found)]);
          ("message", VStr ("文件" +:+ (if found then "存在" else "不存在")
                              +:+ ": " +:+ py_str file_path))])
    (fun e => ret (failure ("检查文件失败: " +:+ str_exn e))).

(** [sys.stdin.read()]: everything there is, which is then consumed. *)
Definition stdin_read : M string :=
  fun w => (Ret (stdin w), set_stdin "" w).

Definition main : M unit :=
  try_except
    (has <~ environ_has "BAIZE_PARAMS";;
     input_data <~ (if has : bool then
                      raw <~ environ_item "BAIZE_PARAMS";;
                      lift (json_loads raw)
                    else
                      stdin_data <~ stdin_read;;
                      if negb (String.eqb stdin_data "") then
                        lift (json_loads stdin_data)
                      else output_error "没有输入参数");;
     params <~ py_get input_data "params" (VDict []);;
     action <~ py_get params "action" VNone;;
     file_path <~ py_get params "path" VNone;;
     content <~ py_get params "content" (VStr "");;
     encoding <~ py_get params "encoding" (VStr "utf-8");;
     if negb (truthy action) then output_error "缺少 action 参数"
     else if negb (truthy file_path) then output_error "缺少 path 参数"
     else
       result <~ (if eq_str action "read" then
                    read_file file_path encoding
                  else if eq_str action "write" then
                    write_file file_path content encoding
                  else if eq_str action "create" then
                    create_file file_path content encoding
                  else if eq_str action "delete" then
                    delete_file file_path
                  else if eq_str action "exists" then
                    exists_file file_path
                  else ret (failure ("未知操作: " +:+ py_str action)));;
       print_json result)
    (fun e => output_error (str_exn e)).

End Script.
End FileSkill.

(** ** Vocabulary of the statements *)

Module Vocabulary.
Import Py PyOps.

(** [sub] occurs in [s]. *)
Definition contains (sub s : string) : Prop :=
  exists before after, s = before +:+ sub +:+ after.

(** The value a parameter has once its default is applied. *)
Definition param (ps : dict) (k : string) (default : value) : value :=
  match lookup_key k ps with
  | Some v => v
  | None => default
  end.

(** The record the specification gives for one search result: the three
    fields, each defaulting to the empty string. *)
Definition record_of (item : dict) : dict :=
  [("title", param item "title" (VStr ""));
   ("url", param item "url" (VStr ""));
   ("description", param item "description" (VStr ""))].

(** The path leads to something. *)
Definition present (w : world) (p : Pathlib.path) : bool :=
  match Pathlib.locate w p with
  | inr _ => true
  | inl _ => false
  end.

(** The filesystem is a tree: the root is a directory, and whatever exists
    lies in a directory. *)
Definition tree (f : gmap key node) : Prop :=
  f !! [] = Some Dir
  /\ forall c d n, f !! (c :: d) = Some n -> f !! d = Some Dir.

(** Character [c] occurs in [s]. *)
Fixpoint mentions (c : ascii) (s : string) : bool :=
  match s with
  | EmptyString => false
  | String c' s' => Ascii.eqb c' c || mentions c s'
  end.

(** The world is in order: the filesystem is a tree and the working
    directory is one of its directories. *)
Definition well_formed (w : world) : Prop :=
  tree (fs w) /\ fs w !! cwd w = Some Dir.

(** The computation touches nothing but the filesystem, and does not leave
    through [sys.exit]. *)
Definition fs_only {A} (m : M A) : Prop :=
  forall w o w',
    m w = (o, w') -> (exists f', w' = set_fs f' w) /\ (forall code, o <> Exit code).

(** The envelope is a success envelope. *)
Definition successful (envelope : dict) : Prop :=
  lookup_key "success" envelope = Some (VBool true).

Section Invocation.
Context `{Runtime}.

(** The search script is started with parameter object [ps]: either
    [BAIZE_PARAMS] holds JSON for an object whose [params] is [ps], or the
    variable is unset and [ps] is empty. *)
Definition search_invoked (w : world) (ps : dict) : Prop :=
  match environ w !! "BAIZE_PARAMS" with
  | Some raw =>
      exists d, json_loads raw = inr (VDict d)
                /\ param d "params" (VDict []) = VDict ps
  | None => ps = []
  end.

(** The text the file script parses: [BAIZE_PARAMS], else a non-empty
    standard input. *)
Definition file_input (w : world) : option string :=
  match environ w !! "BAIZE_PARAMS" with
  | Some raw => Some raw
  | None => if String.eqb (stdin w) "" then None else Some (stdin w)
  end.

(** The world once the input has been read: standard input is consumed when
    the variable is unset. *)
Definition consumed (w : world) : world :=
  match environ w !! "BAIZE_PARAMS" with
  | Some _ => w
  | None => set_stdin "" w
  end.

(** The file script is started with parameter object [ps]. *)
Definition file_invoked (w : world) (ps : dict) : Prop :=
  exists raw d,
    file_input w = Some raw
    /\ json_loads raw = inr (VDict d)
    /\ param d "params" (VDict []) = VDict ps.

(** The operation the file script performs for [ps], once [action] and
    [path] have passed validation. *)
Definition selected (ps : dict) : M dict :=
  let action := param ps "action" VNone in
  let file_path := param ps "path" VNone in
  let content := param ps "content" (VStr "") in
  let encoding := param ps "encoding" (VStr "utf-8") in
  if eq_str action "read" then FileSkill.read_file file_path encoding
  else if eq_str action "write" then FileSkill.write_file file_path content encoding
  else if eq_str action "create" then FileSkill.create_file file_path content encoding
  else if eq_str action "delete" then FileSkill.delete_file file_path
  else if eq_str action "exists" then FileSkill.exists_file file_path
  else ret (FileSkill.failure ("未知操作: " +:+ py_str action)).

(** The steps [write_file] and [create_file] have in common, up to the
    encoded content whose length they report. *)
Definition write_steps (file_path content encoding : value) : M (list byte) :=
  Py.bind (Pathlib.Path file_path) (fun path =>
  Py.bind (Pathlib.mkdir_parents (Pathlib.parent path)) (fun _ =>
  Py.bind (Pathlib.write_text path content encoding) (fun _ =>
  Pathlib.py_encode content encoding))).

End Invocation.
End Vocabulary.

(** ** Concrete runs *)

Module Sample.
Import Py PyOps Pathlib Vocabulary.

(** The wording CPython gives the exceptions of the model. *)
Definition describe (e : exn) : string :=
  match e with
  | Exception msg => msg
  | HTTPError code _ => "HTTP Error " +:+ str_of_Z code
  | OSError ENOENT f => "[Errno 2] No such file or directory: '" +:+ f +:+ "'"
  | OSError ENOTDIR f => "[Errno 20] Not a directory: '" +:+ f +:+ "'"
  | OSError EEXIST f => "[Errno 17] File exists: '" +:+ f +:+ "'"
  | OSError EISDIR f => "[Errno 21] Is a directory: '" +:+ f +:+ "'"
  | TypeError what => what
  | AttributeError what => "object has no attribute '" +:+ what +:+ "'"
  | LibraryError _ detail => detail
  end.

(** A runtime to run the scripts with.  [json_loads] is a table: each text
    stands for the JSON document whose value the table gives, any other text
    is malformed.  The one codec is UTF-8, under which a text and its bytes
    are the same sequence. *)
Definition table_runtime (documents : list (string * value)) : Runtime := {|
  json_loads raw :=
    match lookup_key raw documents with
    | Some v => inr v
    | None => inl (LibraryError "JSONDecodeError" "Expecting value")
    end;
  exn_text := describe;
  container_str _ := "[...]";
  str_encode name text :=
    if String.eqb name "utf-8" then inr (list_byte_of_string text)
    else inl (LibraryError "LookupError" ("unknown encoding: " +:+ name));
  bytes_decode name data :=
    if String.eqb name "utf-8" then inr (string_of_list_byte data)
    else inl (LibraryError "LookupError" ("unknown encoding: " +:+ name));
  locale_encoding := "utf-8";
  dir_st_size := 4096
|}.

Definition params (ps : dict) : value := VDict [("params", VDict ps)].

Definition one_result : value :=
  VDict [("web", VDict [("results",
    VList [VDict [("title", VStr "A"); ("url", VStr "http://a");
                  ("description", VStr "d")]])])].

(** Text with a carriage return in the middle. *)
Definition two_lines_cr : string := "a" +:+ String "013" "b".
Definition two_lines_lf : string := "a" +:+ String "010" "b".

Definition documents : list (string * value) :=
  [("<search baize>", params [("query", VStr "baize")]);
   ("<one result>", one_result);
   ("<write d/e/f.txt hello>",
    params [("action", VStr "write"); ("path", VStr "d/e/f.txt");
            ("content", VStr "hello")]);
   ("<write d/e/f.txt a CR b>",
    params [("action", VStr "write"); ("path", VStr "d/e/f.txt");
            ("content", VStr two_lines_cr)]);
   ("<write notes.txt/sub/f.txt hello>",
    params [("action", VStr "write"); ("path", VStr "notes.txt/sub/f.txt");
            ("content", VStr "hello")]);
   ("<write x/.. hello>",
    params [("action", VStr "write"); ("path", VStr "x/..");
            ("content", VStr "hello")]);
   ("<read d/e/f.txt>", params [("action", VStr "read"); ("path", VStr "d/e/f.txt")]);
   ("<read missing.txt>", params [("action", VStr "read"); ("path", VStr "missing.txt")]);
   ("<delete notes.txt>", params [("action", VStr "delete"); ("path", VStr "notes.txt")]);
   ("<exists notes.txt>", params [("action", VStr "exists"); ("path", VStr "notes.txt")]);
   ("<delete d>", params [("action", VStr "delete"); ("path", VStr "d")]);
   ("<exists d>", params [("action", VStr "exists"); ("path", VStr "d")]);
   ("<frobnicate x>", params [("action", VStr "frobnicate"); ("path", VStr "x")])].

Definition python : Runtime := table_runtime documents.

Definition unreachable (r : request) : response :=
  RespFail (LibraryError "URLError" "<urlopen error unreachable>").

Definition forbidden (r : request) : response :=
  RespError 403 (list_byte_of_string "forbidden").

Definition answering (r : request) : response :=
  Resp2xx (list_byte_of_string "<one result>").

(** A process started with [BAIZE_PARAMS] set to [raw], over filesystem [f],
    in the root directory. *)
Definition started (raw : string) (f : gmap key node) : world :=
  World {[ "BAIZE_PARAMS" := raw ]} "" [] f [] unreachable [].

(** A search process: parameters and API key in the environment. *)
Definition searching (raw : string) (server : request -> response) : world :=
  World (<[ "BRAVE_API_KEY" := "key" ]> {[ "BAIZE_PARAMS" := raw ]}) ""
        [] {[ [] := Dir ]} [] server [].

(** A search process with nothing in the environment. *)
Definition bare : world :=
  World ∅ "" [] {[ [] := Dir ]} [] unreachable [].

(** A later process on the filesystem an earlier one left behind. *)
Definition restarted (raw : string) (w : world) : world :=
  started raw (fs w).

Definition empty_disk : gmap key node := {[ [] := Dir ]}.

(** A disk with one file, [/notes.txt]. *)
Definition disk_with_notes : gmap key node :=
  <[ ["notes.txt"] := File (list_byte_of_string "remember") ]> empty_disk.

(** A disk with one directory, [/d]. *)
Definition disk_with_dir : gmap key node := <[ ["d"] := Dir ]> empty_disk.

End Sample.

(** ** Vocabulary of the further statements *)

Module Further.
Import Py PyOps Pathlib Vocabulary.

(** The exception is an [urllib.error.HTTPError]. *)
Definition is_http (e : exn) : bool :=
  match e with
  | HTTPError _ _ => true
  | _ => false
  end.

(** The value is a [str]. *)
Definition is_str (v : value) : bool :=
  match v with
  | VStr _ => true
  | _ => false
  end.

(** The value is a [dict]. *)
Definition is_dict (v : value) : bool :=
  match v with
  | VDict _ => true
  | _ => false
  end.

(** The failure envelope. *)
Definition failure_of (error : string) : dict :=
  [("success", VBool false); ("error", VStr error)].

(** The envelope is one of the two the scripts print: a success envelope, or
    the failure envelope of some error string. *)
Definition enveloped (envelope : dict) : Prop :=
  successful envelope \/ exists error, envelope = failure_of error.

(** The computation leaves the world as it is, and does not leave through
    [sys.exit]. *)
Definition unchanged {A} (m : M A) : Prop :=
  forall w o w', m w = (o, w') -> w' = w /\ (forall code, o <> Exit code).

(** Every character of [s] satisfies [ok]. *)
Fixpoint all_chars (ok : ascii -> bool) (s : string) : bool :=
  match s with
  | EmptyString => true
  | String c s' => ok c && all_chars ok s'
  end.

(** [f'] is [f] with directories added where there was nothing. *)
Definition adds_dirs (f f' : gmap key node) : Prop :=
  forall k, f' !! k = f !! k \/ (f !! k = None /\ f' !! k = Some Dir).

(** The filesystem is changed by added directories and nothing else, and the
    computation does not leave through [sys.exit]. *)
Definition dirs_only {A} (m : M A) : Prop :=
  forall w o w',
    m w = (o, w') ->
    (exists f', w' = set_fs f' w /\ adds_dirs (fs w) f') /\ (forall code, o <> Exit code).

End Further.

(** ** Further concrete runs *)

Module Cases.
Import Py PyOps Pathlib Vocabulary Sample.

(** A response without [web]. *)
Definition no_web : value := VDict [("type", VStr "search")].

(** A response whose second result is not an object. *)
Definition mixed_results : value :=
  VDict [("web", VDict [("results",
    VList [VDict [("title", VStr "A"); ("url", VStr "http://a");
                  ("description", VStr "d")];
           VStr "B"])])].

Definition more_documents : list (string * value) :=
  documents ++
  [("<search 5>", params [("query", VInt 5)]);
   ("<a list>", VList []);
   ("<no web>", no_web);
   ("<mixed results>", mixed_results);
   ("<read>", params [("action", VStr "read")])].

(** The runtime of [table_runtime] over the longer table, with a UTF-8
    decoder that refuses the byte [0xFF], which no UTF-8 text holds. *)
Definition strict : Runtime := {|
  json_loads raw :=
    match lookup_key raw more_documents with
    | Some v => inr v
    | None => inl (LibraryError "JSONDecodeError" "Expecting value")
    end;
  exn_text := describe;
  container_str _ := "[...]";
  str_encode name text :=
    if String.eqb name "utf-8" then inr (list_byte_of_string text)
    else inl (LibraryError "LookupError" ("unknown encoding: " +:+ name));
  bytes_decode name data :=
    if String.eqb name "utf-8" then
      if existsb (Byte.eqb xff) data then
        inl (LibraryError "UnicodeDecodeError" "invalid start byte")
      else inr (string_of_list_byte data)
    else inl (LibraryError "LookupError" ("unknown encoding: " +:+ name));
  locale_encoding := "utf-8";
  dir_st_size := 4096
|}.

(** A server that answers with the document named [raw]. *)
Definition answering_with (raw : string) (r : request) : response :=
  Resp2xx (list_byte_of_string raw).

(** A server that answers with a page that is not JSON. *)
Definition garbling (r : request) : response :=
  Resp2xx (list_byte_of_string "<html>").

(** A server that refuses with a body that is not UTF-8. *)
Definition refusing (r : request) : response :=
  RespError 500 [xff].

(** A disk with one file, [/cr.txt], holding a carriage return. *)
Definition disk_with_cr : gmap key node :=
  <[ ["cr.txt"] := File (list_byte_of_string two_lines_cr) ]> empty_disk.

End Cases.

(** ** Strings and truth values: facts *)

Module Basics.
Import Py Vocabulary.

Lemma string_app_nil_r (a : string) : a +:+ "" = a.
Proof.
  induction a as [|x a IH]; [reflexivity|].
  change (String x (a +:+ "") = String x a). now rewrite IH.
Qed.

Lemma string_app_assoc (a b c : string) : (a +:+ b) +:+ c = a +:+ b +:+ c.
Proof.
  induction a as [|x a IH]; [reflexivity|].
  change (String x ((a +:+ b) +:+ c) = String x (a +:+ b +:+ c)). now rewrite IH.
Qed.

Lemma contains_middle (a sub b : string) : contains sub (a +:+ sub +:+ b).
Proof. exists a, b. reflexivity. Qed.

Lemma contains_end (a sub : string) : contains sub (a +:+ sub).
Proof. exists a, "". now rewrite string_app_nil_r. Qed.

Lemma truthy_str (s : string) : s <> "" -> truthy (VStr s) = true.
Proof.
  intros Hs. cbn. destruct (String.eqb_spec s ""); [contradiction | reflexivity].
Qed.

End Basics.

(** ** The search skill: facts *)

Module SearchFacts.
Import Py PyOps BraveSearch Vocabulary Basics.

Section Facts.
Context `{Runtime}.

(** [main] up to the validation of [query]. *)
Lemma main_params (w : world) (ps : dict) :
  search_invoked w ps ->
  main w =
  try_except
    (let query := param ps "query" VNone in
     let count := param ps "count" (VInt 5) in
     let offset := param ps "offset" (VInt 0) in
     if negb (truthy query) then
       output_error "请提供搜索关键词 (query)"
     else
       Py.bind (environ_get "BRAVE_API_KEY") (fun api_key =>
       if negb (truthy api_key) then
         output_error "未设置 BRAVE_API_KEY 环境变量，请在 .env 文件中添加: BRAVE_API_KEY=your_key"
       else
         Py.bind (search_brave query api_key count offset) (fun results =>
         output_success results (found_message (length results)))))
    (fun e => Py.bind (output_error (str_exn e)) (fun _ => sys_exit 1)) w.
Proof.
  unfold search_invoked. intros Hin.
  unfold main, try_except. cbv beta delta [bind environ_has environ_item].
  destruct (environ w !! "BAIZE_PARAMS") as [raw|] eqn:Henv.
  - destruct Hin as (d & Hload & Hps).
    cbv beta iota. rewrite Henv. cbv beta iota. rewrite Hload.
    cbv beta iota delta [lift ret py_get].
    fold (param d "params" (VDict [])). rewrite Hps. reflexivity.
  - subst ps. reflexivity.
Qed.

(** C2.  When the [query] parameter is missing or the empty string, the
    search script prints the failure envelope [{success: false, error: e}]
    with [e] non-empty, sends no request, and ends with status 0. *)
Theorem missing_query_fails_locally (w : world) (ps : dict) :
  search_invoked w ps ->
  lookup_key "query" ps = None \/ lookup_key "query" ps = Some (VStr "") ->
  exists error,
    main w = (Ret tt, set_stdout (stdout w ++ [[("success", VBool false); ("error", VStr error)]]) w)
    /\ error <> ""
    /\ sent (snd (main w)) = sent w
    /\ exit_code (fst (main w)) = 0.
Proof.
  intros Hin Hq. rewrite (main_params w ps Hin).
  assert (Hfalsy : truthy (param ps "query" VNone) = false).
  { unfold param. destruct Hq as [-> | ->]; reflexivity. }
  unfold try_except. cbv zeta. rewrite Hfalsy. cbn [negb].
  eexists. split; [reflexivity|]. repeat split. discriminate.
Qed.

Lemma parse_loop_dicts (items : list dict) (acc : list dict) (w : world) :
  parse_loop (map VDict items) acc w = (Ret (acc ++ map record_of items), w).
Proof.
  revert acc. induction items as [|item items IH]; intros acc; cbn [map parse_loop].
  - unfold ret. now rewrite app_nil_r.
  - unfold bind at 1. unfold result_record, bind, py_get, ret.
    fold (param item "title" (VStr "")) (param item "url" (VStr ""))
         (param item "description" (VStr "")).
    fold (record_of item). rewrite IH, <- app_assoc. reflexivity.
Qed.

Lemma parse_results_ok (d web : dict) (rs : list dict) (w : world) :
  lookup_key "web" d = Some (VDict web) ->
  lookup_key "results" web = Some (VList (map VDict rs)) ->
  parse_results (VDict d) w = (Ret (map record_of rs), w).
Proof.
  intros Hweb Hres. unfold parse_results, bind, py_get, ret.
  rewrite Hweb, Hres. cbn [py_iter]. unfold ret. apply (parse_loop_dicts rs []).
Qed.

Lemma search_brave_http_error (w : world) (q : string) (key count offset : value)
      (code : Z) (body : list Byte.byte) (text : string) :
  let req := search_request (quote_text q) key count offset in
  remote w req = RespError code body ->
  bytes_decode "utf-8" body = inr text ->
  search_brave (VStr q) key count offset w =
  (Raise (Exception (http_error_message code text)), set_sent (sent w ++ [req]) w).
Proof.
  intros req Hremote Hdecode.
  unfold search_brave, bind, quote, ret, try_except_http, urlopen.
  fold req. rewrite Hremote, Hdecode. reflexivity.
Qed.

Lemma search_brave_ok (w : world) (q : string) (key count offset : value)
      (body : list Byte.byte) (text : string) (d web : dict) (items : list dict) :
  let req := search_request (quote_text q) key count offset in
  remote w req = Resp2xx body ->
  bytes_decode "utf-8" body = inr text ->
  json_loads text = inr (VDict d) ->
  lookup_key "web" d = Some (VDict web) ->
  lookup_key "results" web = Some (VList (map VDict items)) ->
  search_brave (VStr q) key count offset w =
  (Ret (map record_of items), set_sent (sent w ++ [req]) w).
Proof.
  intros req Hremote Hdecode Hload Hweb Hres.
  unfold search_brave, bind, quote, ret, try_except_http, urlopen.
  fold req. rewrite Hremote, Hdecode. cbn [lift]. unfold ret. rewrite Hload.
  cbn [lift]. unfold ret. rewrite (parse_results_ok d web items _ Hweb Hres).
  reflexivity.
Qed.

(** [main] once query and key have passed validation. *)
Lemma main_searches (w : world) (ps : dict) (q key : string) :
  search_invoked w ps ->
  lookup_key "query" ps = Some (VStr q) -> q <> "" ->
  environ w !! "BRAVE_API_KEY" = Some key -> key <> "" ->
  main w =
  try_except
    (Py.bind (search_brave (VStr q) (VStr key) (param ps "count" (VInt 5))
                           (param ps "offset" (VInt 0)))
       (fun results => output_success results (found_message (length results))))
    (fun e => Py.bind (output_error (str_exn e)) (fun _ => sys_exit 1)) w.
Proof.
  intros Hin Hq Hqne Hkey Hkne. rewrite (main_params w ps Hin).
  unfold try_except. cbv zeta. unfold param at 1 2. rewrite Hq.
  rewrite (truthy_str q Hqne). cbn [negb].
  unfold bind at 1. unfold environ_get. rewrite Hkey.
  rewrite (truthy_str key Hkne). reflexivity.
Qed.

(** C1, amended.  When the search endpoint answers with an HTTP error
    (status [code], body [text]), the script prints a failure envelope whose
    error string contains both the status code and the body text, and ends
    with status 1: the error is re-raised as an [Exception] and reaches the
    handler of [main], like any other exception. *)
Theorem http_error_reported_with_exit_1 (w : world) (ps : dict) (q key : string)
        (code : Z) (body : list Byte.byte) (text : string) :
  search_invoked w ps ->
  lookup_key "query" ps = Some (VStr q) -> q <> "" ->
  environ w !! "BRAVE_API_KEY" = Some key -> key <> "" ->
  remote w (search_request (quote_text q) (VStr key) (param ps "count" (VInt 5))
                           (param ps "offset" (VInt 0))) = RespError code body ->
  bytes_decode "utf-8" body = inr text ->
  exists error,
    stdout (snd (main w)) = stdout w ++ [[("success", VBool false); ("error", VStr error)]]
    /\ contains (str_of_Z code) error
    /\ contains text error
    /\ exit_code (fst (main w)) = 1.
Proof.
  intros Hin Hq Hqne Hkey Hkne Hremote Hdecode.
  set (req := search_request _ _ _ _) in Hremote.
  assert (Hmain : main w =
            (Exit 1, set_stdout (stdout w ++ [[("success", VBool false);
                                               ("error", VStr (http_error_message code text))]])
                                (set_sent (sent w ++ [req]) w))).
  { rewrite (main_searches w ps q key Hin Hq Hqne Hkey Hkne).
    unfold try_except, bind at 1.
    now rewrite (search_brave_http_error w q _ _ _ code body text Hremote Hdecode). }
  rewrite Hmain.
  exists (http_error_message code text).
  split; [reflexivity|]. split; [|split; [|reflexivity]].
  - unfold http_error_message. apply contains_middle.
  - unfold http_error_message. rewrite <- !string_app_assoc. apply contains_end.
Qed.

(** C5.  For a 2xx response whose JSON has a list of objects at
    [web.results], the script prints a success envelope whose [data.results]
    holds one record [{title, url, description}] per item, in order, each
    missing field being the empty string, and whose message is
    [找到 N 个结果] with N the number of items. *)
Theorem results_mapped_one_to_one (w : world) (ps : dict) (q key : string)
        (body : list Byte.byte) (text : string) (d web : dict) (items : list dict) :
  search_invoked w ps ->
  lookup_key "query" ps = Some (VStr q) -> q <> "" ->
  environ w !! "BRAVE_API_KEY" = Some key -> key <> "" ->
  remote w (search_request (quote_text q) (VStr key) (param ps "count" (VInt 5))
                           (param ps "offset" (VInt 0))) = Resp2xx body ->
  bytes_decode "utf-8" body = inr text ->
  json_loads text = inr (VDict d) ->
  lookup_key "web" d = Some (VDict web) ->
  lookup_key "results" web = Some (VList (map VDict items)) ->
  fst (main w) = Ret tt
  /\ stdout (snd (main w)) =
     stdout w ++
     [[("success", VBool true);
       ("data", VDict [("results", VList (map VDict (map record_of items)))]);
       ("message", VStr ("找到 " +:+ str_of_nat (length items) +:+ " 个结果"))]]
  /\ length (map record_of items) = length items.
Proof.
  intros Hin Hq Hqne Hkey Hkne Hremote Hdecode Hload Hweb Hres.
  set (req := search_request _ _ _ _) in Hremote.
  assert (Hmain : main w =
            (Ret tt,
             set_stdout
               (stdout w ++
                [[("success", VBool true);
                  ("data", VDict [("results", VList (map VDict (map record_of items)))]);
                  ("message", VStr (found_message (length items)))]])
               (set_sent (sent w ++ [req]) w))).
  { rewrite (main_searches w ps q key Hin Hq Hqne Hkey Hkne).
    unfold try_except, bind at 1.
    rewrite (search_brave_ok w q _ _ _ body text d web items Hremote Hdecode Hload Hweb Hres).
    unfold output_success, print_json. now rewrite length_map. }
  rewrite Hmain. split; [reflexivity|]. split; [reflexivity|apply length_map].
Qed.
End Facts.
End SearchFacts.

(** ** Name resolution and [mkdir]: facts *)

Module PathlibFacts.
Import Py PyOps Pathlib Vocabulary.

Lemma set_fs_same (w : world) : set_fs (fs w) w = w.
Proof. now destruct w. Qed.

Lemma enter_name (c : string) (d : key) : c <> ".." -> enter c d = c :: d.
Proof.
  intros Hc. unfold enter. destruct (String.eqb_spec c ".."); [contradiction | reflexivity].
Qed.

(** A successful walk without [..] ends at the components themselves. *)
Lemma namei_key (f : gmap key node) (from : key) (ps : list string) (k : key) :
  ".." ∉ ps -> namei f from ps = inr k -> k = ps ++ from.
Proof.
  revert k. induction ps as [|c up IH]; intros k Hdd; cbn [namei].
  - now intros [= <-].
  - apply not_elem_of_cons in Hdd as [Hc Hup].
    destruct (namei f from up) as [e|d]; [discriminate|].
    destruct (f !! d) as [[data|]|]; try discriminate.
    intros [= <-]. rewrite (enter_name c d) by congruence. now rewrite (IH d Hup eq_refl).
Qed.

(** The walk only fails with one of two errors. *)
Lemma namei_errno (f : gmap key node) (from : key) (ps : list string) (e : errno) :
  namei f from ps = inl e -> e = ENOENT \/ e = ENOTDIR.
Proof.
  induction ps as [|c up IH]; cbn [namei]; [discriminate|].
  destruct (namei f from up) as [e'|d].
  - intros [= <-]. now apply IH.
  - destruct (f !! d) as [[data|]|]; intros [= <-]; auto.
Qed.

(** The walk only looks at directories, so it is stable under any change
    that keeps the directories. *)
Lemma namei_stable (f f' : gmap key node) (from : key) (ps : list string) (k : key) :
  (forall d, f !! d = Some Dir -> f' !! d = Some Dir) ->
  namei f from ps = inr k -> namei f' from ps = inr k.
Proof.
  intros Hkeep. revert k. induction ps as [|c up IH]; intros k; cbn [namei]; [done|].
  destruct (namei f from up) as [e|d]; [discriminate|].
  rewrite (IH d eq_refl).
  destruct (f !! d) as [[data|]|] eqn:Hd; try discriminate.
  now rewrite (Hkeep d Hd).
Qed.

(** Below a chain of directories the walk succeeds. *)
Lemma namei_through (f : gmap key node) (from : key) (ps : list string) :
  ".." ∉ ps ->
  (forall up, up `suffix_of` ps -> up <> ps -> f !! (up ++ from) = Some Dir) ->
  namei f from ps = inr (ps ++ from).
Proof.
  induction ps as [|c up IH]; intros Hdd Hdirs; cbn [namei]; [done|].
  apply not_elem_of_cons in Hdd as [Hc Hup].
  rewrite IH; [|done|].
  - cbv beta iota. rewrite (Hdirs up).
    + now rewrite enter_name by congruence.
    + now apply suffix_cons_r.
    + intros Heq. apply (f_equal length) in Heq. cbn in Heq. lia.
  - intros up' Hsuf Hne. apply Hdirs.
    + now apply suffix_cons_r.
    + intros ->. apply suffix_length in Hsuf. cbn in Hsuf. lia.
Qed.

(** In a tree everything above a node is a directory. *)
Lemma tree_above (f : gmap key node) (k k' : key) (n : node) :
  tree f -> f !! k = Some n -> k' `suffix_of` k -> k' <> k -> f !! k' = Some Dir.
Proof.
  intros [_ Hup]. revert n. induction k as [|c d IH]; intros n Hk Hsuf Hne.
  - apply suffix_nil_inv in Hsuf. congruence.
  - destruct Hsuf as [[|x pre] Hpre]; cbn in Hpre; [congruence|].
    injection Hpre as Hx Hpre. subst x.
    assert (Hsuf : k' `suffix_of` d) by now exists pre.
    pose proof (Hup c d n Hk) as Hd.
    destruct (decide (k' = d)) as [->|Hne']; [done|].
    now apply (IH Dir).
Qed.

(** In a tree, without [..], what a path leads to is what the tree holds at
    its components. *)
Lemma locate_tree (w : world) (p : path) (n : node) :
  tree (fs w) -> ".." ∉ parts p ->
  fs w !! (parts p ++ start p w) = Some n -> locate w p = inr n.
Proof.
  intros Htree Hdd Hn. unfold locate.
  rewrite (namei_through (fs w) (start p w) (parts p) Hdd).
  - now rewrite Hn.
  - intros up Hsuf Hne. apply (tree_above (fs w) (parts p ++ start p w) _ n Htree Hn).
    + now apply suffix_app.
    + intros Heq. now apply app_inv_tail in Heq.
Qed.

Lemma locate_key (w : world) (p : path) (n : node) :
  ".." ∉ parts p -> locate w p = inr n -> fs w !! (parts p ++ start p w) = Some n.
Proof.
  intros Hdd. unfold locate.
  destruct (namei (fs w) (start p w) (parts p)) as [e|k] eqn:Hk; [discriminate|].
  apply (namei_key _ _ _ _ Hdd) in Hk as ->.
  destruct (fs w !! (parts p ++ start p w)); now intros [= <-].
Qed.

Lemma suffix_parent (c : string) (up : list string) : up `suffix_of` c :: up.
Proof. now exists [c]. Qed.

Lemma locate_errno (w : world) (p : path) (e : errno) :
  locate w p = inl e -> e = ENOENT \/ e = ENOTDIR.
Proof.
  unfold locate. destruct (namei (fs w) (start p w) (parts p)) as [e'|k] eqn:Hk.
  - intros [= <-]. now apply namei_errno in Hk.
  - destruct (fs w !! k); [discriminate|]. intros [= <-]. now left.
Qed.

Lemma path_exists_run (p : path) (w : world) :
  path_exists p w = (Ret (present w p), w).
Proof.
  unfold path_exists, present, try_except, bind, stat.
  destruct (locate w p) as [e|n] eqn:Hl; [|reflexivity].
  now destruct (locate_errno w p e Hl) as [-> | ->].
Qed.

Lemma is_dir_run (p : path) (w : world) :
  is_dir p w = (Ret (match locate w p with inr Dir => true | _ => false end), w).
Proof.
  unfold is_dir, try_except, bind, stat.
  destruct (locate w p) as [e|n] eqn:Hl; [|now destruct n].
  now destruct (locate_errno w p e Hl) as [-> | ->].
Qed.

Lemma mkdir_parents_at_unfold (abs : bool) (ps : list string) :
  mkdir_parents_at abs ps =
  try_except (os_mkdir (PurePath abs ps))
    (fun e =>
       match e with
       | OSError ENOENT _ =>
           match ps with
           | [] => raise e
           | _ :: up =>
               Py.bind (mkdir_parents_at abs up)
                       (fun _ => mkdir_flat true (PurePath abs ps))
           end
       | OSError _ _ =>
           Py.bind (is_dir (PurePath abs ps))
                   (fun d => if negb d then raise e else ret tt)
       | _ => raise e
       end).
Proof. now destruct ps. Qed.

(** The step that makes the last directory, all the others being there. *)
Lemma mkdir_last (abs : bool) (w : world) (f : gmap key node)
      (c : string) (up : list string) :
  let from := if abs then [] else cwd w in
  c <> ".." -> ".." ∉ up ->
  (forall up', up' `suffix_of` up -> f !! (up' ++ from) = Some Dir) ->
  (forall data, f !! (c :: up ++ from) <> Some (File data)) ->
  let f' := match f !! (c :: up ++ from) with
            | Some _ => f
            | None => <[c :: up ++ from := Dir]> f
            end in
  mkdir_flat true (PurePath abs (c :: up)) (set_fs f w) = (Ret tt, set_fs f' w)
  /\ mkdir_parents_at abs (c :: up) (set_fs f w) = (Ret tt, set_fs f' w).
Proof.
  intros from Hc Hdd Hdirs Hfile f'.
  assert (Hwalk : namei f from (c :: up) = inr (c :: up ++ from)).
  { apply (namei_through f from (c :: up)).
    - apply not_elem_of_cons. split; [congruence | done].
    - intros up' [[|x pre] Hpre] Hne; cbn in Hpre; [congruence|].
      injection Hpre as _ Hpre. apply Hdirs. now exists pre. }
  assert (Hmk : os_mkdir (PurePath abs (c :: up)) (set_fs f w) =
                match f !! (c :: up ++ from) with
                | Some _ => (Raise (OSError EEXIST (path_str (PurePath abs (c :: up)))),
                             set_fs f w)
                | None => (Ret tt, set_fs (<[c :: up ++ from := Dir]> f) w)
                end).
  { unfold os_mkdir, start. cbn [fs set_fs absolute parts cwd]. fold from.
    rewrite Hwalk. now destruct (f !! (c :: up ++ from)). }
  assert (Hdir : forall n, f !! (c :: up ++ from) = Some n ->
                 is_dir (PurePath abs (c :: up)) (set_fs f w) = (Ret true, set_fs f w)).
  { intros n Hn. rewrite is_dir_run. unfold locate, start.
    cbn [fs set_fs absolute parts cwd]. fold from. rewrite Hwalk, Hn.
    destruct n as [data|]; [now destruct (Hfile data) | reflexivity]. }
  rewrite mkdir_parents_at_unfold. unfold mkdir_flat, try_except. rewrite Hmk.
  subst f'. destruct (f !! (c :: up ++ from)) as [n|] eqn:Hn; [|done].
  unfold bind. rewrite (Hdir n eq_refl). done.
Qed.

(** [mkdir(parents=True, exist_ok=True)] succeeds when nothing on the way is
    a regular file, and leaves a directory at every level. *)
Lemma mkdir_parents_at_ok (abs : bool) (ps : list string) (w : world) :
  let from := if abs then [] else cwd w in
  tree (fs w) -> fs w !! from = Some Dir -> ".." ∉ ps ->
  (forall up data, up `suffix_of` ps -> fs w !! (up ++ from) <> Some (File data)) ->
  exists f',
    mkdir_parents_at abs ps w = (Ret tt, set_fs f' w)
    /\ tree f'
    /\ (forall up, up `suffix_of` ps -> f' !! (up ++ from) = Some Dir)
    /\ (forall k, f' !! k = fs w !! k
                  \/ (f' !! k = Some Dir /\ exists up, up `suffix_of` ps /\ k = up ++ from)).
Proof.
  intros from Htree Hfrom. induction ps as [|c up IH]; intros Hdd Hfile.
  - exists (fs w). rewrite set_fs_same. repeat split; try apply Htree.
    + rewrite mkdir_parents_at_unfold. unfold try_except, os_mkdir, start.
      cbn [absolute parts namei]. fold from. rewrite Hfrom. cbn.
      unfold bind. rewrite is_dir_run. unfold locate, start.
      cbn [absolute parts namei]. fold from. now rewrite Hfrom.
    + intros up Hsuf. apply suffix_nil_inv in Hsuf as ->. exact Hfrom.
    + now left.
  - apply not_elem_of_cons in Hdd as [Hc Hup].
    assert (Hfile_up : forall up' data, up' `suffix_of` up ->
                         fs w !! (up' ++ from) <> Some (File data)).
    { intros up' data Hsuf. apply Hfile. now apply suffix_cons_r. }
    destruct (IH Hup Hfile_up) as (f1 & Hrun1 & Htree1 & Hdirs1 & Hnew1).
    assert (Hk1 : forall data, f1 !! (c :: up ++ from) <> Some (File data)).
    { intros data Hk. destruct (Hnew1 (c :: up ++ from)) as [Hsame | [Hd _]].
      - rewrite Hsame in Hk. now apply (Hfile (c :: up) data).
      - congruence. }
    destruct (mkdir_last abs w f1 c up ltac:(congruence) Hup Hdirs1 Hk1) as [Hflat1 _].
    set (f' := match f1 !! (c :: up ++ from) with
               | Some _ => f1
               | None => <[c :: up ++ from := Dir]> f1
               end) in Hflat1.
    assert (Hf'k : f' !! (c :: up ++ from) = Some Dir).
    { subst f'. destruct (f1 !! (c :: up ++ from)) as [[data|]|] eqn:Hn.
      - now destruct (Hk1 data).
      - done.
      - apply lookup_insert_eq. }
    assert (Hf'other : forall k, k <> c :: up ++ from -> f' !! k = f1 !! k).
    { intros k Hk. subst f'. destruct (f1 !! (c :: up ++ from)); [done|].
      now apply lookup_insert_ne. }
    assert (Hf'1 : forall k n, f1 !! k = Some n -> f' !! k = Some n).
    { intros k n Hn. destruct (decide (k = c :: up ++ from)) as [->|Hne].
      - subst f'. now rewrite Hn.
      - now rewrite Hf'other. }
    exists f'. split; [|split; [|split]].
    + (* the run *)
      destruct (fs w !! (up ++ from)) as [[data|]|] eqn:Hparent.
      * now destruct (Hfile up data (suffix_parent c up)).
      * (* the parent is there: one [os.mkdir] does it *)
        assert (Hdirs0 : forall up', up' `suffix_of` up -> fs w !! (up' ++ from) = Some Dir).
        { intros up' Hsuf. destruct (decide (up' = up)) as [->|Hne]; [done|].
          apply (tree_above (fs w) (up ++ from) _ Dir Htree Hparent).
          - now apply suffix_app.
          - intros Heq. now apply app_inv_tail in Heq. }
        assert (Hk0 : forall data, fs w !! (c :: up ++ from) <> Some (File data)).
        { intros data. apply (Hfile (c :: up) data). done. }
        destruct (mkdir_last abs w (fs w) c up ltac:(congruence) Hup Hdirs0 Hk0) as [_ Hpar0].
        rewrite set_fs_same in Hpar0. rewrite Hpar0. f_equal. f_equal.
        (* nothing was missing above, so the recursive run changed nothing *)
        assert (Hsame : f1 = fs w).
        { apply map_eq. intros k. destruct (Hnew1 k) as [Hs | [Hd (up' & Hsuf & ->)]]; [done|].
          now rewrite Hd, (Hdirs0 up' Hsuf). }
        subst f'. now rewrite Hsame.
      * (* the parent is missing: [FileNotFoundError], parents first *)
        assert (Hwalk : exists e, namei (fs w) from (c :: up) = inl e /\ e = ENOENT).
        { cbn [namei]. destruct (namei (fs w) from up) as [e|d] eqn:Hup_walk.
          - exists e. split; [done|].
            destruct (namei_errno _ _ _ _ Hup_walk) as [-> | ->]; [done|].
            exfalso. clear -Hup_walk Hfile_up Hup.
            revert Hup Hfile_up Hup_walk. induction up as [|c' up' IHup]; cbn [namei]; [done|].
            intros Hdd Hfile_up. apply not_elem_of_cons in Hdd as [Hc' Hup'].
            destruct (namei (fs w) from up') as [e|d] eqn:Hw'.
            + intros [= ->]. apply IHup; [done| |done].
              intros up0 data Hsuf. apply Hfile_up. now apply suffix_cons_r.
            + apply (namei_key _ _ _ _ Hup') in Hw' as ->.
              destruct (fs w !! (up' ++ from)) as [[data|]|] eqn:Hd; try done.
              now destruct (Hfile_up up' data (suffix_parent c' up')).
          - apply (namei_key _ _ _ _ Hup) in Hup_walk as ->. rewrite Hparent.
            now exists ENOENT. }
        destruct Hwalk as (e & Hwalk & ->).
        rewrite mkdir_parents_at_unfold. unfold try_except at 1.
        unfold os_mkdir at 1, start. cbn [absolute parts]. fold from. rewrite Hwalk.
        cbn [os_error raise]. unfold bind at 1. rewrite Hrun1. exact Hflat1.
    + (* still a tree *)
      destruct Htree1 as [Hroot1 Hup1]. split.
      * now apply Hf'1.
      * intros c0 d n Hn. destruct (decide (c0 :: d = c :: up ++ from)) as [Heq|Hne].
        -- injection Heq as -> ->. apply Hf'1, Hdirs1. done.
        -- rewrite Hf'other in Hn by done. apply Hf'1. now apply (Hup1 c0 d n).
    + (* directories all the way *)
      intros up' [[|x pre] Hpre]; cbn in Hpre.
      * now subst up'.
      * injection Hpre as _ Hpre. apply Hf'1, Hdirs1. now exists pre.
    + (* nothing else changed *)
      intros k. destruct (decide (k = c :: up ++ from)) as [->|Hne].
      * right. split; [done|]. now exists (c :: up).
      * rewrite Hf'other by done. destruct (Hnew1 k) as [Hs | [Hd (up' & Hsuf & ->)]].
        -- now left.
        -- right. split; [done|]. exists up'. split; [|done]. now apply suffix_cons_r.
Qed.

End PathlibFacts.

(** ** The file skill: facts *)

Module FileFacts.
Import Py PyOps Pathlib FileSkill Vocabulary Basics PathlibFacts.

Create HintDb frame.

Section Facts.
Context `{Runtime}.

Lemma present_consumed (w : world) (p : path) : present (consumed w) p = present w p.
Proof. unfold consumed. now destruct (environ w !! "BAIZE_PARAMS"). Qed.

Lemma fs_consumed (w : world) : fs (consumed w) = fs w.
Proof. unfold consumed. now destruct (environ w !! "BAIZE_PARAMS"). Qed.

Lemma cwd_consumed (w : world) : cwd (consumed w) = cwd w.
Proof. unfold consumed. now destruct (environ w !! "BAIZE_PARAMS"). Qed.

Lemma stdout_consumed (w : world) : stdout (consumed w) = stdout w.
Proof. unfold consumed. now destruct (environ w !! "BAIZE_PARAMS"). Qed.

(** Steps through the five [params.get] of [main]. *)
Ltac read_params d ps Hps :=
  cbn [lift ret]; unfold bind at 1; cbn [py_get ret];
  fold (param d "params" (VDict [])); rewrite Hps;
  do 4 (unfold bind at 1; cbn [py_get ret]);
  fold (param ps "action" VNone) (param ps "path" VNone)
       (param ps "content" (VStr "")) (param ps "encoding" (VStr "utf-8")).

(** [main] once the input is parsed and [action] and [path] are there. *)
Lemma main_runs (w : world) (ps : dict) :
  file_invoked w ps ->
  truthy (param ps "action" VNone) = true ->
  truthy (param ps "path" VNone) = true ->
  main w =
  try_except (Py.bind (selected ps) print_json)
             (fun e => output_error (str_exn e)) (consumed w).
Proof.
  intros (raw & d & Hinput & Hload & Hps) Haction Hpath.
  unfold file_input in Hinput.
  unfold main, try_except. unfold bind at 1. unfold environ_has, consumed.
  destruct (environ w !! "BAIZE_PARAMS") as [raw'|] eqn:Henv.
  - injection Hinput as ->.
    do 2 unfold bind at 1. unfold environ_item. rewrite Henv, Hload.
    read_params d ps Hps. now rewrite Haction, Hpath.
  - destruct (String.eqb (stdin w) "") eqn:Hstdin; [discriminate|].
    injection Hinput as <-.
    do 2 unfold bind at 1. unfold stdin_read. rewrite Hstdin. cbn [negb]. rewrite Hload.
    read_params d ps Hps. now rewrite Haction, Hpath.
Qed.

Lemma main_prints (w w' : world) (ps : dict) (envelope : dict) :
  file_invoked w ps ->
  truthy (param ps "action" VNone) = true ->
  truthy (param ps "path" VNone) = true ->
  selected ps (consumed w) = (Ret envelope, w') ->
  main w = (Ret tt, set_stdout (stdout w' ++ [envelope]) w').
Proof.
  intros Hin Haction Hpath Hrun. rewrite (main_runs w ps Hin Haction Hpath).
  unfold try_except, bind. now rewrite Hrun.
Qed.

Lemma read_file_absent (s : string) (encoding : value) (w : world) :
  present w (parse s) = false ->
  read_file (VStr s) encoding w = (Ret (failure ("文件不存在: " +:+ s)), w).
Proof.
  intros Habsent. unfold read_file, try_except, bind, Path, ret.
  now rewrite path_exists_run, Habsent.
Qed.

(** C8.  [action=read] on a path that does not exist prints a failure
    envelope whose error string contains the path; [main] returns normally,
    with status 0. *)
Theorem read_missing_path_fails (w : world) (ps : dict) (s : string) :
  file_invoked w ps ->
  param ps "action" VNone = VStr "read" ->
  param ps "path" VNone = VStr s -> s <> "" ->
  present w (parse s) = false ->
  exists error,
    main w = (Ret tt, set_stdout (stdout w ++ [[("success", VBool false);
                                               ("error", VStr error)]]) (consumed w))
    /\ contains s error
    /\ exit_code (fst (main w)) = 0.
Proof.
  intros Hin Haction Hpath Hs Habsent.
  assert (Hmain : main w = (Ret tt, set_stdout (stdout w ++ [failure ("文件不存在: " +:+ s)])
                                              (consumed w))).
  { rewrite <- (stdout_consumed w).
    apply (main_prints w (consumed w) ps); [done | now rewrite Haction | | ].
    - rewrite Hpath. now apply truthy_str.
    - unfold selected. rewrite Haction, Hpath. cbn [eq_str String.eqb Ascii.eqb Bool.eqb].
      apply read_file_absent. now rewrite present_consumed. }
  exists ("文件不存在: " +:+ s). rewrite Hmain. split; [done|]. split; [|done].
  apply contains_end.
Qed.

Lemma main_exists (w : world) (ps : dict) (s : string) :
  file_invoked w ps ->
  param ps "action" VNone = VStr "exists" ->
  param ps "path" VNone = VStr s -> s <> "" ->
  main w =
  (Ret tt,
   set_stdout
     (stdout w ++
      [[("success", VBool true);
        ("data", VDict [("exists", VBool (present w (parse s)))]);
        ("message", VStr ("文件" +:+ (if present w (parse s) then "存在" else "不存在")
                            +:+ ": " +:+ s))]])
     (consumed w)).
Proof.
  intros Hin Haction Hpath Hs.
  rewrite <- (stdout_consumed w).
  apply (main_prints w (consumed w) ps); [done | now rewrite Haction | | ].
  - rewrite Hpath. now apply truthy_str.
  - unfold selected. rewrite Haction, Hpath. cbn [eq_str String.eqb Ascii.eqb Bool.eqb].
    unfold exists_file, try_except, bind, Path, ret.
    rewrite path_exists_run, present_consumed. reflexivity.
Qed.



(** C9.  An action other than [read], [write], [create], [delete] and
    [exists], with action and path both given, prints a failure envelope whose
    error string names the action; [main] returns normally, with status 0. *)
Theorem unknown_action_is_reported (w : world) (ps : dict) (a : string) :
  file_invoked w ps ->
  param ps "action" VNone = VStr a -> a <> "" ->
  a ∉ ["read"; "write"; "create"; "delete"; "exists"] ->
  truthy (param ps "path" VNone) = true ->
  exists error,
    main w = (Ret tt, set_stdout (stdout w ++ [[("success", VBool false);
                                               ("error", VStr error)]]) (consumed w))
    /\ contains a error
    /\ exit_code (fst (main w)) = 0.
Proof.
  intros Hin Haction Ha Hnot Hpath.
  assert (Hmain : main w = (Ret tt, set_stdout (stdout w ++ [failure ("未知操作: " +:+ a)])
                                              (consumed w))).
  { rewrite <- (stdout_consumed w).
    apply (main_prints w (consumed w) ps); [done | | done | ].
    - rewrite Haction. now apply truthy_str.
    - unfold selected. rewrite Haction. cbn [eq_str py_str].
      repeat (apply not_elem_of_cons in Hnot as [?%String.eqb_neq Hnot]).
      now repeat match goal with Hne : String.eqb _ _ = false |- _ => rewrite Hne; clear Hne end. }
  exists ("未知操作: " +:+ a). rewrite Hmain. split; [done|]. split; [|done].
  apply contains_end.
Qed.

(** *** Shapes of the envelopes *)

Lemma eq_str_other (v : value) (a b : string) :
  eq_str v a = true -> a <> b -> eq_str v b = false.
Proof.
  destruct v; try done. cbn. intros ->%String.eqb_eq Hne. now apply String.eqb_neq.
Qed.

(** Runs one of the five operations backwards from its result. *)
Ltac invert_run :=
  unfold try_except, bind, ret;
  repeat case_match; intros; simplify_eq; try done.

Lemma selected_shape (w w' : world) (ps : dict) (envelope : dict) :
  selected ps w = (Ret envelope, w') ->
  successful envelope ->
  if eq_str (param ps "action" VNone) "delete"
  then keys envelope = ["success"; "message"]
       /\ lookup_key "data" envelope = None
  else keys envelope = ["success"; "data"; "message"]
       /\ exists d, lookup_key "data" envelope = Some (VDict d).
Proof.
  unfold selected, successful.
  destruct (eq_str (param ps "action" VNone) "read") eqn:Hread.
  { rewrite (eq_str_other _ _ "delete" Hread) by done.
    unfold read_file. invert_run. all: cbn; split; [done | eauto]. }
  destruct (eq_str (param ps "action" VNone) "write") eqn:Hwrite.
  { rewrite (eq_str_other _ _ "delete" Hwrite) by done.
    unfold write_file. invert_run. all: cbn; split; [done | eauto]. }
  destruct (eq_str (param ps "action" VNone) "create") eqn:Hcreate.
  { rewrite (eq_str_other _ _ "delete" Hcreate) by done.
    unfold create_file. invert_run. all: cbn; split; [done | eauto]. }
  destruct (eq_str (param ps "action" VNone) "delete") eqn:Hdelete.
  { unfold delete_file. invert_run. }
  destruct (eq_str (param ps "action" VNone) "exists") eqn:Hexists.
  { unfold exists_file. invert_run. all: cbn; split; [done | eauto]. }
  unfold ret. intros; simplify_eq; done.
Qed.

(** C10.  The success envelope of [delete_file] has the keys [success] and
    [message] and no [data]; the success envelopes of [read_file],
    [write_file], [create_file] and [exists_file] have [success], [data] and
    [message], [data] being a dict. *)
Theorem delete_success_carries_no_data (w w' : world)
        (file_path content encoding : value) (envelope : dict) :
  successful envelope ->
  (delete_file file_path w = (Ret envelope, w') ->
   keys envelope = ["success"; "message"] /\ lookup_key "data" envelope = None)
  /\ (read_file file_path encoding w = (Ret envelope, w')
      \/ write_file file_path content encoding w = (Ret envelope, w')
      \/ create_file file_path content encoding w = (Ret envelope, w')
      \/ exists_file file_path w = (Ret envelope, w') ->
      keys envelope = ["success"; "data"; "message"]
      /\ exists d, lookup_key "data" envelope = Some (VDict d)).
Proof.
  intros Hok.
  pose (ps action := [("action", VStr action); ("path", file_path);
                      ("content", content); ("encoding", encoding)]).
  split.
  - intros Hrun. now apply (selected_shape w w' (ps "delete") envelope).
  - intros [Hrun | [Hrun | [Hrun | Hrun]]].
    + now apply (selected_shape w w' (ps "read") envelope).
    + now apply (selected_shape w w' (ps "write") envelope).
    + now apply (selected_shape w w' (ps "create") envelope).
    + now apply (selected_shape w w' (ps "exists") envelope).
Qed.

(** *** Writing *)

Lemma write_file_steps (file_path content encoding : value) (w : world) :
  write_file file_path content encoding w =
  match write_steps file_path content encoding w with
  | (Ret encoded, w') =>
      (Ret [("success", VBool true);
            ("data", VDict [("path", file_path);
                            ("size", VInt (Z.of_nat (length encoded)))]);
            ("message", VStr ("文件已写入: " +:+ py_str file_path))], w')
  | (Raise e, w') => (Ret (failure ("写入文件失败: " +:+ str_exn e)), w')
  | (Exit code, w') => (Exit code, w')
  end.
Proof.
  unfold write_file, write_steps, try_except, bind, ret.
  repeat case_match; simplify_eq; done.
Qed.

Lemma create_file_steps (file_path content encoding : value) (w : world) :
  create_file file_path content encoding w =
  match write_steps file_path content encoding w with
  | (Ret encoded, w') =>
      (Ret [("success", VBool true);
            ("data", VDict [("path", file_path);
                            ("size", VInt (Z.of_nat (length encoded)))]);
            ("message", VStr ("文件已创建: " +:+ py_str file_path))], w')
  | (Raise e, w') => (Ret (failure ("创建文件失败: " +:+ str_exn e)), w')
  | (Exit code, w') => (Exit code, w')
  end.
Proof.
  unfold create_file, write_steps, try_except, bind, ret.
  repeat case_match; simplify_eq; done.
Qed.

(** *** Frame conditions *)

Lemma fs_only_ret {A} (a : A) : fs_only (ret a).
Proof.
  intros w o w' [= <- <-]. split; [|done]. exists (fs w). now rewrite set_fs_same.
Qed.

Lemma fs_only_raise {A} (e : exn) : fs_only (@raise A e).
Proof.
  intros w o w' [= <- <-]. split; [|done]. exists (fs w). now rewrite set_fs_same.
Qed.

Lemma fs_only_lift {A} (r : exn + A) : fs_only (lift r).
Proof. destruct r; [apply fs_only_raise | apply fs_only_ret]. Qed.

Lemma fs_only_bind {A B} (m : M A) (k : A -> M B) :
  fs_only m -> (forall a, fs_only (k a)) -> fs_only (Py.bind m k).
Proof.
  intros Hm Hk w o w'. unfold bind.
  destruct (m w) as [[a|e|code] w1] eqn:Hrun; destruct (Hm _ _ _ Hrun) as [[f1 ->] Hne].
  - intros Hrun2. destruct (Hk a _ _ _ Hrun2) as [[f2 ->] Hne2]. split; [|done]. now exists f2.
  - intros [= <- <-]. split; [|done]. now exists f1.
  - now destruct (Hne code).
Qed.

Lemma fs_only_try_except {A} (m : M A) (h : exn -> M A) :
  fs_only m -> (forall e, fs_only (h e)) -> fs_only (try_except m h).
Proof.
  intros Hm Hh w o w'. unfold try_except.
  destruct (m w) as [[a|e|code] w1] eqn:Hrun; destruct (Hm _ _ _ Hrun) as [[f1 ->] Hne].
  - intros [= <- <-]. split; [|done]. now exists f1.
  - intros Hrun2. destruct (Hh e _ _ _ Hrun2) as [[f2 ->] Hne2]. split; [|done]. now exists f2.
  - now destruct (Hne code).
Qed.

Lemma fs_only_set_fs {A} (a : A) (f : world -> gmap key node) :
  fs_only (fun w => (Ret a, set_fs (f w) w)).
Proof. intros w o w' [= <- <-]. split; [eauto | done]. Qed.

Lemma fs_only_os_mkdir (p : path) : fs_only (os_mkdir p).
Proof.
  intros w o w'. unfold os_mkdir, os_error.
  repeat case_match; try apply fs_only_raise.
  apply (fs_only_set_fs tt (fun w => <[_ := Dir]> (fs w))).
Qed.

Lemma fs_only_is_dir (p : path) : fs_only (is_dir p).
Proof. intros w o w'. rewrite is_dir_run. apply fs_only_ret. Qed.

#[local] Hint Resolve fs_only_ret fs_only_raise fs_only_lift fs_only_bind
  fs_only_try_except fs_only_os_mkdir fs_only_is_dir : frame.

(** Settles a frame condition by the shape of the computation. *)
Ltac frame :=
  repeat first
    [ progress auto with frame
    | apply fs_only_bind; [|intros ?]
    | apply fs_only_try_except; [|intros ?]
    | match goal with
      | |- fs_only (match ?x with _ => _ end) => destruct x
      | |- fs_only (if ?b then _ else _) => destruct b
      end ].

Lemma fs_only_mkdir_flat (exist_ok : bool) (p : path) : fs_only (mkdir_flat exist_ok p).
Proof. unfold mkdir_flat. frame. Qed.

Lemma fs_only_mkdir_parents_at (abs : bool) (ps : list string) :
  fs_only (mkdir_parents_at abs ps).
Proof.
  induction ps as [|c up IH]; rewrite mkdir_parents_at_unfold; frame.
Qed.

Lemma fs_only_open_for_write (p : path) : fs_only (open_for_write p).
Proof.
  intros w o w'. unfold open_for_write, os_error.
  repeat case_match; try apply fs_only_raise.
  all: intros [= <- <-]; split; [eauto | done].
Qed.

Lemma fs_only_write_text (p : path) (data encoding : value) :
  fs_only (write_text p data encoding).
Proof.
  unfold write_text, io_encoding. pose proof (fs_only_open_for_write p). frame.
  apply (fs_only_set_fs tt (fun w => <[_ := File _]> (fs w))).
Qed.

Lemma fs_only_py_encode (text encoding : value) : fs_only (py_encode text encoding).
Proof. unfold py_encode. frame. Qed.

Lemma fs_only_write_steps (file_path content encoding : value) :
  fs_only (write_steps file_path content encoding).
Proof.
  unfold write_steps, Path, mkdir_parents.
  pose proof fs_only_mkdir_parents_at. pose proof fs_only_write_text.
  pose proof fs_only_py_encode. frame.
Qed.

(** *** What a successful write leaves behind *)

Lemma write_text_ok (p : path) (data encoding : value) (w w' : world) :
  write_text p data encoding w = (Ret tt, w') ->
  exists c name encoded k,
    data = VStr c
    /\ io_encoding encoding w = (Ret name, w)
    /\ str_encode name c = inr encoded
    /\ namei (fs w) (start p w) (parts p) = inr k
    /\ fs w !! k <> Some Dir
    /\ w' = set_fs (<[k := File encoded]> (fs w)) w.
Proof.
  unfold write_text. destruct data as [| | |c| |]; try done.
  unfold bind.
  destruct (io_encoding encoding w) as [[name| |] w0] eqn:Henc; try done.
  assert (w0 = w) as ->.
  { unfold io_encoding, ret, raise in Henc. now destruct encoding; simplify_eq. }
  unfold open_for_write, os_error, raise.
  destruct (namei (fs w) (start p w) (parts p)) as [e|k] eqn:Hwalk; [done|].
  destruct (str_encode name c) as [e|encoded] eqn:Hcodec.
  - repeat case_match; simplify_eq; done.
  - intros Hrun. exists c, name, encoded, k. repeat split; try done.
    + intros Hdir. rewrite Hdir in Hrun. done.
    + unfold lift, ret, put_file in Hrun.
      repeat case_match; simplify_eq; cbn; now rewrite insert_insert_eq.
Qed.

Lemma locate_written (w : world) (f : gmap key node) (p : path) (k : key)
      (encoded : list byte) :
  namei f (start p w) (parts p) = inr k ->
  f !! k <> Some Dir ->
  locate (set_fs (<[k := File encoded]> f) w) p = inr (File encoded).
Proof.
  intros Hwalk Hk. unfold locate. cbn [fs set_fs].
  change (start p (set_fs (<[k := File encoded]> f) w)) with (start p w).
  rewrite (namei_stable f (<[k := File encoded]> f) _ _ k); [|  | done].
  - now rewrite lookup_insert_eq.
  - intros d Hd. rewrite lookup_insert_ne; [done|]. intros ->. done.
Qed.

Lemma write_steps_ok (file_path content encoding : value) (w w' : world)
      (encoded : list byte) :
  write_steps file_path content encoding w = (Ret encoded, w') ->
  exists s c name,
    file_path = VStr s /\ content = VStr c /\ encoding = VStr name
    /\ str_encode name c = inr encoded
    /\ locate w' (parse s) = inr (File encoded).
Proof.
  unfold write_steps, bind.
  destruct file_path as [| | |s| |]; try done. cbn [Path ret].
  destruct (mkdir_parents (parent (parse s)) w) as [[[]| |] w1] eqn:Hmk; try done.
  destruct (write_text (parse s) content encoding w1) as [[[]| |] w2] eqn:Hwt; try done.
  apply write_text_ok in Hwt as (c & name & enc1 & k & -> & Henc & Hcodec & Hwalk & Hk & ->).
  unfold py_encode. destruct encoding as [| | |name'| |]; try done.
  unfold io_encoding, ret in Henc. injection Henc as ->.
  rewrite Hcodec. cbn [lift ret]. intros [= <- <-].
  exists s, c, name. repeat split; try done.
  now apply locate_written.
Qed.

(** C3, amended.  [write_file] and [create_file] leave the same world behind
    and agree on the success flag and the data payload.  Either both succeed,
    the path then holding exactly the encoded content whatever was there
    before, with [data = {path, size}] and the messages [文件已写入: path] and
    [文件已创建: path]; or both fail on the same exception, with the prefixes
    [写入文件失败: ] and [创建文件失败: ]. *)
Theorem write_and_create_agree_up_to_message (w : world)
        (file_path content encoding : value) :
  snd (write_file file_path content encoding w)
  = snd (create_file file_path content encoding w)
  /\ ((exists s c name encoded,
         file_path = VStr s /\ content = VStr c /\ encoding = VStr name
         /\ str_encode name c = inr encoded
         /\ locate (snd (write_file file_path content encoding w)) (parse s)
            = inr (File encoded)
         /\ fst (write_file file_path content encoding w)
            = Ret [("success", VBool true);
                   ("data", VDict [("path", VStr s);
                                   ("size", VInt (Z.of_nat (length encoded)))]);
                   ("message", VStr ("文件已写入: " +:+ s))]
         /\ fst (create_file file_path content encoding w)
            = Ret [("success", VBool true);
                   ("data", VDict [("path", VStr s);
                                   ("size", VInt (Z.of_nat (length encoded)))]);
                   ("message", VStr ("文件已创建: " +:+ s))])
      \/ (exists e,
            fst (write_file file_path content encoding w)
            = Ret (failure ("写入文件失败: " +:+ str_exn e))
            /\ fst (create_file file_path content encoding w)
               = Ret (failure ("创建文件失败: " +:+ str_exn e)))).
Proof.
  rewrite write_file_steps, create_file_steps.
  destruct (write_steps file_path content encoding w) as [[encoded|e|code] w'] eqn:Hrun.
  - split; [done|]. left.
    destruct (write_steps_ok _ _ _ _ _ _ Hrun) as (s & c & name & -> & -> & -> & Hcodec & Hfile).
    exists s, c, name, encoded. repeat split; done.
  - split; [done|]. right. now exists e.
  - now destruct (proj2 (fs_only_write_steps _ _ _ _ _ _ Hrun) code).
Qed.

(** *** Deleting *)

Lemma locate_same_tree (w1 w2 : world) (p : path) :
  fs w2 = fs w1 -> cwd w2 = cwd w1 -> locate w2 p = locate w1 p.
Proof. intros Hfs Hcwd. unfold locate, start. now rewrite Hfs, Hcwd. Qed.

Lemma present_same_tree (w1 w2 : world) (p : path) :
  fs w2 = fs w1 -> cwd w2 = cwd w1 -> present w2 p = present w1 p.
Proof. intros Hfs Hcwd. unfold present. now rewrite (locate_same_tree w1 w2). Qed.

Lemma delete_file_absent (s : string) (w : world) :
  present w (parse s) = false ->
  delete_file (VStr s) w = (Ret (failure ("文件不存在: " +:+ s)), w).
Proof.
  intros Habsent. unfold delete_file, try_except, bind, Path, ret.
  now rewrite path_exists_run, Habsent.
Qed.

Lemma delete_file_regular (s : string) (w : world) (data : list byte) :
  locate w (parse s) = inr (File data) ->
  exists k,
    delete_file (VStr s) w =
    (Ret [("success", VBool true); ("message", VStr ("文件已删除: " +:+ s))],
     set_fs (delete k (fs w)) w)
    /\ locate (set_fs (delete k (fs w)) w) (parse s) = inl ENOENT.
Proof.
  intros Hfile.
  assert (Hpresent : present w (parse s) = true) by (unfold present; now rewrite Hfile).
  unfold locate in Hfile.
  destruct (namei (fs w) (start (parse s) w) (parts (parse s))) as [e|k] eqn:Hwalk; [done|].
  destruct (fs w !! k) as [n|] eqn:Hk; [|done]. injection Hfile as ->.
  exists k. split.
  - unfold delete_file, try_except, bind, Path, ret.
    rewrite path_exists_run, Hpresent. cbn [negb]. unfold unlink. now rewrite Hwalk, Hk.
  - unfold locate. cbn [fs set_fs].
    change (start (parse s) (set_fs (delete k (fs w)) w)) with (start (parse s) w).
    rewrite (namei_stable (fs w) (delete k (fs w)) _ _ k); [| |done].
    + now rewrite lookup_delete_eq.
    + intros d Hd. rewrite lookup_delete_ne; [done|]. intros ->. congruence.
Qed.

(** C7, amended.  [action=delete] on a path that does not exist prints a
    failure envelope.  On a path that leads to a regular file it prints the
    success envelope and removes the file: the path no longer exists, and a
    following [action=exists] on it reports [data.exists = false]. *)
Theorem delete_then_exists (w : world) (ps : dict) (s : string) :
  file_invoked w ps ->
  param ps "action" VNone = VStr "delete" ->
  param ps "path" VNone = VStr s -> s <> "" ->
  (present w (parse s) = false ->
   exists error,
     main w = (Ret tt, set_stdout (stdout w ++ [[("success", VBool false);
                                                ("error", VStr error)]]) (consumed w)))
  /\ (forall data,
        locate w (parse s) = inr (File data) ->
        fst (main w) = Ret tt
        /\ stdout (snd (main w))
           = stdout w ++ [[("success", VBool true);
                           ("message", VStr ("文件已删除: " +:+ s))]]
        /\ present (snd (main w)) (parse s) = false
        /\ forall w2 ps2,
             fs w2 = fs (snd (main w)) -> cwd w2 = cwd w ->
             file_invoked w2 ps2 ->
             param ps2 "action" VNone = VStr "exists" ->
             param ps2 "path" VNone = VStr s ->
             exists message,
               main w2 = (Ret tt,
                          set_stdout
                            (stdout w2 ++
                             [[("success", VBool true);
                               ("data", VDict [("exists", VBool false)]);
                               ("message", VStr message)]])
                            (consumed w2))).
Proof.
  intros Hin Haction Hpath Hs.
  assert (Hsel : selected ps = delete_file (VStr s)).
  { unfold selected. now rewrite Haction, Hpath. }
  split.
  - intros Habsent. exists ("文件不存在: " +:+ s).
    rewrite <- (stdout_consumed w).
    apply (main_prints w (consumed w) ps); [done | now rewrite Haction | | ].
    + rewrite Hpath. now apply truthy_str.
    + rewrite Hsel. apply delete_file_absent. now rewrite present_consumed.
  - intros data Hfile.
    assert (Hfile' : locate (consumed w) (parse s) = inr (File data)).
    { rewrite <- Hfile. apply locate_same_tree; [apply fs_consumed | apply cwd_consumed]. }
    destruct (delete_file_regular s (consumed w) data Hfile') as (k & Hrun & Hgone).
    assert (Hmain : main w =
              (Ret tt,
               set_stdout (stdout w ++ [[("success", VBool true);
                                         ("message", VStr ("文件已删除: " +:+ s))]])
                          (set_fs (delete k (fs (consumed w))) (consumed w)))).
    { rewrite <- (stdout_consumed w).
      apply (main_prints w (set_fs (delete k (fs (consumed w))) (consumed w)) ps);
        [done | now rewrite Haction | | ].
      - rewrite Hpath. now apply truthy_str.
      - now rewrite Hsel. }
    rewrite Hmain. cbn [fst snd].
    assert (Hafter : present (set_stdout
                                (stdout w ++ [[("success", VBool true);
                                               ("message", VStr ("文件已删除: " +:+ s))]])
                                (set_fs (delete k (fs (consumed w))) (consumed w)))
                             (parse s) = false).
    { unfold present.
      rewrite (locate_same_tree (set_fs (delete k (fs (consumed w))) (consumed w)));
        [now rewrite Hgone | done | done]. }
    repeat split; [done|].
    intros w2 ps2 Hfs Hcwd Hin2 Haction2 Hpath2.
    eexists. rewrite (main_exists w2 ps2 s Hin2 Haction2 Hpath2 Hs).
    rewrite (present_same_tree _ w2 (parse s) Hfs); [now rewrite Hafter|].
    rewrite Hcwd. cbn. now rewrite cwd_consumed.
Qed.

(** *** Reading back *)





End Facts.
End FileFacts.

(** ** The scripts on concrete inputs *)

Module SearchRuns.
Import Py PyOps BraveSearch Vocabulary Sample SearchFacts.

(** With nothing in the environment the query is missing. *)
Lemma missing_query_fails_locally_witness :
  exists error,
    @main python bare
    = (Ret tt, set_stdout [[("success", VBool false); ("error", VStr error)]] bare)
    /\ error <> ""
    /\ sent (snd (@main python bare)) = []
    /\ exit_code (fst (@main python bare)) = 0.
Proof.
  apply (@missing_query_fails_locally python bare []); [reflexivity | left; reflexivity].
Defined.

(** A 403 with body [forbidden]. *)
Lemma http_error_reported_with_exit_1_witness :
  exists error,
    stdout (snd (@main python (searching "<search baize>" forbidden)))
    = [[("success", VBool false); ("error", VStr error)]]
    /\ contains "403" error
    /\ contains "forbidden" error
    /\ exit_code (fst (@main python (searching "<search baize>" forbidden))) = 1.
Proof.
  apply (@http_error_reported_with_exit_1 python (searching "<search baize>" forbidden)
           [("query", VStr "baize")] "baize" "key" 403
           (list_byte_of_string "forbidden") "forbidden").
  - exists [("params", VDict [("query", VStr "baize")])]. split; reflexivity.
  - reflexivity.
  - discriminate.
  - reflexivity.
  - discriminate.
  - reflexivity.
  - reflexivity.
Defined.

(** C1 as stated does not hold: on an HTTP 403 the process ends with a
    non-zero status. *)
Lemma http_403_exits_nonzero :
  remote (searching "<search baize>" forbidden)
         (@search_request python (quote_text "baize") (VStr "key") (VInt 5) (VInt 0))
  = RespError 403 (list_byte_of_string "forbidden")
  /\ stdout (snd (@main python (searching "<search baize>" forbidden)))
     = [[("success", VBool false); ("error", VStr "API返回错误: 403 - forbidden")]]
  /\ exit_code (fst (@main python (searching "<search baize>" forbidden))) <> 0.
Proof. split; [reflexivity|]. split; [vm_compute; reflexivity|]. vm_compute. discriminate. Qed.

(** One result in the response. *)
Lemma results_mapped_one_to_one_witness :
  fst (@main python (searching "<search baize>" answering)) = Ret tt
  /\ stdout (snd (@main python (searching "<search baize>" answering)))
     = [[("success", VBool true);
         ("data", VDict [("results",
            VList [VDict [("title", VStr "A"); ("url", VStr "http://a");
                          ("description", VStr "d")]])]);
         ("message", VStr "找到 1 个结果")]]
  /\ length (map record_of [[("title", VStr "A"); ("url", VStr "http://a");
                            ("description", VStr "d")]]) = 1%nat.
Proof.
  apply (@results_mapped_one_to_one python (searching "<search baize>" answering)
           [("query", VStr "baize")] "baize" "key"
           (list_byte_of_string "<one result>") "<one result>"
           [("web", VDict [("results",
              VList [VDict [("title", VStr "A"); ("url", VStr "http://a");
                            ("description", VStr "d")]])])]
           [("results",
              VList [VDict [("title", VStr "A"); ("url", VStr "http://a");
                            ("description", VStr "d")]])]
           [[("title", VStr "A"); ("url", VStr "http://a"); ("description", VStr "d")]]).
  - exists [("params", VDict [("query", VStr "baize")])]. split; reflexivity.
  - reflexivity.
  - discriminate.
  - reflexivity.
  - discriminate.
  - reflexivity.
  - reflexivity.
  - reflexivity.
  - reflexivity.
  - reflexivity.
Defined.

End SearchRuns.

Module FileRuns.
Import Py PyOps Pathlib FileSkill Vocabulary Sample FileFacts.

Lemma empty_disk_holds (k : key) (n : node) :
  empty_disk !! k = Some n -> k = [] /\ n = Dir.
Proof. unfold empty_disk. intros Hn. now apply lookup_singleton_Some in Hn as [<- <-]. Qed.

Lemma empty_disk_in_order (raw : string) : well_formed (started raw empty_disk).
Proof.
  split; [split|]; try reflexivity.
  intros c d n Hn. now apply empty_disk_holds in Hn as [? _].
Qed.



(** Reading [missing.txt] on an empty disk. *)
Lemma read_missing_path_fails_witness :
  exists error,
    @main python (started "<read missing.txt>" empty_disk)
    = (Ret tt, set_stdout [[("success", VBool false); ("error", VStr error)]]
                          (started "<read missing.txt>" empty_disk))
    /\ contains "missing.txt" error
    /\ exit_code (fst (@main python (started "<read missing.txt>" empty_disk))) = 0.
Proof.
  apply (@read_missing_path_fails python (started "<read missing.txt>" empty_disk)
           [("action", VStr "read"); ("path", VStr "missing.txt")] "missing.txt").
  - exists "<read missing.txt>",
      [("params", VDict [("action", VStr "read"); ("path", VStr "missing.txt")])].
    repeat split; reflexivity.
  - reflexivity.
  - reflexivity.
  - discriminate.
  - reflexivity.
Defined.


(** The action [frobnicate]. *)
Lemma unknown_action_is_reported_witness :
  exists error,
    @main python (started "<frobnicate x>" empty_disk)
    = (Ret tt, set_stdout [[("success", VBool false); ("error", VStr error)]]
                          (started "<frobnicate x>" empty_disk))
    /\ contains "frobnicate" error
    /\ exit_code (fst (@main python (started "<frobnicate x>" empty_disk))) = 0.
Proof.
  apply (@unknown_action_is_reported python (started "<frobnicate x>" empty_disk)
           [("action", VStr "frobnicate"); ("path", VStr "x")] "frobnicate").
  - exists "<frobnicate x>",
      [("params", VDict [("action", VStr "frobnicate"); ("path", VStr "x")])].
    repeat split; reflexivity.
  - reflexivity.
  - discriminate.
  - apply (bool_decide_unpack _). vm_compute. exact I.
  - reflexivity.
Defined.

(** Deleting [notes.txt], then asking whether it exists. *)
Lemma delete_then_exists_witness :
  stdout (snd (@main python (started "<delete notes.txt>" disk_with_notes)))
  = [[("success", VBool true); ("message", VStr "文件已删除: notes.txt")]]
  /\ present (snd (@main python (started "<delete notes.txt>" disk_with_notes)))
             (parse "notes.txt") = false
  /\ exists message,
       @main python (restarted "<exists notes.txt>"
                       (snd (@main python (started "<delete notes.txt>" disk_with_notes))))
       = (Ret tt,
          set_stdout [[("success", VBool true);
                       ("data", VDict [("exists", VBool false)]);
                       ("message", VStr message)]]
                     (restarted "<exists notes.txt>"
                        (snd (@main python (started "<delete notes.txt>" disk_with_notes))))).
Proof.
  destruct (@delete_then_exists python (started "<delete notes.txt>" disk_with_notes)
              [("action", VStr "delete"); ("path", VStr "notes.txt")] "notes.txt")
    as [_ Hfile].
  - exists "<delete notes.txt>",
      [("params", VDict [("action", VStr "delete"); ("path", VStr "notes.txt")])].
    repeat split; reflexivity.
  - reflexivity.
  - reflexivity.
  - discriminate.
  - destruct (Hfile (list_byte_of_string "remember") eq_refl) as (_ & Hout & Hgone & Hnext).
    split; [exact Hout|]. split; [exact Hgone|].
    destruct (Hnext (restarted "<exists notes.txt>"
                       (snd (@main python (started "<delete notes.txt>" disk_with_notes))))
                    [("action", VStr "exists"); ("path", VStr "notes.txt")])
      as [message Hrun]; [| | | | |exists message; exact Hrun].
    + reflexivity.
    + reflexivity.
    + exists "<exists notes.txt>",
        [("params", VDict [("action", VStr "exists"); ("path", VStr "notes.txt")])].
      repeat split; reflexivity.
    + reflexivity.
    + reflexivity.
Defined.

(** C7 as stated does not hold: a directory is an existing path, deleting
    it fails, and it is still there afterwards. *)
Lemma directory_survives_delete :
  present (started "<delete d>" disk_with_dir) (parse "d") = true
  /\ stdout (snd (@main python (started "<delete d>" disk_with_dir)))
     = [[("success", VBool false);
         ("error", VStr "删除文件失败: [Errno 21] Is a directory: 'd'")]]
  /\ stdout (snd (@main python
       (restarted "<exists d>" (snd (@main python (started "<delete d>" disk_with_dir))))))
     = [[("success", VBool true);
         ("data", VDict [("exists", VBool true)]);
         ("message", VStr "文件存在: d")]].
Proof.
  split; [reflexivity|]. split; vm_compute; reflexivity.
Qed.

(** The envelope of a successful delete. *)
Lemma delete_success_carries_no_data_witness :
  keys [("success", VBool true); ("message", VStr "文件已删除: notes.txt")]
  = ["success"; "message"]
  /\ lookup_key "data" [("success", VBool true); ("message", VStr "文件已删除: notes.txt")]
     = None.
Proof.
  apply (@delete_success_carries_no_data python
           (started "<delete notes.txt>" disk_with_notes)
           (set_fs (delete ["notes.txt"] disk_with_notes)
                   (started "<delete notes.txt>" disk_with_notes))
           (VStr "notes.txt") (VStr "") (VStr "utf-8")).
  - reflexivity.
  - vm_compute. reflexivity.
Defined.

(** C3 as stated does not hold: the two results differ in their message. *)
Lemma write_and_create_messages_differ :
  fst (@write_file python (VStr "f.txt") (VStr "x") (VStr "utf-8") (started "" empty_disk))
  = Ret [("success", VBool true);
         ("data", VDict [("path", VStr "f.txt"); ("size", VInt 1)]);
         ("message", VStr "文件已写入: f.txt")]
  /\ fst (@create_file python (VStr "f.txt") (VStr "x") (VStr "utf-8")
                       (started "" empty_disk))
     = Ret [("success", VBool true);
            ("data", VDict [("path", VStr "f.txt"); ("size", VInt 1)]);
            ("message", VStr "文件已创建: f.txt")]
  /\ fst (@write_file python (VStr "f.txt") (VStr "x") (VStr "utf-8") (started "" empty_disk))
     <> fst (@create_file python (VStr "f.txt") (VStr "x") (VStr "utf-8")
                         (started "" empty_disk)).
Proof.
  split; [vm_compute; reflexivity|]. split; [vm_compute; reflexivity|].
  vm_compute. discriminate.
Qed.

End FileRuns.

(** ** Computations that leave the world alone: facts *)

Module Frames.
Import Py PyOps Vocabulary Further.

Lemma unchanged_ret {A} (a : A) : unchanged (ret a).
Proof. now intros w o w' [= <- <-]. Qed.

Lemma unchanged_raise {A} (e : exn) : unchanged (@raise A e).
Proof. now intros w o w' [= <- <-]. Qed.

Lemma unchanged_lift {A} (r : exn + A) : unchanged (lift r).
Proof. destruct r; [apply unchanged_raise | apply unchanged_ret]. Qed.

Lemma unchanged_bind {A B} (m : M A) (k : A -> M B) :
  unchanged m -> (forall a, unchanged (k a)) -> unchanged (Py.bind m k).
Proof.
  intros Hm Hk w o w'. unfold bind.
  destruct (m w) as [[a|e|code] w1] eqn:Hrun; destruct (Hm _ _ _ Hrun) as [-> Hne].
  - apply Hk.
  - now intros [= <- <-].
  - now destruct (Hne code).
Qed.

Lemma unchanged_bind_inv {A B} (m : M A) (k : A -> M B) (w w' : world)
      (o : outcome B) :
  unchanged m ->
  Py.bind m k w = (o, w') ->
  (exists a, k a w = (o, w')) \/ (exists e, o = Raise e /\ w' = w).
Proof.
  intros Hm. unfold bind.
  destruct (m w) as [[a|e|code] w1] eqn:Hrun; destruct (Hm _ _ _ Hrun) as [-> Hne].
  - intros Hk. left. now exists a.
  - intros [= <- <-]. right. now exists e.
  - now destruct (Hne code).
Qed.

Lemma unchanged_py_get (v : value) (k : string) (default : value) :
  unchanged (py_get v k default).
Proof. destruct v; first [apply unchanged_raise | apply unchanged_ret]. Qed.

Lemma unchanged_environ_get (k : string) : unchanged (environ_get k).
Proof. now intros w o w' [= <- <-]. Qed.

Lemma unchanged_environ_has (k : string) : unchanged (environ_has k).
Proof. now intros w o w' [= <- <-]. Qed.

Lemma unchanged_environ_item (k : string) : unchanged (environ_item k).
Proof.
  intros w o w'. unfold environ_item. destruct (environ w !! k); now intros [= <- <-].
Qed.

#[export] Hint Resolve unchanged_ret unchanged_raise unchanged_lift unchanged_py_get
  unchanged_environ_get unchanged_environ_has unchanged_environ_item : frame.

Lemma unchanged_try_except {A} (m : M A) (h : exn -> M A) :
  unchanged m -> (forall e, unchanged (h e)) -> unchanged (try_except m h).
Proof.
  intros Hm Hh w o w'. unfold try_except.
  destruct (m w) as [[a|e|code] w1] eqn:Hrun; destruct (Hm _ _ _ Hrun) as [-> Hne].
  - now intros [= <- <-].
  - apply Hh.
  - now destruct (Hne code).
Qed.

End Frames.

(** ** The search skill: further facts *)

Module SearchMore.
Import Py PyOps BraveSearch Vocabulary Further Basics SearchFacts Frames.

Section Facts.
Context `{Runtime}.

(** X1.  When the search script is given a non-empty query but BRAVE_API_KEY
    is unset or empty, it prints exactly one failure envelope with a non-
    empty error, sends no request, and ends with exit status 0. *)
Theorem missing_api_key_fails_locally (w : world) (ps : dict) :
  search_invoked w ps ->
  truthy (param ps "query" VNone) = true ->
  environ w !! "BRAVE_API_KEY" = None \/ environ w !! "BRAVE_API_KEY" = Some "" ->
  exists error,
    main w = (Ret tt, set_stdout (stdout w ++ [failure_of error]) w)
    /\ error <> ""
    /\ sent (snd (main w)) = sent w
    /\ exit_code (fst (main w)) = 0.
Proof.
  intros Hin Hq Hkey.
  set (error := "未设置 BRAVE_API_KEY 环境变量，请在 .env 文件中添加: BRAVE_API_KEY=your_key").
  assert (Hmain : main w = (Ret tt, set_stdout (stdout w ++ [failure_of error]) w)).
  { rewrite (main_params w ps Hin).
    unfold try_except. cbv zeta. rewrite Hq. cbn [negb].
    unfold bind at 1. unfold environ_get. now destruct Hkey as [-> | ->]. }
  exists error. rewrite Hmain. repeat split. discriminate.
Qed.

(** [main] once [query] has passed validation and the key is there. *)
Lemma main_calls (w : world) (ps : dict) (key : string) :
  search_invoked w ps ->
  truthy (param ps "query" VNone) = true ->
  environ w !! "BRAVE_API_KEY" = Some key -> key <> "" ->
  main w =
  try_except
    (Py.bind (search_brave (param ps "query" VNone) (VStr key)
                           (param ps "count" (VInt 5)) (param ps "offset" (VInt 0)))
       (fun results => output_success results (found_message (length results))))
    (fun e => Py.bind (output_error (str_exn e)) (fun _ => sys_exit 1)) w.
Proof.
  intros Hin Hq Hkey Hkne. rewrite (main_params w ps Hin).
  unfold try_except. cbv zeta. rewrite Hq. cbn [negb].
  unfold bind at 1. unfold environ_get. rewrite Hkey.
  now rewrite (truthy_str key Hkne).
Qed.

(** What [main] does when [search_brave] raises. *)
Lemma main_reports (w w' : world) (ps : dict) (key : string) (e : exn) :
  search_invoked w ps ->
  truthy (param ps "query" VNone) = true ->
  environ w !! "BRAVE_API_KEY" = Some key -> key <> "" ->
  search_brave (param ps "query" VNone) (VStr key)
               (param ps "count" (VInt 5)) (param ps "offset" (VInt 0)) w
  = (Raise e, w') ->
  main w = (Exit 1, set_stdout (stdout w' ++ [failure_of (str_exn e)]) w').
Proof.
  intros Hin Hq Hkey Hkne Hrun. rewrite (main_calls w ps key Hin Hq Hkey Hkne).
  unfold try_except, bind at 1. now rewrite Hrun.
Qed.

(** What [main] does when [search_brave] returns. *)
Lemma main_succeeds (w w' : world) (ps : dict) (key : string) (results : list dict) :
  search_invoked w ps ->
  truthy (param ps "query" VNone) = true ->
  environ w !! "BRAVE_API_KEY" = Some key -> key <> "" ->
  search_brave (param ps "query" VNone) (VStr key)
               (param ps "count" (VInt 5)) (param ps "offset" (VInt 0)) w
  = (Ret results, w') ->
  main w =
  (Ret tt,
   set_stdout
     (stdout w' ++
      [[("success", VBool true);
        ("data", VDict [("results", VList (map VDict results))]);
        ("message", VStr (found_message (length results)))]])
     w').
Proof.
  intros Hin Hq Hkey Hkne Hrun. rewrite (main_calls w ps key Hin Hq Hkey Hkne).
  unfold try_except, bind at 1. now rewrite Hrun.
Qed.


(** *** Failures after validation *)

Lemma search_brave_transport (w : world) (q : string) (key count offset : value)
      (e : exn) :
  let req := search_request (quote_text q) key count offset in
  remote w req = RespFail e -> is_http e = false ->
  search_brave (VStr q) key count offset w = (Raise e, set_sent (sent w ++ [req]) w).
Proof.
  intros req Hremote Hnot.
  unfold search_brave, bind, quote, ret, try_except_http, urlopen.
  fold req. rewrite Hremote. now destruct e.
Qed.

Lemma search_brave_garbled (w : world) (q : string) (key count offset : value)
      (body : list byte) (e : exn) :
  let req := search_request (quote_text q) key count offset in
  remote w req = Resp2xx body ->
  bytes_decode "utf-8" body = inl e
  \/ (exists text, bytes_decode "utf-8" body = inr text /\ json_loads text = inl e) ->
  is_http e = false ->
  search_brave (VStr q) key count offset w = (Raise e, set_sent (sent w ++ [req]) w).
Proof.
  intros req Hremote Hbad Hnot.
  unfold search_brave, bind, quote, ret, try_except_http, urlopen.
  fold req. rewrite Hremote.
  destruct Hbad as [Hdecode | (text & Hdecode & Hload)]; rewrite Hdecode; cbn [lift raise ret].
  - now destruct e.
  - rewrite Hload. cbn [lift raise]. now destruct e.
Qed.

Lemma search_brave_unreadable_error (w : world) (q : string) (key count offset : value)
      (code : Z) (body : list byte) (e : exn) :
  let req := search_request (quote_text q) key count offset in
  remote w req = RespError code body ->
  bytes_decode "utf-8" body = inl e ->
  search_brave (VStr q) key count offset w = (Raise e, set_sent (sent w ++ [req]) w).
Proof.
  intros req Hremote Hdecode.
  unfold search_brave, bind, quote, ret, try_except_http, urlopen.
  fold req. now rewrite Hremote, Hdecode.
Qed.

(** X2.  With a non-empty text query and an API key, when the request fails
    with an exception that is not an HTTPError (the server cannot be
    reached, say), the search script prints one failure envelope whose error
    is the text of that exception, has sent exactly one request, and ends
    with exit status 1. *)
Theorem transport_failure_exits_1 (w : world) (ps : dict) (q key : string) (e : exn) :
  search_invoked w ps ->
  param ps "query" VNone = VStr q -> q <> "" ->
  environ w !! "BRAVE_API_KEY" = Some key -> key <> "" ->
  remote w (search_request (quote_text q) (VStr key) (param ps "count" (VInt 5))
                           (param ps "offset" (VInt 0))) = RespFail e ->
  is_http e = false ->
  stdout (snd (main w)) = stdout w ++ [failure_of (str_exn e)]
  /\ length (sent (snd (main w))) = S (length (sent w))
  /\ exit_code (fst (main w)) = 1.
Proof.
  intros Hin Hq Hqne Hkey Hkne Hremote Hnot.
  assert (Htruthy : truthy (param ps "query" VNone) = true).
  { rewrite Hq. now apply truthy_str. }
  erewrite (main_reports w _ ps key e Hin Htruthy Hkey Hkne).
  2: { rewrite Hq. now apply search_brave_transport. }
  cbn. rewrite length_app. cbn. repeat split. lia.
Qed.

(** X3.  With a non-empty text query and an API key, when the server answers
    with a body that is not UTF-8 or not JSON, the search script prints one
    failure envelope whose error is the text of the decoding or parsing
    exception, and ends with exit status 1. *)
Theorem garbled_response_exits_1 (w : world) (ps : dict) (q key : string)
        (body : list byte) (e : exn) :
  search_invoked w ps ->
  param ps "query" VNone = VStr q -> q <> "" ->
  environ w !! "BRAVE_API_KEY" = Some key -> key <> "" ->
  remote w (search_request (quote_text q) (VStr key) (param ps "count" (VInt 5))
                           (param ps "offset" (VInt 0))) = Resp2xx body ->
  bytes_decode "utf-8" body = inl e
  \/ (exists text, bytes_decode "utf-8" body = inr text /\ json_loads text = inl e) ->
  is_http e = false ->
  stdout (snd (main w)) = stdout w ++ [failure_of (str_exn e)]
  /\ exit_code (fst (main w)) = 1.
Proof.
  intros Hin Hq Hqne Hkey Hkne Hremote Hbad Hnot.
  assert (Htruthy : truthy (param ps "query" VNone) = true).
  { rewrite Hq. now apply truthy_str. }
  erewrite (main_reports w _ ps key e Hin Htruthy Hkey Hkne).
  2: { rewrite Hq. now apply (search_brave_garbled w q _ _ _ body). }
  now cbn.
Qed.

(** X4.  With a non-empty text query and an API key, when the server answers
    with an HTTP error whose body is not UTF-8, the error printed is the
    text of the decoding exception and not the API error message with the
    status code; the exit status is 1. *)
Theorem unreadable_error_body_hides_status (w : world) (ps : dict) (q key : string)
        (code : Z) (body : list byte) (e : exn) :
  search_invoked w ps ->
  param ps "query" VNone = VStr q -> q <> "" ->
  environ w !! "BRAVE_API_KEY" = Some key -> key <> "" ->
  remote w (search_request (quote_text q) (VStr key) (param ps "count" (VInt 5))
                           (param ps "offset" (VInt 0))) = RespError code body ->
  bytes_decode "utf-8" body = inl e ->
  stdout (snd (main w)) = stdout w ++ [failure_of (str_exn e)]
  /\ exit_code (fst (main w)) = 1.
Proof.
  intros Hin Hq Hqne Hkey Hkne Hremote Hdecode.
  assert (Htruthy : truthy (param ps "query" VNone) = true).
  { rewrite Hq. now apply truthy_str. }
  erewrite (main_reports w _ ps key e Hin Htruthy Hkey Hkne).
  2: { rewrite Hq. now apply (search_brave_unreadable_error w q _ _ _ code body). }
  now cbn.
Qed.

(** X5.  With an API key set, a query that is truthy but not a string (a
    number, a list, ...) makes the search script fail before any request is
    sent: one failure envelope with the text of the exception, exit status
    1, nothing else changed. *)
Theorem query_must_be_text (w : world) (ps : dict) (key : string) :
  search_invoked w ps ->
  truthy (param ps "query" VNone) = true ->
  is_str (param ps "query" VNone) = false ->
  environ w !! "BRAVE_API_KEY" = Some key -> key <> "" ->
  exists e,
    main w = (Exit 1, set_stdout (stdout w ++ [failure_of (str_exn e)]) w)
    /\ sent (snd (main w)) = sent w.
Proof.
  intros Hin Htruthy Hstr Hkey Hkne.
  exists (TypeError "quote_from_bytes() expected bytes").
  assert (Hmain : main w = (Exit 1, set_stdout (stdout w ++
             [failure_of (str_exn (TypeError "quote_from_bytes() expected bytes"))]) w)).
  { apply (main_reports w w ps key _ Hin Htruthy Hkey Hkne).
    unfold search_brave, bind, quote, raise.
    now destruct (param ps "query" VNone). }
  now rewrite Hmain.
Qed.

(** Runs [main] up to [json.loads] of the variable's text. *)
Ltac load_params Henv :=
  unfold main, try_except; cbv beta delta [bind environ_has environ_item];
  rewrite Henv; cbv beta iota; rewrite Henv; cbv beta iota.

(** X6.  When BAIZE_PARAMS is set, the search script ends with exit status 1
    and one failure envelope, and does nothing else, if the variable is not
    JSON (error: text of the parse exception), if it is JSON but not an
    object, or if its params entry is not an object (error: text of the
    attribute error of .get). *)
Theorem malformed_parameters_exit_1 (w : world) (raw : string) :
  environ w !! "BAIZE_PARAMS" = Some raw ->
  (forall e, json_loads raw = inl e ->
     main w = (Exit 1, set_stdout (stdout w ++ [failure_of (str_exn e)]) w))
  /\ (forall v, json_loads raw = inr v -> is_dict v = false ->
       main w = (Exit 1, set_stdout (stdout w ++
                   [failure_of (str_exn (AttributeError "get"))]) w))
  /\ (forall d v, json_loads raw = inr (VDict d) -> lookup_key "params" d = Some v ->
       is_dict v = false ->
       main w = (Exit 1, set_stdout (stdout w ++
                   [failure_of (str_exn (AttributeError "get"))]) w)).
Proof.
  intros Henv. split; [|split].
  - intros e Hload. load_params Henv. now rewrite Hload.
  - intros v Hload Hv. load_params Henv. rewrite Hload. now destruct v.
  - intros d v Hload Hparams Hv. load_params Henv. rewrite Hload.
    cbv beta iota delta [lift ret py_get]. rewrite Hparams. now destruct v.
Qed.


(** *** Parsing the results *)

Lemma result_record_dict (item : dict) (w : world) :
  result_record (VDict item) w = (Ret (record_of item), w).
Proof. reflexivity. Qed.

Lemma result_record_other (item : value) (w : world) :
  is_dict item = false ->
  result_record item w = (Raise (AttributeError "get"), w).
Proof. now destruct item. Qed.

Lemma parse_loop_bad_item (items : list value) (acc : list dict) (w : world) :
  Exists (fun item => is_dict item = false) items ->
  parse_loop items acc w = (Raise (AttributeError "get"), w).
Proof.
  intros Hbad. revert acc. induction Hbad as [item rest Hitem | item rest Hrest IH];
    intros acc; cbn [parse_loop]; unfold bind at 1.
  - now rewrite result_record_other.
  - destruct item; try (now rewrite result_record_other).
    rewrite result_record_dict. apply IH.
Qed.

(** X7.  With a non-empty text query and an API key, a response object
    without web, or whose web has no results, is a success: the envelope
    printed has an empty results list and the message for 0 results, and the
    exit status is 0. *)
Theorem no_results_is_success (w : world) (ps : dict) (q key : string)
        (body : list byte) (text : string) (d : dict) :
  search_invoked w ps ->
  param ps "query" VNone = VStr q -> q <> "" ->
  environ w !! "BRAVE_API_KEY" = Some key -> key <> "" ->
  remote w (search_request (quote_text q) (VStr key) (param ps "count" (VInt 5))
                           (param ps "offset" (VInt 0))) = Resp2xx body ->
  bytes_decode "utf-8" body = inr text ->
  json_loads text = inr (VDict d) ->
  lookup_key "web" d = None
  \/ (exists web, lookup_key "web" d = Some (VDict web) /\ lookup_key "results" web = None) ->
  stdout (snd (main w))
  = stdout w ++ [[("success", VBool true);
                  ("data", VDict [("results", VList [])]);
                  ("message", VStr "找到 0 个结果")]]
  /\ exit_code (fst (main w)) = 0.
Proof.
  intros Hin Hq Hqne Hkey Hkne Hremote Hdecode Hload Hnone.
  assert (Htruthy : truthy (param ps "query" VNone) = true).
  { rewrite Hq. now apply truthy_str. }
  erewrite (main_succeeds w _ ps key [] Hin Htruthy Hkey Hkne).
  2: { rewrite Hq. unfold search_brave, bind, quote, ret, try_except_http, urlopen.
       rewrite Hremote, Hdecode. cbn [lift]. unfold ret. rewrite Hload. cbn [lift].
       unfold ret, parse_results, bind, py_get, ret.
       destruct Hnone as [-> | (web & -> & ->)]; reflexivity. }
  now cbn.
Qed.

(** X8.  With a non-empty text query and an API key, if any item of the list
    web.results is not an object, no result is reported at all: the script
    prints one failure envelope with the text of the attribute error of
    .get, and ends with exit status 1. *)
Theorem one_malformed_item_discards_all (w : world) (ps : dict) (q key : string)
        (body : list byte) (text : string) (d web : dict) (items : list value) :
  search_invoked w ps ->
  param ps "query" VNone = VStr q -> q <> "" ->
  environ w !! "BRAVE_API_KEY" = Some key -> key <> "" ->
  remote w (search_request (quote_text q) (VStr key) (param ps "count" (VInt 5))
                           (param ps "offset" (VInt 0))) = Resp2xx body ->
  bytes_decode "utf-8" body = inr text ->
  json_loads text = inr (VDict d) ->
  lookup_key "web" d = Some (VDict web) ->
  lookup_key "results" web = Some (VList items) ->
  Exists (fun item => is_dict item = false) items ->
  stdout (snd (main w)) = stdout w ++ [failure_of (str_exn (AttributeError "get"))]
  /\ exit_code (fst (main w)) = 1.
Proof.
  intros Hin Hq Hqne Hkey Hkne Hremote Hdecode Hload Hweb Hres Hbad.
  assert (Htruthy : truthy (param ps "query" VNone) = true).
  { rewrite Hq. now apply truthy_str. }
  erewrite (main_reports w _ ps key _ Hin Htruthy Hkey Hkne).
  2: { rewrite Hq. unfold search_brave, bind, quote, ret, try_except_http, urlopen.
       rewrite Hremote, Hdecode. cbn [lift]. unfold ret. rewrite Hload. cbn [lift].
       unfold ret, parse_results, bind, py_get, ret. rewrite Hweb, Hres. cbn [py_iter].
       unfold ret. now rewrite (parse_loop_bad_item items [] _ Hbad). }
  now cbn.
Qed.

(** *** The query in the URL *)

Lemma hex_digits_safe (c : ascii) :
  is_safe (hex_digit (N_of_ascii c / 16)) = true
  /\ is_safe (hex_digit (N_of_ascii c mod 16)) = true.
Proof. destruct c as [[] [] [] [] [] [] [] []]; split; reflexivity. Qed.

Lemma safe_is_not_special (c : ascii) :
  is_safe c = true ->
  Ascii.eqb c "&" = false /\ Ascii.eqb c "=" = false
  /\ Ascii.eqb c "#" = false /\ Ascii.eqb c " " = false.
Proof.
  intros Hc. repeat split.
  all: match goal with |- Ascii.eqb ?y ?x = false => destruct (Ascii.eqb_spec y x) end.
  all: subst; done.
Qed.

(** X9.  The quoted query put into the URL consists only of unreserved
    characters (letters, digits, _ . - ~), / and %; in particular it never
    holds &, =, # or a space, so a query cannot add or change URL
    parameters. *)
Theorem quoted_query_alphabet (s : string) :
  all_chars (fun c => is_safe c || Ascii.eqb c "%") (quote_text s) = true
  /\ mentions "&" (quote_text s) = false
  /\ mentions "=" (quote_text s) = false
  /\ mentions "#" (quote_text s) = false
  /\ mentions " " (quote_text s) = false.
Proof.
  induction s as [|c s (IH & Hamp & Heq & Hhash & Hsp)]; [done|].
  cbn [quote_text]. destruct (is_safe c) eqn:Hc.
  - destruct (safe_is_not_special c Hc) as (H1 & H2 & H3 & H4).
    cbn [all_chars mentions]. now rewrite Hc, IH, Hamp, Heq, Hhash, Hsp, H1, H2, H3, H4.
  - destruct (hex_digits_safe c) as [Hhi Hlo].
    destruct (safe_is_not_special _ Hhi) as (H1 & H2 & H3 & H4).
    destruct (safe_is_not_special _ Hlo) as (H5 & H6 & H7 & H8).
    cbn [all_chars mentions].
    now rewrite Hhi, Hlo, IH, Hamp, Heq, Hhash, Hsp, H1, H2, H3, H4, H5, H6, H7, H8.
Qed.

(** X10.  A query made only of letters, digits, _ . - ~ and / is put into
    the URL unchanged. *)
Theorem plain_query_sent_verbatim (s : string) :
  all_chars is_safe s = true -> quote_text s = s.
Proof.
  induction s as [|c s IH]; [done|]. cbn [all_chars quote_text].
  intros [Hc Hs]%andb_true_iff. now rewrite Hc, IH.
Qed.


(** *** Every run *)

Lemma unchanged_result_record (item : value) : unchanged (result_record item).
Proof.
  unfold result_record. do 3 (apply unchanged_bind; [auto with frame | intros ?]).
  auto with frame.
Qed.

Lemma unchanged_parse_loop (items : list value) (acc : list dict) :
  unchanged (parse_loop items acc).
Proof.
  revert acc. induction items as [|item rest IH]; intros acc; cbn [parse_loop].
  - apply unchanged_ret.
  - apply unchanged_bind; [apply unchanged_result_record | intros r; apply IH].
Qed.

Lemma unchanged_parse_results (json_data : value) : unchanged (parse_results json_data).
Proof.
  unfold parse_results. do 2 (apply unchanged_bind; [auto with frame | intros ?]).
  apply unchanged_bind; [|intros ?; apply unchanged_parse_loop].
  unfold py_iter. destruct a0; auto with frame.
Qed.

(** [search_brave] sends at most one request, and exactly one when it
    returns. *)
Lemma search_brave_effect (query api_key count offset : value) (w w' : world)
      (r : outcome (list dict)) :
  search_brave query api_key count offset w = (r, w') ->
  (forall code, r <> Exit code)
  /\ (w' = w \/ exists req, w' = set_sent (sent w ++ [req]) w)
  /\ (forall results, r = Ret results -> exists req, w' = set_sent (sent w ++ [req]) w).
Proof.
  unfold search_brave. unfold bind at 1.
  destruct query as [| | |q| |]; cbn [quote raise ret];
    try (intros [= <- <-]; repeat split; [done | now left | done]).
  set (req := search_request (quote_text q) api_key count offset).
  set (w1 := set_sent (sent w ++ [req]) w).
  assert (Hrest : forall body, unchanged
            (Py.bind (lift (bytes_decode "utf-8" body)) (fun text =>
             Py.bind (lift (json_loads text)) (fun data => parse_results data)))).
  { intros body. do 2 (apply unchanged_bind; [auto with frame | intros ?]).
    apply unchanged_parse_results. }
  assert (Hhandler : forall code body (o : outcome (list dict)) w2,
            Py.bind (lift (bytes_decode "utf-8" body)) (fun error_body =>
              raise (Exception (http_error_message code error_body))) w1 = (o, w2) ->
            w2 = w1 /\ exists e, o = Raise e).
  { intros code body o w2. unfold bind.
    destruct (bytes_decode "utf-8" body); cbn; intros [= <- <-]; eauto. }
  unfold try_except_http, urlopen. unfold bind at 1. fold req w1.
  destruct (remote w req) as [body | code body | e].
  - destruct (Py.bind _ _ w1) as [o w2] eqn:Hrun.
    destruct (Hrest body _ _ _ Hrun) as [-> Hne].
    destruct o as [results | e | code].
    + intros [= <- <-]. repeat split; [done | right; now exists req | intros; now exists req].
    + destruct e; try (intros [= <- <-];
        repeat split; [done | right; now exists req | done]).
      intros Hh. apply Hhandler in Hh as [-> [e ->]].
      repeat split; [done | right; now exists req | done].
    + now destruct (Hne code).
  - intros Hh. apply Hhandler in Hh as [-> [e ->]].
    repeat split; [done | right; now exists req | done].
  - destruct e; try (intros [= <- <-];
      repeat split; [done | right; now exists req | done]).
    intros Hh. apply Hhandler in Hh as [-> [e ->]].
    repeat split; [done | right; now exists req | done].
Qed.


(** X11.  Every run of the search script ends in one of three ways, and
    prints exactly one envelope in each: a failure envelope with exit status
    0 and no request sent; a success envelope with exit status 0 and exactly
    one request sent; or a failure envelope with exit status 1 and at most
    one request sent. Nothing else of the world changes. *)
Theorem search_runs_three_ways (w : world) :
  (exists error,
     main w = (Ret tt, set_stdout (stdout w ++ [failure_of error]) w))
  \/ (exists req results,
        main w =
        (Ret tt,
         set_stdout
           (stdout w ++
            [[("success", VBool true);
              ("data", VDict [("results", VList (map VDict results))]);
              ("message", VStr (found_message (length results)))]])
           (set_sent (sent w ++ [req]) w)))
  \/ (exists error,
        main w = (Exit 1, set_stdout (stdout w ++ [failure_of error]) w)
        \/ exists req,
             main w = (Exit 1, set_stdout (stdout w ++ [failure_of error])
                                          (set_sent (sent w ++ [req]) w))).
Proof.
  unfold main, try_except.
  match goal with |- context [let (_, _) := ?m w in _] =>
    destruct (m w) as [o w1] eqn:Hbody
  end.
  assert (Hraise : forall e,
            (exists error,
               (Py.bind (output_error (str_exn e)) (fun _ => @sys_exit unit 1)) w
               = (Exit 1, set_stdout (stdout w ++ [failure_of error]) w)
               \/ exists req,
                    (Py.bind (output_error (str_exn e)) (fun _ => @sys_exit unit 1)) w
                    = (Exit 1, set_stdout (stdout w ++ [failure_of error])
                                          (set_sent (sent w ++ [req]) w)))).
  { intros e. exists (str_exn e). now left. }
  (* the six steps before validation change nothing *)
  apply unchanged_bind_inv in Hbody as [[has Hbody] | (e & -> & ->)];
    [|right; right; now apply Hraise|auto with frame].
  apply unchanged_bind_inv in Hbody as [[input_data Hbody] | (e & -> & ->)];
    [|right; right; now apply Hraise|].
  2: { destruct has; [|auto with frame].
       apply unchanged_bind; [auto with frame | intros ?; auto with frame]. }
  apply unchanged_bind_inv in Hbody as [[params Hbody] | (e & -> & ->)];
    [|right; right; now apply Hraise|auto with frame].
  apply unchanged_bind_inv in Hbody as [[query Hbody] | (e & -> & ->)];
    [|right; right; now apply Hraise|auto with frame].
  apply unchanged_bind_inv in Hbody as [[count Hbody] | (e & -> & ->)];
    [|right; right; now apply Hraise|auto with frame].
  apply unchanged_bind_inv in Hbody as [[offset Hbody] | (e & -> & ->)];
    [|right; right; now apply Hraise|auto with frame].
  destruct (negb (truthy query)).
  { (* no query *) injection Hbody as <- <-. left. now eexists. }
  apply unchanged_bind_inv in Hbody as [[api_key Hbody] | (e & -> & ->)];
    [|right; right; now apply Hraise|auto with frame].
  destruct (negb (truthy api_key)).
  { (* no key *) injection Hbody as <- <-. left. now eexists. }
  unfold bind in Hbody.
  destruct (search_brave query api_key count offset w) as [r w2] eqn:Hsearch.
  destruct (search_brave_effect _ _ _ _ _ _ _ Hsearch) as (Hne & Hsent & Hret).
  destruct r as [results | e | code].
  - (* results *)
    injection Hbody as <- <-. destruct (Hret results eq_refl) as [req ->].
    right; left. now exists req, results.
  - (* the search raised *)
    injection Hbody as <- <-. right; right. exists (str_exn e).
    destruct Hsent as [-> | [req ->]]; [now left | right; now exists req].
  - now destruct (Hne code).
Qed.

End Facts.
End SearchMore.

(** ** The file skill: further facts *)

Module FileMore.
Import Py PyOps Pathlib FileSkill Vocabulary Further Basics PathlibFacts FileFacts Frames.

Section Facts.
Context `{Runtime}.

(** *** Input and validation *)

(** X12.  With BAIZE_PARAMS unset and standard input empty, the file script
    prints the failure envelope for missing input and ends with exit status
    1. *)
Theorem no_input_exits_1 (w : world) :
  environ w !! "BAIZE_PARAMS" = None -> stdin w = "" ->
  main w = (Exit 1, set_stdout (stdout w ++ [failure "没有输入参数"]) (set_stdin "" w)).
Proof.
  intros Henv Hstdin. unfold main, try_except, bind, environ_has, stdin_read.
  now rewrite Henv, Hstdin.
Qed.

(** [main] from the parsed input on. *)
Lemma main_parsed (w : world) (raw : string) (input_data : value) :
  file_input w = Some raw ->
  json_loads raw = inr input_data ->
  main w =
  try_except
    (Py.bind (py_get input_data "params" (VDict [])) (fun params =>
     Py.bind (py_get params "action" VNone) (fun action =>
     Py.bind (py_get params "path" VNone) (fun file_path =>
     Py.bind (py_get params "content" (VStr "")) (fun content =>
     Py.bind (py_get params "encoding" (VStr "utf-8")) (fun encoding =>
     if negb (truthy action) then output_error "缺少 action 参数"
     else if negb (truthy file_path) then output_error "缺少 path 参数"
     else
       Py.bind (if eq_str action "read" then read_file file_path encoding
                else if eq_str action "write" then write_file file_path content encoding
                else if eq_str action "create" then create_file file_path content encoding
                else if eq_str action "delete" then delete_file file_path
                else if eq_str action "exists" then exists_file file_path
                else ret (failure ("未知操作: " +:+ py_str action)))
               print_json))))))
    (fun e => output_error (str_exn e)) (consumed w).
Proof.
  intros Hinput Hload. unfold file_input in Hinput.
  unfold main, try_except. unfold bind at 1. unfold environ_has, consumed.
  destruct (environ w !! "BAIZE_PARAMS") as [raw'|] eqn:Henv.
  - injection Hinput as ->.
    do 2 unfold bind at 1. unfold environ_item. now rewrite Henv, Hload.
  - destruct (String.eqb (stdin w) "") eqn:Hstdin; [discriminate|].
    injection Hinput as <-.
    do 2 unfold bind at 1. unfold stdin_read. rewrite Hstdin. cbn [negb]. now rewrite Hload.
Qed.

Lemma main_unparsed (w : world) (raw : string) (e : exn) :
  file_input w = Some raw ->
  json_loads raw = inl e ->
  main w = (Exit 1, set_stdout (stdout w ++ [failure (str_exn e)]) (consumed w)).
Proof.
  intros Hinput Hload. unfold file_input in Hinput.
  unfold main, try_except. unfold bind at 1. unfold environ_has, consumed.
  destruct (environ w !! "BAIZE_PARAMS") as [raw'|] eqn:Henv.
  - injection Hinput as ->.
    do 2 unfold bind at 1. unfold environ_item. now rewrite Henv, Hload.
  - destruct (String.eqb (stdin w) "") eqn:Hstdin; [discriminate|].
    injection Hinput as <-.
    do 2 unfold bind at 1. unfold stdin_read. rewrite Hstdin. cbn [negb]. now rewrite Hload.
Qed.

(** X13.  When the input of the file script is not JSON, is JSON but not an
    object, or has a params entry that is not an object, the script prints
    one failure envelope with the text of the exception and ends with exit
    status 1, the filesystem untouched. *)
Theorem malformed_input_exits_1 (w : world) (raw : string) :
  file_input w = Some raw ->
  (forall e, json_loads raw = inl e ->
     main w = (Exit 1, set_stdout (stdout w ++ [failure (str_exn e)]) (consumed w)))
  /\ (forall v, json_loads raw = inr v -> is_dict v = false ->
      main w = (Exit 1, set_stdout (stdout w ++ [failure (str_exn (AttributeError "get"))])
                                   (consumed w)))
  /\ (forall d v, json_loads raw = inr (VDict d) -> lookup_key "params" d = Some v ->
      is_dict v = false ->
      main w = (Exit 1, set_stdout (stdout w ++ [failure (str_exn (AttributeError "get"))])
                                   (consumed w))).
Proof.
  intros Hinput. split; [|split].
  - intros e Hload. exact (main_unparsed w raw e Hinput Hload).
  - intros v Hload Hv. rewrite (main_parsed w raw v Hinput Hload).
    unfold try_except, bind. destruct v; try done; cbn; now rewrite stdout_consumed.
  - intros d v Hload Hparams Hv. rewrite (main_parsed w raw _ Hinput Hload).
    unfold try_except, bind. cbn [py_get ret]. rewrite Hparams.
    destruct v; try done; cbn; now rewrite stdout_consumed.
Qed.


(** [main] from validation on. *)
Lemma main_validates (w : world) (ps : dict) :
  file_invoked w ps ->
  main w =
  try_except
    (if negb (truthy (param ps "action" VNone)) then output_error "缺少 action 参数"
     else if negb (truthy (param ps "path" VNone)) then output_error "缺少 path 参数"
     else Py.bind (selected ps) print_json)
    (fun e => output_error (str_exn e)) (consumed w).
Proof.
  intros (raw & d & Hinput & Hload & Hps).
  rewrite (main_parsed w raw _ Hinput Hload). unfold try_except.
  unfold bind at 1. cbn [py_get ret]. fold (param d "params" (VDict [])). rewrite Hps.
  do 4 (unfold bind at 1; cbn [py_get ret]).
  fold (param ps "action" VNone) (param ps "path" VNone)
       (param ps "content" (VStr "")) (param ps "encoding" (VStr "utf-8")).
  reflexivity.
Qed.

(** X14.  A missing or falsy action, and with an action a missing or falsy
    path, make the file script print the failure envelope naming the missing
    parameter and end with exit status 1; the action is checked first. *)
Theorem missing_action_or_path_exits_1 (w : world) (ps : dict) :
  file_invoked w ps ->
  (truthy (param ps "action" VNone) = false ->
   main w = (Exit 1, set_stdout (stdout w ++ [failure "缺少 action 参数"]) (consumed w)))
  /\ (truthy (param ps "action" VNone) = true ->
      truthy (param ps "path" VNone) = false ->
      main w = (Exit 1, set_stdout (stdout w ++ [failure "缺少 path 参数"]) (consumed w))).
Proof.
  intros Hin. rewrite (main_validates w ps Hin). unfold try_except. split.
  - intros ->. cbn. now rewrite stdout_consumed.
  - intros -> ->. cbn. now rewrite stdout_consumed.
Qed.


(** *** Reading and asking never change anything *)

Lemma unchanged_Path (v : value) : unchanged (Path v).
Proof. destruct v; cbn [Path]; auto with frame. Qed.

Lemma unchanged_stat (p : path) : unchanged (stat p).
Proof.
  intros w o w'. unfold stat, os_error.
  destruct (locate w p); [apply unchanged_raise | apply unchanged_ret].
Qed.

Lemma unchanged_path_exists (p : path) : unchanged (path_exists p).
Proof. intros w o w'. rewrite path_exists_run. apply unchanged_ret. Qed.

Lemma unchanged_io_encoding (encoding : value) : unchanged (io_encoding encoding).
Proof. destruct encoding; cbn [io_encoding]; auto with frame. Qed.

Lemma unchanged_read_text (p : path) (encoding : value) : unchanged (read_text p encoding).
Proof.
  unfold read_text, open_for_read, os_error.
  apply unchanged_bind; [apply unchanged_io_encoding | intros name].
  apply unchanged_bind.
  { apply unchanged_bind; [apply unchanged_stat | intros []; auto with frame]. }
  intros data. apply unchanged_bind; [auto with frame | intros text; auto with frame].
Qed.

Lemma unchanged_st_size (p : path) : unchanged (st_size p).
Proof.
  unfold st_size. apply unchanged_bind; [apply unchanged_stat | intros n; auto with frame].
Qed.

#[local] Hint Resolve unchanged_Path unchanged_stat unchanged_path_exists
  unchanged_io_encoding unchanged_read_text unchanged_st_size : frame.

(** Every run of [read_file]. *)
Lemma read_file_runs (file_path encoding : value) (w : world) :
  exists envelope,
    read_file file_path encoding w = (Ret envelope, w) /\ enveloped envelope.
Proof.
  unfold read_file, try_except.
  match goal with |- context [let (_, _) := ?m w in _] =>
    destruct (m w) as [o w1] eqn:Hbody
  end.
  assert (Hfail : forall e, exists envelope,
            (ret (failure ("读取文件失败: " +:+ str_exn e)) w : outcome dict * world)
            = (Ret envelope, w) /\ enveloped envelope).
  { intros e. eexists. split; [reflexivity|]. right. now eexists. }
  apply unchanged_bind_inv in Hbody as [[path Hbody] | (e & -> & ->)];
    [|apply Hfail|auto with frame].
  apply unchanged_bind_inv in Hbody as [[found Hbody] | (e & -> & ->)];
    [|apply Hfail|auto with frame].
  destruct (negb found).
  { injection Hbody as <- <-. eexists. split; [reflexivity|]. right. now eexists. }
  apply unchanged_bind_inv in Hbody as [[content Hbody] | (e & -> & ->)];
    [|apply Hfail|auto with frame].
  apply unchanged_bind_inv in Hbody as [[size Hbody] | (e & -> & ->)];
    [|apply Hfail|auto with frame].
  injection Hbody as <- <-. eexists. split; [reflexivity|]. now left.
Qed.

(** Every run of [exists_file]. *)
Lemma exists_file_runs (file_path : value) (w : world) :
  exists envelope,
    exists_file file_path w = (Ret envelope, w) /\ enveloped envelope.
Proof.
  unfold exists_file, try_except.
  match goal with |- context [let (_, _) := ?m w in _] =>
    destruct (m w) as [o w1] eqn:Hbody
  end.
  apply unchanged_bind_inv in Hbody as [[path Hbody] | (e & -> & ->)];
    [| |auto with frame].
  2: { eexists. split; [reflexivity|]. right. now eexists. }
  apply unchanged_bind_inv in Hbody as [[found Hbody] | (e & -> & ->)];
    [| |auto with frame].
  2: { eexists. split; [reflexivity|]. right. now eexists. }
  injection Hbody as <- <-. eexists. split; [reflexivity|]. now left.
Qed.

(** X15.  read_file and exists_file leave the world exactly as it was,
    whatever their arguments. *)
Theorem reading_and_asking_change_nothing (w : world) (file_path encoding : value) :
  snd (read_file file_path encoding w) = w
  /\ snd (exists_file file_path w) = w.
Proof.
  destruct (read_file_runs file_path encoding w) as (e1 & -> & _).
  destruct (exists_file_runs file_path w) as (e2 & -> & _). done.
Qed.


(** *** Reading *)

(** X16.  Reading a regular file returns the decoded bytes with line ends
    translated to line feeds as content and message, and the number of bytes
    on disk as size; if the bytes cannot be decoded the result is the read
    failure with the text of the exception. Nothing is changed. *)
Theorem read_reports_what_is_on_disk (w : world) (s name : string) (data : list byte) :
  locate w (parse s) = inr (File data) ->
  read_file (VStr s) (VStr name) w =
  (Ret match bytes_decode name data with
       | inr text =>
           [("success", VBool true);
            ("data", VDict [("content", VStr (universal_newlines text));
                            ("path", VStr s);
                            ("size", VInt (Z.of_nat (length data)))]);
            ("message", VStr (universal_newlines text))]
       | inl e => failure ("读取文件失败: " +:+ str_exn e)
       end, w).
Proof.
  intros Hfile.
  assert (Hpresent : present w (parse s) = true) by (unfold present; now rewrite Hfile).
  unfold read_file, try_except, bind, Path, ret.
  rewrite path_exists_run, Hpresent. cbn [negb].
  unfold read_text, bind, io_encoding, ret, open_for_read, bind, stat.
  rewrite Hfile. cbn. destruct (bytes_decode name data) as [e|text]; cbn [lift ret raise].
  - reflexivity.
  - unfold st_size, bind, stat, ret. now rewrite Hfile.
Qed.

(** X17.  Reading a path that leads to a directory returns the read failure
    with the text of the is-a-directory error, not the file-not-found
    failure. *)
Theorem read_of_a_directory_fails (w : world) (s name : string) :
  locate w (parse s) = inr Dir ->
  read_file (VStr s) (VStr name) w =
  (Ret (failure ("读取文件失败: " +:+ str_exn (OSError EISDIR (path_str (parse s))))), w).
Proof.
  intros Hdir.
  assert (Hpresent : present w (parse s) = true) by (unfold present; now rewrite Hdir).
  unfold read_file, try_except, bind, Path, ret.
  rewrite path_exists_run, Hpresent. cbn [negb].
  unfold read_text, bind, io_encoding, ret, open_for_read, bind, stat.
  now rewrite Hdir.
Qed.

Lemma universal_newlines_no_cr (s : string) :
  mentions "013" (universal_newlines s) = false
  /\ forall c, mentions "013" (universal_newlines (String c s)) = false.
Proof.
  induction s as [|c' s [IH IH']].
  - split; [done|]. intros c. cbn [universal_newlines].
    destruct (Ascii.eqb c "013") eqn:Hc; cbn [mentions]; [done|]. now rewrite Hc.
  - split; [apply IH'|]. intros c.
    cbn [universal_newlines]. fold (universal_newlines (String c' s)).
    destruct (Ascii.eqb c "013") eqn:Hc.
    + destruct (Ascii.eqb c' "010"); cbn [mentions]; [exact IH | exact (IH' c')].
    + cbn [mentions]. rewrite Hc. exact (IH' c').
Qed.

Lemma read_text_translated (p : path) (encoding : value) (w w' : world)
      (content : string) :
  read_text p encoding w = (Ret content, w') ->
  exists text, content = universal_newlines text.
Proof.
  unfold read_text, bind, ret.
  repeat case_match; intros; simplify_eq. eauto.
Qed.

(** X18.  The content of a successful read never holds a carriage return. *)
Theorem read_content_has_no_carriage_return (w w' : world) (file_path encoding : value)
        (envelope d : dict) (content : string) :
  read_file file_path encoding w = (Ret envelope, w') ->
  lookup_key "data" envelope = Some (VDict d) ->
  lookup_key "content" d = Some (VStr content) ->
  mentions "013" content = false.
Proof.
  unfold read_file, try_except.
  match goal with |- context [let (_, _) := ?m w in _] =>
    destruct (m w) as [o w1] eqn:Hbody
  end.
  apply unchanged_bind_inv in Hbody as [[path Hbody] | (e & -> & ->)];
    [| now intros [= <- <-] | auto with frame].
  apply unchanged_bind_inv in Hbody as [[found Hbody] | (e & -> & ->)];
    [| now intros [= <- <-] | auto with frame].
  destruct (negb found); [injection Hbody as <- <-; now intros [= <- <-]|].
  unfold bind at 1 in Hbody.
  destruct (read_text path encoding w) as [[text| |] w2] eqn:Hread;
    try (injection Hbody as <- <-; now intros [= <- <-]).
  apply read_text_translated in Hread as [raw ->].
  apply unchanged_bind_inv in Hbody as [[size Hbody] | (e & -> & ->)];
    [| now intros [= <- <-] | auto with frame].
  injection Hbody as <- <-. intros [= <- <-]. cbn. intros [= <-] [= <-].
  apply universal_newlines_no_cr.
Qed.


(** *** Deleting *)

(** X19.  delete_file either returns a failure envelope and leaves the world
    as it was, or returns the success envelope with the deletion message and
    removes exactly the one regular file the path leads to. *)
Theorem delete_removes_one_file_or_nothing (w : world) (file_path : value) :
  (exists error, delete_file file_path w = (Ret (failure error), w))
  \/ (exists s k data,
        file_path = VStr s
        /\ namei (fs w) (start (parse s) w) (parts (parse s)) = inr k
        /\ fs w !! k = Some (File data)
        /\ delete_file file_path w =
           (Ret [("success", VBool true); ("message", VStr ("文件已删除: " +:+ s))],
            set_fs (delete k (fs w)) w)).
Proof.
  unfold delete_file, try_except, bind.
  destruct file_path as [| | |s| |]; cbn [Path ret raise]; try (left; now eexists).
  rewrite path_exists_run. unfold present, locate.
  destruct (namei (fs w) (start (parse s) w) (parts (parse s))) as [e|k] eqn:Hwalk;
    [left; now eexists|].
  destruct (fs w !! k) as [n|] eqn:Hk; cbn [negb]; [|left; now eexists].
  unfold unlink, os_error, raise. rewrite Hwalk, Hk.
  destruct n as [data|]; [|left; now eexists].
  right. now exists s, k, data.
Qed.

(** X20.  Deleting a path that leads to a directory returns the delete
    failure with the text of the is-a-directory error and leaves the
    directory in place. *)
Theorem delete_of_a_directory_fails (w : world) (s : string) :
  locate w (parse s) = inr Dir ->
  delete_file (VStr s) w =
  (Ret (failure ("删除文件失败: " +:+ str_exn (OSError EISDIR (path_str (parse s))))), w).
Proof.
  intros Hdir.
  assert (Hpresent : present w (parse s) = true) by (unfold present; now rewrite Hdir).
  unfold delete_file, try_except, bind, Path, ret.
  rewrite path_exists_run, Hpresent. cbn [negb].
  unfold locate in Hdir. unfold unlink.
  destruct (namei (fs w) (start (parse s) w) (parts (parse s))) as [e|k]; [done|].
  now destruct (fs w !! k) as [[data|]|].
Qed.

(** *** A path that is not text *)

(** X21.  Given a path that is not a string, each of the five operations
    returns its own failure envelope with the text of the type error and
    changes nothing. *)
Theorem path_must_be_text (w : world) (file_path content encoding : value) :
  is_str file_path = false ->
  exists what,
  let e := TypeError what in
  read_file file_path encoding w = (Ret (failure ("读取文件失败: " +:+ str_exn e)), w)
  /\ write_file file_path content encoding w
     = (Ret (failure ("写入文件失败: " +:+ str_exn e)), w)
  /\ create_file file_path content encoding w
     = (Ret (failure ("创建文件失败: " +:+ str_exn e)), w)
  /\ delete_file file_path w = (Ret (failure ("删除文件失败: " +:+ str_exn e)), w)
  /\ exists_file file_path w = (Ret (failure ("检查文件失败: " +:+ str_exn e)), w).
Proof.
  intros Hstr. eexists. destruct file_path; try done; repeat split; reflexivity.
Qed.


(** *** What writing can and cannot change *)

Lemma adds_dirs_refl (f : gmap key node) : adds_dirs f f.
Proof. intros k. now left. Qed.

Lemma adds_dirs_trans (f1 f2 f3 : gmap key node) :
  adds_dirs f1 f2 -> adds_dirs f2 f3 -> adds_dirs f1 f3.
Proof.
  intros H12 H23 k. destruct (H12 k) as [E12 | [N1 D2]], (H23 k) as [E23 | [N2 D3]].
  - left. congruence.
  - right. split; congruence.
  - right. split; congruence.
  - congruence.
Qed.

Lemma adds_dirs_insert (f : gmap key node) (k : key) :
  f !! k = None -> adds_dirs f (<[k := Dir]> f).
Proof.
  intros Hk k'. destruct (decide (k' = k)) as [->|Hne].
  - right. split; [done | apply lookup_insert_eq].
  - left. now apply lookup_insert_ne.
Qed.

Lemma dirs_only_ret {A} (a : A) : dirs_only (ret a).
Proof.
  intros w o w' [= <- <-]. split; [|done].
  exists (fs w). split; [now rewrite set_fs_same | apply adds_dirs_refl].
Qed.

Lemma dirs_only_raise {A} (e : exn) : dirs_only (@raise A e).
Proof.
  intros w o w' [= <- <-]. split; [|done].
  exists (fs w). split; [now rewrite set_fs_same | apply adds_dirs_refl].
Qed.

Lemma dirs_only_bind {A B} (m : M A) (k : A -> M B) :
  dirs_only m -> (forall a, dirs_only (k a)) -> dirs_only (Py.bind m k).
Proof.
  intros Hm Hk w o w'. unfold bind.
  destruct (m w) as [[a|e|code] w1] eqn:Hrun;
    destruct (Hm _ _ _ Hrun) as [(f1 & -> & H1) Hne].
  - intros Hrun2. destruct (Hk a _ _ _ Hrun2) as [(f2 & -> & H2) Hne2]. split; [|done].
    exists f2. split; [done|]. now apply (adds_dirs_trans _ f1).
  - intros [= <- <-]. split; [|done]. now exists f1.
  - now destruct (Hne code).
Qed.

Lemma dirs_only_try_except {A} (m : M A) (h : exn -> M A) :
  dirs_only m -> (forall e, dirs_only (h e)) -> dirs_only (try_except m h).
Proof.
  intros Hm Hh w o w'. unfold try_except.
  destruct (m w) as [[a|e|code] w1] eqn:Hrun;
    destruct (Hm _ _ _ Hrun) as [(f1 & -> & H1) Hne].
  - intros [= <- <-]. split; [|done]. now exists f1.
  - intros Hrun2. destruct (Hh e _ _ _ Hrun2) as [(f2 & -> & H2) Hne2]. split; [|done].
    exists f2. split; [done|]. now apply (adds_dirs_trans _ f1).
  - now destruct (Hne code).
Qed.

Lemma dirs_only_os_mkdir (p : path) : dirs_only (os_mkdir p).
Proof.
  intros w o w'. unfold os_mkdir, os_error.
  destruct (namei (fs w) (start p w) (parts p)) as [e|k]; [apply dirs_only_raise|].
  destruct (fs w !! k) eqn:Hk; [apply dirs_only_raise|].
  destruct (parts p); [apply dirs_only_raise|].
  intros [= <- <-]. split; [|done]. eexists. split; [done|]. now apply adds_dirs_insert.
Qed.

Lemma dirs_only_is_dir (p : path) : dirs_only (is_dir p).
Proof. intros w o w'. rewrite is_dir_run. apply dirs_only_ret. Qed.

Lemma dirs_only_mkdir_flat (exist_ok : bool) (p : path) : dirs_only (mkdir_flat exist_ok p).
Proof.
  apply dirs_only_try_except; [apply dirs_only_os_mkdir|].
  intros [| |[] ?| | |]; try apply dirs_only_raise.
  all: apply dirs_only_bind; [apply dirs_only_is_dir|].
  all: intros d; destruct (negb exist_ok || negb d);
    [apply dirs_only_raise | apply dirs_only_ret].
Qed.

Lemma dirs_only_mkdir_parents_at (abs : bool) (ps : list string) :
  dirs_only (mkdir_parents_at abs ps).
Proof.
  induction ps as [|c up IH]; rewrite mkdir_parents_at_unfold.
  all: apply dirs_only_try_except; [apply dirs_only_os_mkdir|].
  all: intros [| |[] ?| | |]; try apply dirs_only_raise.
  all: try (apply dirs_only_bind; [apply dirs_only_is_dir|];
            intros d; destruct (negb d); [apply dirs_only_raise | apply dirs_only_ret]).
  apply dirs_only_bind; [exact IH | intros _; apply dirs_only_mkdir_flat].
Qed.

Lemma unchanged_py_encode (text encoding : value) : unchanged (py_encode text encoding).
Proof.
  unfold py_encode. destruct text; try apply unchanged_raise.
  destruct encoding; first [apply unchanged_raise | apply unchanged_lift].
Qed.

(** [write_text] changes at most the one file it opens. *)
Lemma write_text_effect (p : path) (data encoding : value) (w w' : world)
      (o : outcome unit) :
  write_text p data encoding w = (o, w') ->
  (forall code, o <> Exit code)
  /\ (w' = w
      \/ exists k bytes,
           fs w !! k <> Some Dir /\ w' = set_fs (<[k := File bytes]> (fs w)) w).
Proof.
  unfold write_text. destruct data as [| | |text| |];
    try (intros [= <- <-]; split; [done | now left]).
  unfold bind.
  destruct (io_encoding encoding w) as [[name|e|code] w0] eqn:Henc;
    destruct (unchanged_io_encoding _ _ _ _ Henc) as [-> Hne].
  2: { intros [= <- <-]. split; [done | now left]. }
  2: { now destruct (Hne code). }
  unfold open_for_write, os_error, raise.
  destruct (namei (fs w) (start p w) (parts p)) as [e|k];
    [intros [= <- <-]; split; [done | now left]|].
  assert (Hopen : forall o' w'',
            (let (o, w') := lift (str_encode name text) (set_fs (<[k := File []]> (fs w)) w) in
             match o with
             | Ret a => put_file k a w'
             | Raise e => (Raise e, w')
             | Exit c => (Exit c, w')
             end) = (o', w'') ->
            fs w !! k <> Some Dir ->
            (forall code, o' <> Exit code)
            /\ (w'' = w
                \/ exists k bytes,
                     fs w !! k <> Some Dir /\ w'' = set_fs (<[k := File bytes]> (fs w)) w)).
  { intros o' w'' Hrun Hk. destruct (str_encode name text) as [e|encoded];
      cbn in Hrun; injection Hrun as <- <-; (split; [done|]); right.
    - now exists k, [].
    - exists k, encoded. split; [done|]. cbn. now rewrite insert_insert_eq. }
  destruct (fs w !! k) as [[old|]|] eqn:Hk.
  - intros Hrun. now apply Hopen.
  - intros [= <- <-]. split; [done | now left].
  - destruct (parts p); [intros [= <- <-]; split; [done | now left]|].
    intros Hrun. now apply Hopen.
Qed.

(** Every run of the common steps: directories are added, then at most one
    file is written. *)
Lemma write_steps_effect (file_path content encoding : value) (w w' : world)
      (o : outcome (list byte)) :
  write_steps file_path content encoding w = (o, w') ->
  exists f1,
    adds_dirs (fs w) f1
    /\ (w' = set_fs f1 w
        \/ exists k bytes, f1 !! k <> Some Dir /\ w' = set_fs (<[k := File bytes]> f1) w).
Proof.
  unfold write_steps. unfold bind at 1.
  destruct file_path as [| | |s| |]; cbn [Path ret raise];
    try (intros [= <- <-]; exists (fs w);
         split; [apply adds_dirs_refl | left; now rewrite set_fs_same]).
  unfold bind at 1.
  destruct (mkdir_parents (parent (parse s)) w) as [[[]|e|code] w1] eqn:Hmk;
    destruct (dirs_only_mkdir_parents_at _ _ _ _ _ Hmk) as [(f1 & -> & Hadds) Hne].
  - unfold bind at 1.
    destruct (write_text (parse s) content encoding (set_fs f1 w)) as [[[]|e|code] w2] eqn:Hwt;
      destruct (write_text_effect _ _ _ _ _ _ Hwt) as [Hne2 Hw2].
    + intros Hrun.
      destruct (unchanged_py_encode _ _ _ _ _ Hrun) as [-> _].
      exists f1. split; [done|]. destruct Hw2 as [-> | (k & bytes & Hk & ->)]; [now left|].
      right. now exists k, bytes.
    + intros [= <- <-]. exists f1. split; [done|].
      destruct Hw2 as [-> | (k & bytes & Hk & ->)]; [now left|]. right. now exists k, bytes.
    + now destruct (Hne2 code).
  - intros [= <- <-]. exists f1. split; [done | now left].
  - now destruct (Hne code).
Qed.

(** X22.  write_file and create_file leave the same world behind; whatever
    the arguments, every directory stays a directory, nothing that exists is
    removed, and at most one existing node (the target) is changed. *)
Theorem writing_harms_nothing_else (w : world) (file_path content encoding : value) :
  snd (create_file file_path content encoding w)
  = snd (write_file file_path content encoding w)
  /\ (forall k, fs w !! k = Some Dir ->
                fs (snd (write_file file_path content encoding w)) !! k = Some Dir)
  /\ (forall k, is_Some (fs w !! k) ->
                is_Some (fs (snd (write_file file_path content encoding w)) !! k))
  /\ (exists target, forall k n,
        k <> target -> fs w !! k = Some n ->
        fs (snd (write_file file_path content encoding w)) !! k = Some n).
Proof.
  rewrite write_file_steps, create_file_steps.
  destruct (write_steps file_path content encoding w) as [o w'] eqn:Hrun.
  destruct (write_steps_effect _ _ _ _ _ _ Hrun) as (f1 & Hadds & Hw').
  assert (Hsnd : forall (a b : dict) (c : Z -> outcome dict),
            snd (match o with
                 | Ret encoded => (Ret a, w')
                 | Raise e => (Ret b, w')
                 | Exit code => (c code, w')
                 end) = w') by (intros; now destruct o).
  assert (Hkeep : forall k n, fs w !! k = Some n -> f1 !! k = Some n).
  { intros k n Hn. destruct (Hadds k) as [-> | [Hnone _]]; congruence. }
  split; [now destruct o|].
  replace (snd _) with w' by now destruct o.
  destruct Hw' as [-> | (target & bytes & Htarget & ->)]; cbn [fs set_fs].
  - split; [|split].
    + intros k Hk. now apply Hkeep.
    + intros k [n Hn]. exists n. now apply Hkeep.
    + exists []. intros k n _ Hn. now apply Hkeep.
  - split; [|split].
    + intros k Hk. rewrite lookup_insert_ne; [now apply Hkeep|].
      intros <-. apply Htarget. now apply Hkeep.
    + intros k [n Hn]. destruct (decide (k = target)) as [->|Hne].
      * rewrite lookup_insert_eq. now eexists.
      * rewrite lookup_insert_ne by done. exists n. now apply Hkeep.
    + exists target. intros k n Hne Hn. rewrite lookup_insert_ne by done. now apply Hkeep.
Qed.


(** *** Where a write succeeds and where it fails *)

Lemma suffix_of_tail (c : string) (up up' : list string) :
  up' `suffix_of` c :: up -> up' <> c :: up -> up' `suffix_of` up.
Proof.
  intros [[|x pre] Hpre] Hne; cbn in Hpre; [congruence|].
  injection Hpre as _ Hpre. now exists pre.
Qed.

(** With every directory there, [mkdir] has nothing to do. *)
Lemma mkdir_parents_at_noop (abs : bool) (ps : list string) (w : world) :
  let from := if abs then [] else cwd w in
  ".." ∉ ps ->
  (forall up, up `suffix_of` ps -> fs w !! (up ++ from) = Some Dir) ->
  mkdir_parents_at abs ps w = (Ret tt, w).
Proof.
  intros from Hdd Hdirs. destruct ps as [|c up].
  - pose proof (Hdirs [] (suffix_nil [])) as Hfrom. cbn [app] in Hfrom.
    rewrite mkdir_parents_at_unfold. unfold try_except, os_mkdir, start.
    cbn [absolute parts namei]. fold from. rewrite Hfrom. cbn.
    unfold bind. rewrite is_dir_run. unfold locate, start.
    cbn [absolute parts namei]. fold from. now rewrite Hfrom.
  - apply not_elem_of_cons in Hdd as [Hc Hup].
    assert (Hk : fs w !! (c :: up ++ from) = Some Dir) by now apply (Hdirs (c :: up)).
    destruct (mkdir_last abs w (fs w) c up) as [_ Hrun]; [congruence | done | | |].
    + intros up' Hsuf. apply Hdirs. now apply suffix_cons_r.
    + intros data. fold from. now rewrite Hk.
    + rewrite set_fs_same in Hrun. rewrite Hrun. fold from. now rewrite Hk, set_fs_same.
Qed.

(** The directories above a path, made where nothing on the way is a regular
    file. *)
Lemma parent_is_made (w : world) (p : path) :
  well_formed w ->
  ".." ∉ parts p ->
  (forall up data, up `suffix_of` tail (parts p) ->
                   fs w !! (up ++ start p w) <> Some (File data)) ->
  exists f1,
    mkdir_parents (parent p) w = (Ret tt, set_fs f1 w)
    /\ adds_dirs (fs w) f1
    /\ tree f1
    /\ (forall up, up `suffix_of` tail (parts p) -> f1 !! (up ++ start p w) = Some Dir)
    /\ f1 !! (parts p ++ start p w) = fs w !! (parts p ++ start p w).
Proof.
  intros [Htree Hcwd] Hdd Hfile. set (from := start p w) in *.
  assert (Hfrom : fs w !! from = Some Dir).
  { subst from. unfold start. destruct (absolute p); [apply Htree | done]. }
  assert (Hdd' : ".." ∉ tail (parts p)).
  { destruct (parts p); [done|]. now apply not_elem_of_cons in Hdd as [_ ?]. }
  destruct (mkdir_parents_at_ok (absolute p) (tail (parts p)) w Htree Hfrom Hdd' Hfile)
    as (f1 & Hmk & Htree1 & Hdirs1 & Hnew1).
  change (if absolute p then [] else cwd w) with from in Hdirs1, Hnew1.
  exists f1. split; [exact Hmk|]. split; [|split; [done|split; [done|]]].
  - destruct (dirs_only_mkdir_parents_at _ _ _ _ _ Hmk) as [(f1' & Heq & Hadds) _].
    apply (f_equal fs) in Heq. cbn in Heq. now subst f1'.
  - destruct (Hnew1 (parts p ++ from)) as [Hsame | [Hd (up' & Hsuf & Heq)]]; [done|].
    apply app_inv_tail in Heq. destruct (parts p) as [|c up] eqn:Hparts.
    + cbn in *. apply suffix_nil_inv in Hsuf. subst up'. now rewrite Hfrom, Hd.
    + exfalso. subst up'. apply suffix_length in Hsuf. cbn in Hsuf. lia.
Qed.

(** [write_text] below a chain of directories. *)
Lemma write_text_run (w : world) (p : path) (text name : string) :
  ".." ∉ parts p ->
  (forall up, up `suffix_of` tail (parts p) -> fs w !! (up ++ start p w) = Some Dir) ->
  fs w !! (parts p ++ start p w) <> Some Dir ->
  write_text p (VStr text) (VStr name) w =
  match str_encode name text with
  | inr encoded => (Ret tt, set_fs (<[parts p ++ start p w := File encoded]> (fs w)) w)
  | inl e => (Raise e, set_fs (<[parts p ++ start p w := File []]> (fs w)) w)
  end.
Proof.
  intros Hdd Hdirs Hk. set (from := start p w) in *.
  destruct (parts p) as [|c up] eqn:Hparts.
  { exfalso. apply Hk. apply (Hdirs []). cbn. done. }
  cbn [tail] in Hdirs.
  assert (Hwalk : namei (fs w) from (c :: up) = inr (c :: up ++ from)).
  { apply (namei_through (fs w) from (c :: up)); [done|].
    intros up' Hsuf Hne. apply Hdirs. now apply (suffix_of_tail c). }
  unfold write_text, bind, io_encoding, ret, open_for_write. fold from.
  rewrite Hparts, Hwalk.
  change ((c :: up) ++ from) with (c :: up ++ from) in *.
  destruct (fs w !! (c :: up ++ from)) as [[old|]|] eqn:Hlook; [|done|].
  all: destruct (str_encode name text) as [e|encoded]; cbn [lift raise ret]; [done|].
  all: unfold put_file; cbn [fs set_fs]; now rewrite insert_insert_eq.
Qed.

(** The common steps, where the write is possible. *)
Lemma write_steps_run (w : world) (s text name : string) :
  well_formed w ->
  ".." ∉ parts (parse s) ->
  (forall up data, up `suffix_of` tail (parts (parse s)) ->
                   fs w !! (up ++ start (parse s) w) <> Some (File data)) ->
  fs w !! (parts (parse s) ++ start (parse s) w) <> Some Dir ->
  exists f1,
    mkdir_parents (parent (parse s)) w = (Ret tt, set_fs f1 w)
    /\ adds_dirs (fs w) f1
    /\ tree f1
    /\ (forall up, up `suffix_of` tail (parts (parse s)) ->
                   f1 !! (up ++ start (parse s) w) = Some Dir)
    /\ f1 !! (parts (parse s) ++ start (parse s) w)
       = fs w !! (parts (parse s) ++ start (parse s) w)
    /\ write_steps (VStr s) (VStr text) (VStr name) w =
       match str_encode name text with
       | inr encoded =>
           (Ret encoded,
            set_fs (<[parts (parse s) ++ start (parse s) w := File encoded]> f1) w)
       | inl e =>
           (Raise e, set_fs (<[parts (parse s) ++ start (parse s) w := File []]> f1) w)
       end.
Proof.
  intros Hwf Hdd Hfile Hk.
  destruct (parent_is_made w (parse s) Hwf Hdd Hfile) as (f1 & Hmk & Hadds & Htree1 & Hdirs1 & Hk1).
  exists f1. repeat (split; [done|]).
  unfold write_steps, Path, bind at 1, ret. unfold bind at 1. rewrite Hmk.
  unfold bind at 1.
  rewrite (write_text_run (set_fs f1 w) (parse s) text name Hdd); cbn [fs set_fs].
  - change (start (parse s) (set_fs f1 w)) with (start (parse s) w).
    destruct (str_encode name text) as [e|encoded] eqn:Hcodec; [done|].
    unfold bind, py_encode. now rewrite Hcodec.
  - exact Hdirs1.
  - change (start (parse s) (set_fs f1 w)) with (start (parse s) w). now rewrite Hk1.
Qed.


(** Above an existing file everything is a directory. *)
Lemma above_a_node (w : world) (p : path) (n : node) :
  well_formed w ->
  ".." ∉ parts p ->
  locate w p = inr n ->
  fs w !! (parts p ++ start p w) = Some n
  /\ forall up, up `suffix_of` tail (parts p) -> fs w !! (up ++ start p w) = Some Dir.
Proof.
  intros [Htree Hcwd] Hdd Hn. apply locate_key in Hn; [|done]. split; [done|].
  assert (Hfrom : fs w !! start p w = Some Dir).
  { unfold start. destruct (absolute p); [apply Htree | done]. }
  destruct (parts p) as [|c up] eqn:Hparts; cbn [tail].
  - intros up Hsuf. apply suffix_nil_inv in Hsuf. now subst up.
  - intros up' Hsuf. apply (tree_above (fs w) ((c :: up) ++ start p w) _ n Htree Hn).
    + apply suffix_app. now apply suffix_cons_r.
    + intros Heq. apply app_inv_tail in Heq. subst up'.
      apply suffix_length in Hsuf. cbn in Hsuf. lia.
Qed.

(** The common steps on a path that leads to a regular file. *)
Lemma write_steps_existing (w : world) (s text name : string) (old : list byte) :
  well_formed w ->
  ".." ∉ parts (parse s) ->
  locate w (parse s) = inr (File old) ->
  write_steps (VStr s) (VStr text) (VStr name) w =
  match str_encode name text with
  | inr encoded =>
      (Ret encoded,
       set_fs (<[parts (parse s) ++ start (parse s) w := File encoded]> (fs w)) w)
  | inl e =>
      (Raise e, set_fs (<[parts (parse s) ++ start (parse s) w := File []]> (fs w)) w)
  end.
Proof.
  intros Hwf Hdd Hfile.
  destruct (above_a_node w (parse s) (File old) Hwf Hdd Hfile) as [Hk Hdirs].
  assert (Hdd' : ".." ∉ tail (parts (parse s))).
  { destruct (parts (parse s)); [done|]. now apply not_elem_of_cons in Hdd as [_ ?]. }
  unfold write_steps, Path, bind at 1, ret. unfold bind at 1.
  unfold mkdir_parents, parent. cbn [absolute parts].
  rewrite (mkdir_parents_at_noop (absolute (parse s)) (tail (parts (parse s))) w Hdd' Hdirs).
  unfold bind at 1. rewrite (write_text_run w (parse s) text name Hdd Hdirs); [|congruence].
  destruct (str_encode name text) as [e|encoded] eqn:Hcodec; [done|].
  unfold bind, py_encode. now rewrite Hcodec.
Qed.

(** X23.  On a path without .. that leads to a regular file, with a text the
    encoding encodes, write_file and create_file both succeed and replace
    its content by the encoded text, changing nothing else: create does not
    refuse an existing file. *)
Theorem write_replaces_an_existing_file (w : world) (s text name : string)
        (old encoded : list byte) :
  well_formed w ->
  ".." ∉ parts (parse s) ->
  locate w (parse s) = inr (File old) ->
  str_encode name text = inr encoded ->
  let w' := set_fs (<[parts (parse s) ++ start (parse s) w := File encoded]> (fs w)) w in
  write_file (VStr s) (VStr text) (VStr name) w
  = (Ret [("success", VBool true);
          ("data", VDict [("path", VStr s); ("size", VInt (Z.of_nat (length encoded)))]);
          ("message", VStr ("文件已写入: " +:+ s))], w')
  /\ create_file (VStr s) (VStr text) (VStr name) w
     = (Ret [("success", VBool true);
             ("data", VDict [("path", VStr s); ("size", VInt (Z.of_nat (length encoded)))]);
             ("message", VStr ("文件已创建: " +:+ s))], w').
Proof.
  intros Hwf Hdd Hfile Hcodec w'.
  rewrite write_file_steps, create_file_steps.
  rewrite (write_steps_existing w s text name old Hwf Hdd Hfile), Hcodec. done.
Qed.

(** X24.  When the text cannot be encoded, write_file on a path without ..
    that leads to a regular file returns the write failure with the text of
    the exception, and the file is left empty. *)
Theorem failed_encoding_empties_the_file (w : world) (s text name : string)
        (old : list byte) (e : exn) :
  well_formed w ->
  ".." ∉ parts (parse s) ->
  locate w (parse s) = inr (File old) ->
  str_encode name text = inl e ->
  write_file (VStr s) (VStr text) (VStr name) w
  = (Ret (failure ("写入文件失败: " +:+ str_exn e)),
     set_fs (<[parts (parse s) ++ start (parse s) w := File []]> (fs w)) w)
  /\ locate (snd (write_file (VStr s) (VStr text) (VStr name) w)) (parse s)
     = inr (File []).
Proof.
  intros Hwf Hdd Hfile Hcodec.
  assert (Hrun : write_file (VStr s) (VStr text) (VStr name) w
                 = (Ret (failure ("写入文件失败: " +:+ str_exn e)),
                    set_fs (<[parts (parse s) ++ start (parse s) w := File []]> (fs w)) w)).
  { rewrite write_file_steps.
    now rewrite (write_steps_existing w s text name old Hwf Hdd Hfile), Hcodec. }
  rewrite Hrun. split; [done|]. cbn [snd].
  destruct (above_a_node w (parse s) (File old) Hwf Hdd Hfile) as [Hk Hdirs].
  apply locate_written; [|congruence].
  unfold locate in Hfile.
  destruct (namei (fs w) (start (parse s) w) (parts (parse s))) as [e'|k] eqn:Hwalk; [done|].
  now rewrite (namei_key _ _ _ _ Hdd Hwalk).
Qed.



(** *** Paths that cannot be written *)

Lemma namei_below_file (f : gmap key node) (from : key) (ps up : list string)
      (data : list byte) :
  tree f ->
  ".." ∉ ps ->
  up `suffix_of` ps ->
  up <> ps ->
  f !! (up ++ from) = Some (File data) ->
  namei f from ps = inl ENOTDIR.
Proof.
  intros Htree. induction ps as [|c ps IH]; intros Hdd Hsuf Hne Hfile.
  - apply suffix_nil_inv in Hsuf. congruence.
  - apply not_elem_of_cons in Hdd as [Hc Hdd].
    destruct Hsuf as [pre Hpre]. destruct pre as [|c' pre].
    { cbn in Hpre. congruence. }
    cbn in Hpre. injection Hpre as Hc' Hpre. subst c'.
    assert (Hsuf : up `suffix_of` ps) by now exists pre.
    cbn [namei]. destruct (decide (up = ps)) as [->|Hne'].
    + assert (Hwalk : namei f from ps = inr (ps ++ from)).
      { apply namei_through; [done|].
        intros up' Hsuf' Hne''.
        apply (tree_above f (ps ++ from) _ (File data) Htree Hfile).
        - now apply suffix_app.
        - intros Heq. apply app_inv_tail in Heq. congruence. }
      rewrite Hwalk. unfold enter. rewrite Hfile.
      destruct (String.eqb c ".." ) eqn:Hdot; [|done].
      apply String.eqb_eq in Hdot. congruence.
    + now rewrite (IH Hdd Hsuf Hne' Hfile).
Qed.


Lemma namei_of_node (w : world) (p : path) (n : node) :
  ".." ∉ parts p ->
  locate w p = inr n ->
  namei (fs w) (start p w) (parts p) = inr (parts p ++ start p w).
Proof.
  intros Hdd. unfold locate.
  destruct (namei (fs w) (start p w) (parts p)) as [e|k] eqn:Hwalk; [done|].
  intros _. now rewrite (namei_key _ _ _ _ Hdd Hwalk).
Qed.

Lemma mkdir_below_file (abs : bool) (ps up : list string) (data : list byte)
      (w : world) :
  let from := if abs then [] else cwd w in
  tree (fs w) ->
  ".." ∉ ps ->
  up `suffix_of` ps ->
  fs w !! (up ++ from) = Some (File data) ->
  exists e, (e = ENOTDIR \/ e = EEXIST)
            /\ mkdir_parents_at abs ps w
               = (Raise (OSError e (path_str (PurePath abs ps))), w).
Proof.
  intros from Htree Hdd Hsuf Hfile.
  rewrite mkdir_parents_at_unfold.
  destruct (decide (up = ps)) as [->|Hne].
  - exists EEXIST. split; [now right|].
    assert (Hwalk : namei (fs w) from ps = inr (ps ++ from)).
    { apply namei_through; [done|]. intros up' Hsuf' Hne'.
      apply (tree_above (fs w) (ps ++ from) _ (File data) Htree Hfile).
      - now apply suffix_app.
      - intros Heq. apply app_inv_tail in Heq. congruence. }
    unfold try_except, os_mkdir, start. cbn [absolute parts]. fold from.
    rewrite Hwalk, Hfile. unfold os_error, raise. unfold bind. rewrite is_dir_run.
    unfold locate, start. cbn [absolute parts]. fold from. now rewrite Hwalk, Hfile.
  - exists ENOTDIR. split; [now left|].
    pose proof (namei_below_file (fs w) from ps up data Htree Hdd Hsuf Hne Hfile) as Hwalk.
    unfold try_except, os_mkdir, start. cbn [absolute parts]. fold from.
    rewrite Hwalk. unfold os_error, raise. unfold bind. rewrite is_dir_run.
    unfold locate, start. cbn [absolute parts]. fold from. now rewrite Hwalk.
Qed.

Lemma write_steps_below_file (w : world) (s : string) (content encoding : value)
      (up : list string) (data : list byte) :
  well_formed w ->
  ".." ∉ parts (parse s) ->
  up `suffix_of` tail (parts (parse s)) ->
  fs w !! (up ++ start (parse s) w) = Some (File data) ->
  exists e,
    (e = ENOTDIR \/ e = EEXIST)
    /\ write_steps (VStr s) content encoding w
       = (Raise (OSError e (path_str (parent (parse s)))), w).
Proof.
  intros [Htree _] Hdd Hsuf Hfile.
  assert (Hdd' : ".." ∉ tail (parts (parse s))).
  { destruct (parts (parse s)); [done|]. now apply not_elem_of_cons in Hdd as [_ ?]. }
  destruct (mkdir_below_file (absolute (parse s)) (tail (parts (parse s))) up data w
              Htree Hdd' Hsuf Hfile) as (e & He & Hmk).
  exists e. split; [done|].
  change (mkdir_parents (parent (parse s)) w
          = (Raise (OSError e (path_str (parent (parse s)))), w)) in Hmk.
  unfold write_steps, Path, bind at 1, ret. unfold bind at 1. now rewrite Hmk.
Qed.

Lemma write_steps_directory (w : world) (s text name : string) :
  well_formed w ->
  ".." ∉ parts (parse s) ->
  locate w (parse s) = inr Dir ->
  write_steps (VStr s) (VStr text) (VStr name) w
  = (Raise (OSError EISDIR (path_str (parse s))), w).
Proof.
  intros Hwf Hdd Hdir.
  destruct (above_a_node w (parse s) Dir Hwf Hdd Hdir) as [Hk Hdirs].
  assert (Hdd' : ".." ∉ tail (parts (parse s))).
  { destruct (parts (parse s)); [done|]. now apply not_elem_of_cons in Hdd as [_ ?]. }
  unfold write_steps, Path, bind at 1, ret. unfold bind at 1.
  unfold mkdir_parents, parent. cbn [absolute parts].
  rewrite (mkdir_parents_at_noop (absolute (parse s)) (tail (parts (parse s))) w Hdd' Hdirs).
  unfold bind at 1. unfold write_text, io_encoding, bind at 1, ret. unfold bind at 1.
  unfold open_for_write. rewrite (namei_of_node w (parse s) Dir Hdd Hdir), Hk.
  done.
Qed.


(** X27.  On a path without .. that leads to a directory, write_file and
    create_file return their failure with the text of the is-a-directory
    error, and change nothing. *)
Theorem a_directory_is_not_overwritten (w : world) (s text name : string) :
  well_formed w ->
  ".." ∉ parts (parse s) ->
  locate w (parse s) = inr Dir ->
  write_file (VStr s) (VStr text) (VStr name) w
  = (Ret (failure ("写入文件失败: "
                   +:+ str_exn (OSError EISDIR (path_str (parse s))))), w)
  /\ create_file (VStr s) (VStr text) (VStr name) w
     = (Ret (failure ("创建文件失败: "
                      +:+ str_exn (OSError EISDIR (path_str (parse s))))), w).
Proof.
  intros Hwf Hdd Hdir.
  now rewrite write_file_steps, create_file_steps,
              (write_steps_directory w s text name Hwf Hdd Hdir).
Qed.


(** *** Writing again *)

Lemma file_above_or_not (f : gmap key node) (from : key) (ps : list string) :
  (exists up data, up `suffix_of` ps /\ f !! (up ++ from) = Some (File data))
  \/ (forall up data, up `suffix_of` ps -> f !! (up ++ from) <> Some (File data)).
Proof.
  induction ps as [|c ps IH].
  - destruct (f !! from) as [[data|]|] eqn:Hfrom.
    + left. exists [], data. now split.
    + right. intros up data Hsuf. apply suffix_nil_inv in Hsuf. subst up. cbn. congruence.
    + right. intros up data Hsuf. apply suffix_nil_inv in Hsuf. subst up. cbn. congruence.
  - destruct IH as [(up & data & Hsuf & Hfile) | Hnone].
    { left. exists up, data. split; [now apply suffix_cons_r | done]. }
    destruct (f !! ((c :: ps) ++ from)) as [[data|]|] eqn:Hk.
    + left. exists (c :: ps), data. now split.
    + right. intros up data Hsuf.
      destruct (decide (up = c :: ps)) as [->|Hne]; [congruence|].
      apply Hnone. destruct Hsuf as [[|c' pre] Hpre]; cbn in Hpre; [congruence|].
      injection Hpre as _ Hpre. now exists pre.
    + right. intros up data Hsuf.
      destruct (decide (up = c :: ps)) as [->|Hne]; [congruence|].
      apply Hnone. destruct Hsuf as [[|c' pre] Hpre]; cbn in Hpre; [congruence|].
      injection Hpre as _ Hpre. now exists pre.
Qed.

Lemma tree_insert_file (f : gmap key node) (c : string) (d : key) (data : list byte) :
  tree f ->
  f !! d = Some Dir ->
  f !! (c :: d) <> Some Dir ->
  tree (<[c :: d := File data]> f).
Proof.
  intros [Hroot Hup] Hd Hk. split.
  - now rewrite lookup_insert_ne.
  - intros c' d' n Hn.
    assert (Hd' : f !! d' = Some Dir).
    { destruct (decide (c' :: d' = c :: d)) as [[= -> ->]|Hne]; [done|].
      rewrite lookup_insert_ne in Hn by congruence. now apply (Hup c' d' n). }
    rewrite lookup_insert_ne; [done|]. congruence.
Qed.

(** X28.  write_file with a text content and a named encoding is idempotent
    on paths without ..: run again on the world it left behind, with the
    same arguments, it returns the same envelope and leaves the same world. *)
Theorem writing_twice_is_writing_once (w : world) (s text name : string) :
  well_formed w ->
  ".." ∉ parts (parse s) ->
  let first := write_file (VStr s) (VStr text) (VStr name) w in
  write_file (VStr s) (VStr text) (VStr name) (snd first) = first.
Proof.
  intros Hwf Hdd first. subst first.
  set (k := parts (parse s) ++ start (parse s) w).
  destruct (file_above_or_not (fs w) (start (parse s) w) (tail (parts (parse s))))
    as [(up & data & Hsuf & Hfile) | Hnone].
  { destruct (write_steps_below_file w s (VStr text) (VStr name) up data Hwf Hdd Hsuf Hfile)
      as (e & _ & Hsteps).
    assert (Hrun : write_file (VStr s) (VStr text) (VStr name) w
                   = (Ret (failure ("写入文件失败: " +:+ str_exn
                                      (OSError e (path_str (parent (parse s)))))), w))
      by now rewrite write_file_steps, Hsteps.
    rewrite Hrun. cbn [snd]. exact Hrun. }
  assert (Hcase : fs w !! k = Some Dir \/ fs w !! k <> Some Dir).
  { destruct (fs w !! k) as [[?|]|]; [right|left|right]; congruence. }
  destruct Hcase as [Hdir|Hk].
  { assert (Hloc : locate w (parse s) = inr Dir) by (apply locate_tree; [apply Hwf|done..]).
    assert (Hrun : write_file (VStr s) (VStr text) (VStr name) w
                   = (Ret (failure ("写入文件失败: " +:+ str_exn
                                      (OSError EISDIR (path_str (parse s))))), w))
      by now rewrite write_file_steps, (write_steps_directory w s text name Hwf Hdd Hloc).
    rewrite Hrun. cbn [snd]. exact Hrun. }
  destruct (write_steps_run w s text name Hwf Hdd Hnone Hk)
    as (f1 & _ & Hadds & Htree1 & Hdirs1 & Hk1 & Hsteps).
  fold k in Hk1, Hsteps.
  assert (Hagain : forall data,
            write_steps (VStr s) (VStr text) (VStr name) (set_fs (<[k := File data]> f1) w)
            = match str_encode name text with
              | inr encoded => (Ret encoded, set_fs (<[k := File encoded]> f1) w)
              | inl e => (Raise e, set_fs (<[k := File []]> f1) w)
              end).
  { intros data. set (w1 := set_fs (<[k := File data]> f1) w).
    assert (Hparts : exists c up, parts (parse s) = c :: up).
    { destruct (parts (parse s)) as [|c up] eqn:Hparts; [|now exists c, up].
      exfalso. apply Hk. subst k. rewrite ?Hparts. cbn [app].
      destruct Hwf as [[Hroot _] Hcwd]. unfold start. now destruct (absolute (parse s)). }
    destruct Hparts as (c & up & Hparts).
    assert (Hkey : k = c :: up ++ start (parse s) w) by (subst k; now rewrite Hparts).
    assert (Hup : f1 !! (up ++ start (parse s) w) = Some Dir).
    { apply Hdirs1. now rewrite Hparts. }
    assert (Hwf1 : well_formed w1).
    { split; cbn [fs set_fs cwd w1].
      - rewrite Hkey. apply tree_insert_file; [done..|]. rewrite <- Hkey. congruence.
      - destruct Hwf as [_ Hcwd].
        assert (Hcwd1 : f1 !! cwd w = Some Dir).
        { destruct (Hadds (cwd w)) as [Hsame | [Hnone' _]]; congruence. }
        rewrite lookup_insert_ne; [done|].
        intros Heq. rewrite <- Heq in Hcwd1. congruence. }
    assert (Hloc : locate w1 (parse s) = inr (File data)).
    { apply locate_tree; [apply Hwf1 | done |]. cbn [fs set_fs w1].
      change (start (parse s) (set_fs (<[k := File data]> f1) w)) with (start (parse s) w).
      fold k. apply lookup_insert_eq. }
    rewrite (write_steps_existing w1 s text name data Hwf1 Hdd Hloc).
    change (start (parse s) w1) with (start (parse s) w). fold k.
    cbn [fs set_fs w1].
    destruct (str_encode name text); now rewrite insert_insert_eq. }
  rewrite (write_file_steps _ _ _ w), Hsteps.
  destruct (str_encode name text) as [e|encoded] eqn:Hcodec; cbn [snd].
  all: now rewrite write_file_steps, Hagain, ?Hcodec.
Qed.


(** *** Every run of the script *)

Lemma enveloped_failure (error : string) : enveloped (failure error).
Proof. right. now exists error. Qed.

Lemma delete_file_runs (file_path : value) (w : world) :
  exists envelope f',
    delete_file file_path w = (Ret envelope, set_fs f' w) /\ enveloped envelope.
Proof.
  assert (Hfail : forall error, exists envelope f',
            (Ret (failure error), w) = (Ret envelope, set_fs f' w) /\ enveloped envelope).
  { intros error. exists (failure error), (fs w). rewrite set_fs_same.
    split; [done | apply enveloped_failure]. }
  unfold delete_file, try_except, bind.
  destruct file_path as [| | |s| |]; cbn [Path ret raise]; try apply Hfail.
  rewrite path_exists_run. unfold present, locate.
  destruct (namei (fs w) (start (parse s) w) (parts (parse s))) as [e|k] eqn:Hwalk;
    [apply Hfail|].
  destruct (fs w !! k) as [n|] eqn:Hk; cbn [negb]; [|apply Hfail].
  unfold unlink, os_error, raise. rewrite Hwalk, Hk.
  destruct n as [data|]; [|apply Hfail].
  eexists. exists (delete k (fs w)). split; [reflexivity | now left].
Qed.

Lemma write_file_runs (file_path content encoding : value) (w : world) :
  exists envelope f',
    write_file file_path content encoding w = (Ret envelope, set_fs f' w)
    /\ enveloped envelope.
Proof.
  rewrite write_file_steps.
  destruct (write_steps file_path content encoding w) as [o w'] eqn:Hsteps.
  destruct (fs_only_write_steps file_path content encoding w o w' Hsteps) as [[f' ->] Hexit].
  destruct o as [encoded|e|code]; [| |now destruct (Hexit code)].
  - eexists. exists f'. split; [reflexivity | now left].
  - eexists. exists f'. split; [reflexivity | apply enveloped_failure].
Qed.

Lemma create_file_runs (file_path content encoding : value) (w : world) :
  exists envelope f',
    create_file file_path content encoding w = (Ret envelope, set_fs f' w)
    /\ enveloped envelope.
Proof.
  rewrite create_file_steps.
  destruct (write_steps file_path content encoding w) as [o w'] eqn:Hsteps.
  destruct (fs_only_write_steps file_path content encoding w o w' Hsteps) as [[f' ->] Hexit].
  destruct o as [encoded|e|code]; [| |now destruct (Hexit code)].
  - eexists. exists f'. split; [reflexivity | now left].
  - eexists. exists f'. split; [reflexivity | apply enveloped_failure].
Qed.

(** Whatever is selected returns an envelope and touches the filesystem
    only. *)
Lemma selected_runs (ps : dict) (w : world) :
  exists envelope f',
    selected ps w = (Ret envelope, set_fs f' w) /\ enveloped envelope.
Proof.
  unfold selected.
  destruct (eq_str (param ps "action" VNone) "read").
  { destruct (read_file_runs (param ps "path" VNone)
                             (param ps "encoding" (VStr "utf-8")) w) as (envelope & Hrun & He).
    exists envelope, (fs w). now rewrite set_fs_same. }
  destruct (eq_str (param ps "action" VNone) "write"); [apply write_file_runs|].
  destruct (eq_str (param ps "action" VNone) "create"); [apply create_file_runs|].
  destruct (eq_str (param ps "action" VNone) "delete"); [apply delete_file_runs|].
  destruct (eq_str (param ps "action" VNone) "exists").
  { destruct (exists_file_runs (param ps "path" VNone) w) as (envelope & Hrun & He).
    exists envelope, (fs w). now rewrite set_fs_same. }
  eexists. exists (fs w). rewrite set_fs_same. split; [reflexivity | apply enveloped_failure].
Qed.

(** X29.  Every run of the file script prints exactly one envelope and ends
    in one of two ways: exit status 1 with a failure envelope and the
    filesystem untouched (the input is missing or malformed, or action or
    path is missing), or exit status 0 with the envelope of the operation,
    which is a success envelope or a failure envelope, and with changes to
    the filesystem only. A failed operation still ends with exit status 0. *)
Theorem file_runs_two_ways (w : world) :
  (exists error,
     main w = (Exit 1, set_stdout (stdout w ++ [failure_of error]) (consumed w)))
  \/ (exists envelope f',
        main w = (Ret tt, set_stdout (stdout w ++ [envelope]) (set_fs f' (consumed w)))
        /\ enveloped envelope).
Proof.
  destruct (file_input w) as [raw|] eqn:Hinput.
  - destruct (json_loads raw) as [e|v] eqn:Hload.
    { left. exists (str_exn e). exact (main_unparsed w raw e Hinput Hload). }
    destruct v as [| | | |l|d].
    1-5: left; eexists; rewrite (main_parsed w raw _ Hinput Hload);
         unfold try_except, bind; cbn; now rewrite stdout_consumed.
    destruct (param d "params" (VDict [])) as [| | | |l|ps] eqn:Hps.
    1-5: left; eexists; rewrite (main_parsed w raw _ Hinput Hload);
         unfold try_except, bind; cbn [py_get ret];
         fold (param d "params" (VDict [])); rewrite Hps; cbn;
         now rewrite stdout_consumed.
    assert (Hin : file_invoked w ps) by now exists raw, d.
    destruct (truthy (param ps "action" VNone)) eqn:Haction.
    2: { left. eexists. rewrite (main_validates w ps Hin), Haction.
         unfold try_except. cbn. now rewrite stdout_consumed. }
    destruct (truthy (param ps "path" VNone)) eqn:Hpath.
    2: { left. eexists. rewrite (main_validates w ps Hin), Haction, Hpath.
         unfold try_except. cbn. now rewrite stdout_consumed. }
    right. destruct (selected_runs ps (consumed w)) as (envelope & f' & Hrun & He).
    exists envelope, f'. split; [|done].
    rewrite (main_prints w _ ps envelope Hin Haction Hpath Hrun).
    cbn [stdout set_fs]. now rewrite stdout_consumed.
  - left. eexists. unfold file_input in Hinput. unfold consumed.
    destruct (environ w !! "BAIZE_PARAMS") eqn:Henv; [done|].
    destruct (String.eqb (stdin w) "") eqn:Hstdin; [|done].
    unfold main, try_except, bind, environ_has, stdin_read.
    now rewrite Henv, Hstdin.
Qed.

End Facts.
End FileMore.

(** ** The scripts on further concrete inputs *)

Module SearchCases.
Import Py PyOps BraveSearch Vocabulary Further Sample Cases SearchMore.

(** A query, and no API key in the environment. *)
Lemma missing_api_key_fails_locally_witness :
  exists error,
    @main strict (started "<search baize>" empty_disk)
    = (Ret tt, set_stdout [failure_of error] (started "<search baize>" empty_disk))
    /\ error <> ""
    /\ sent (snd (@main strict (started "<search baize>" empty_disk))) = []
    /\ exit_code (fst (@main strict (started "<search baize>" empty_disk))) = 0.
Proof.
  apply (@missing_api_key_fails_locally strict (started "<search baize>" empty_disk)
           [("query", VStr "baize")]).
  - exists [("params", VDict [("query", VStr "baize")])]. split; reflexivity.
  - reflexivity.
  - left. reflexivity.
Defined.

(** The server cannot be reached. *)
Lemma transport_failure_exits_1_witness :
  stdout (snd (@main strict (searching "<search baize>" unreachable)))
  = [failure_of "<urlopen error unreachable>"]
  /\ length (sent (snd (@main strict (searching "<search baize>" unreachable)))) = 1%nat
  /\ exit_code (fst (@main strict (searching "<search baize>" unreachable))) = 1.
Proof.
  apply (@transport_failure_exits_1 strict (searching "<search baize>" unreachable)
           [("query", VStr "baize")] "baize" "key"
           (LibraryError "URLError" "<urlopen error unreachable>")).
  - exists [("params", VDict [("query", VStr "baize")])]. split; reflexivity.
  - reflexivity.
  - discriminate.
  - reflexivity.
  - discriminate.
  - reflexivity.
  - reflexivity.
Defined.

(** The server answers with a page that is not JSON. *)
Lemma garbled_response_exits_1_witness :
  stdout (snd (@main strict (searching "<search baize>" garbling)))
  = [failure_of "Expecting value"]
  /\ exit_code (fst (@main strict (searching "<search baize>" garbling))) = 1.
Proof.
  apply (@garbled_response_exits_1 strict (searching "<search baize>" garbling)
           [("query", VStr "baize")] "baize" "key" (list_byte_of_string "<html>")
           (LibraryError "JSONDecodeError" "Expecting value")).
  - exists [("params", VDict [("query", VStr "baize")])]. split; reflexivity.
  - reflexivity.
  - discriminate.
  - reflexivity.
  - discriminate.
  - reflexivity.
  - right. exists "<html>". split; reflexivity.
  - reflexivity.
Defined.

(** The server refuses with status 500 and a body that is not UTF-8: the
    status is not reported. *)
Lemma unreadable_error_body_hides_status_witness :
  stdout (snd (@main strict (searching "<search baize>" refusing)))
  = [failure_of "invalid start byte"]
  /\ exit_code (fst (@main strict (searching "<search baize>" refusing))) = 1.
Proof.
  apply (@unreadable_error_body_hides_status strict (searching "<search baize>" refusing)
           [("query", VStr "baize")] "baize" "key" 500 [xff]
           (LibraryError "UnicodeDecodeError" "invalid start byte")).
  - exists [("params", VDict [("query", VStr "baize")])]. split; reflexivity.
  - reflexivity.
  - discriminate.
  - reflexivity.
  - discriminate.
  - reflexivity.
  - reflexivity.
Defined.

(** The query is the number 5. *)
Lemma query_must_be_text_witness :
  exists e,
    @main strict (searching "<search 5>" answering)
    = (Exit 1, set_stdout [failure_of (@str_exn strict e)]
                          (searching "<search 5>" answering))
    /\ sent (snd (@main strict (searching "<search 5>" answering))) = [].
Proof.
  apply (@query_must_be_text strict (searching "<search 5>" answering)
           [("query", VInt 5)] "key").
  - exists [("params", VDict [("query", VInt 5)])]. split; reflexivity.
  - reflexivity.
  - reflexivity.
  - reflexivity.
  - discriminate.
Defined.

(** [BAIZE_PARAMS] holds a JSON list. *)
Lemma malformed_parameters_exit_1_witness :
  @main strict (searching "<a list>" answering)
  = (Exit 1, set_stdout [failure_of "object has no attribute 'get'"]
                        (searching "<a list>" answering)).
Proof.
  destruct (@malformed_parameters_exit_1 strict (searching "<a list>" answering) "<a list>")
    as (_ & Hlist & _).
  - reflexivity.
  - apply (Hlist (VList [])); reflexivity.
Defined.

(** The response has no [web]. *)
Lemma no_results_is_success_witness :
  stdout (snd (@main strict (searching "<search baize>" (answering_with "<no web>"))))
  = [[("success", VBool true);
      ("data", VDict [("results", VList [])]);
      ("message", VStr "找到 0 个结果")]]
  /\ exit_code (fst (@main strict (searching "<search baize>" (answering_with "<no web>"))))
     = 0.
Proof.
  apply (@no_results_is_success strict
           (searching "<search baize>" (answering_with "<no web>"))
           [("query", VStr "baize")] "baize" "key" (list_byte_of_string "<no web>")
           "<no web>" [("type", VStr "search")]).
  - exists [("params", VDict [("query", VStr "baize")])]. split; reflexivity.
  - reflexivity.
  - discriminate.
  - reflexivity.
  - discriminate.
  - reflexivity.
  - reflexivity.
  - reflexivity.
  - left. reflexivity.
Defined.

(** The second of two results is a string. *)
Lemma one_malformed_item_discards_all_witness :
  stdout (snd (@main strict
                 (searching "<search baize>" (answering_with "<mixed results>"))))
  = [failure_of "object has no attribute 'get'"]
  /\ exit_code (fst (@main strict
                       (searching "<search baize>" (answering_with "<mixed results>"))))
     = 1.
Proof.
  apply (@one_malformed_item_discards_all strict
           (searching "<search baize>" (answering_with "<mixed results>"))
           [("query", VStr "baize")] "baize" "key"
           (list_byte_of_string "<mixed results>") "<mixed results>"
           [("web", VDict [("results",
              VList [VDict [("title", VStr "A"); ("url", VStr "http://a");
                            ("description", VStr "d")];
                     VStr "B"])])]
           [("results",
              VList [VDict [("title", VStr "A"); ("url", VStr "http://a");
                            ("description", VStr "d")];
                     VStr "B"])]
           [VDict [("title", VStr "A"); ("url", VStr "http://a");
                   ("description", VStr "d")];
            VStr "B"]).
  - exists [("params", VDict [("query", VStr "baize")])]. split; reflexivity.
  - reflexivity.
  - discriminate.
  - reflexivity.
  - discriminate.
  - reflexivity.
  - reflexivity.
  - reflexivity.
  - reflexivity.
  - reflexivity.
  - apply Exists_cons_tl, Exists_cons_hd. reflexivity.
Defined.

(** A query of letters. *)
Lemma plain_query_sent_verbatim_witness : quote_text "baize" = "baize".
Proof. apply (plain_query_sent_verbatim "baize"). reflexivity. Defined.

End SearchCases.

Module FileCases.
Import Py PyOps Pathlib FileSkill Vocabulary Further Sample Cases FileFacts FileRuns FileMore.

Lemma disk_with_notes_in_order (raw : string) : well_formed (started raw disk_with_notes).
Proof.
  split; [|reflexivity]. apply tree_insert_file; [|reflexivity|discriminate].
  apply (empty_disk_in_order raw).
Qed.

Lemma disk_with_dir_in_order (raw : string) : well_formed (started raw disk_with_dir).
Proof.
  split; [split|]; try reflexivity.
  intros c d n Hn. cbn [fs started] in Hn. unfold disk_with_dir in Hn.
  apply lookup_insert_Some in Hn as [[[= <- <-] _] | [_ Hn]]; [reflexivity|].
  now apply empty_disk_holds in Hn as [? _].
Qed.

(** Nothing in the environment, nothing on standard input. *)
Lemma no_input_exits_1_witness :
  @main strict bare = (Exit 1, set_stdout [failure "没有输入参数"] (set_stdin "" bare)).
Proof. apply (@no_input_exits_1 strict bare); reflexivity. Defined.

(** [BAIZE_PARAMS] is not JSON. *)
Lemma malformed_input_exits_1_witness :
  @main strict (started "{" empty_disk)
  = (Exit 1, set_stdout [failure "Expecting value"] (started "{" empty_disk)).
Proof.
  destruct (@malformed_input_exits_1 strict (started "{" empty_disk) "{") as (Hbad & _).
  - reflexivity.
  - apply (Hbad (LibraryError "JSONDecodeError" "Expecting value")). reflexivity.
Defined.

(** An action and no path. *)
Lemma missing_action_or_path_exits_1_witness :
  @main strict (started "<read>" empty_disk)
  = (Exit 1, set_stdout [failure "缺少 path 参数"] (started "<read>" empty_disk)).
Proof.
  destruct (@missing_action_or_path_exits_1 strict (started "<read>" empty_disk)
              [("action", VStr "read")]) as (_ & Hpath).
  - exists "<read>", [("params", VDict [("action", VStr "read")])].
    repeat split; reflexivity.
  - apply Hpath; reflexivity.
Defined.

(** Reading [notes.txt]. *)
Lemma read_reports_what_is_on_disk_witness :
  @read_file strict (VStr "notes.txt") (VStr "utf-8") (started "" disk_with_notes)
  = (Ret [("success", VBool true);
          ("data", VDict [("content", VStr "remember"); ("path", VStr "notes.txt");
                          ("size", VInt 8)]);
          ("message", VStr "remember")],
     started "" disk_with_notes).
Proof.
  apply (@read_reports_what_is_on_disk strict (started "" disk_with_notes)
           "notes.txt" "utf-8" (list_byte_of_string "remember")).
  reflexivity.
Defined.

(** Reading the directory [d]. *)
Lemma read_of_a_directory_fails_witness :
  @read_file strict (VStr "d") (VStr "utf-8") (started "" disk_with_dir)
  = (Ret (failure "读取文件失败: [Errno 21] Is a directory: 'd'"),
     started "" disk_with_dir).
Proof.
  apply (@read_of_a_directory_fails strict (started "" disk_with_dir) "d" "utf-8").
  reflexivity.
Defined.

(** A file that holds a carriage return is read with a line feed. *)
Lemma read_content_has_no_carriage_return_witness :
  mentions "013" two_lines_cr = true
  /\ mentions "013" two_lines_lf = false.
Proof.
  split; [reflexivity|].
  apply (@read_content_has_no_carriage_return strict
           (started "" disk_with_cr) (started "" disk_with_cr)
           (VStr "cr.txt") (VStr "utf-8")
           [("success", VBool true);
            ("data", VDict [("content", VStr two_lines_lf); ("path", VStr "cr.txt");
                            ("size", VInt 3)]);
            ("message", VStr two_lines_lf)]
           [("content", VStr two_lines_lf); ("path", VStr "cr.txt"); ("size", VInt 3)]
           two_lines_lf); reflexivity.
Defined.

(** Deleting the directory [d]. *)
Lemma delete_of_a_directory_fails_witness :
  @delete_file strict (VStr "d") (started "" disk_with_dir)
  = (Ret (failure "删除文件失败: [Errno 21] Is a directory: 'd'"),
     started "" disk_with_dir).
Proof.
  apply (@delete_of_a_directory_fails strict (started "" disk_with_dir) "d").
  reflexivity.
Defined.

(** The path is the number 5. *)
Lemma path_must_be_text_witness :
  exists what,
    @read_file strict (VInt 5) (VStr "utf-8") (started "" empty_disk)
    = (Ret (failure ("读取文件失败: " +:+ what)), started "" empty_disk)
    /\ @write_file strict (VInt 5) (VStr "x") (VStr "utf-8") (started "" empty_disk)
       = (Ret (failure ("写入文件失败: " +:+ what)), started "" empty_disk)
    /\ @create_file strict (VInt 5) (VStr "x") (VStr "utf-8") (started "" empty_disk)
       = (Ret (failure ("创建文件失败: " +:+ what)), started "" empty_disk)
    /\ @delete_file strict (VInt 5) (started "" empty_disk)
       = (Ret (failure ("删除文件失败: " +:+ what)), started "" empty_disk)
    /\ @exists_file strict (VInt 5) (started "" empty_disk)
       = (Ret (failure ("检查文件失败: " +:+ what)), started "" empty_disk).
Proof.
  apply (@path_must_be_text strict (started "" empty_disk) (VInt 5) (VStr "x")
           (VStr "utf-8")).
  reflexivity.
Defined.

(** Writing [hello] over [notes.txt]. *)
Lemma write_replaces_an_existing_file_witness :
  let w := started "" disk_with_notes in
  let w' := set_fs (<[ ["notes.txt"] := File (list_byte_of_string "hello") ]>
                      disk_with_notes) w in
  @write_file strict (VStr "notes.txt") (VStr "hello") (VStr "utf-8") w
  = (Ret [("success", VBool true);
          ("data", VDict [("path", VStr "notes.txt"); ("size", VInt 5)]);
          ("message", VStr "文件已写入: notes.txt")], w')
  /\ @create_file strict (VStr "notes.txt") (VStr "hello") (VStr "utf-8") w
     = (Ret [("success", VBool true);
             ("data", VDict [("path", VStr "notes.txt"); ("size", VInt 5)]);
             ("message", VStr "文件已创建: notes.txt")], w').
Proof.
  apply (@write_replaces_an_existing_file strict (started "" disk_with_notes)
           "notes.txt" "hello" "utf-8" (list_byte_of_string "remember")
           (list_byte_of_string "hello")).
  - apply disk_with_notes_in_order.
  - apply (bool_decide_unpack _). vm_compute. exact I.
  - reflexivity.
  - reflexivity.
Defined.

(** Writing over [notes.txt] in an encoding that is not known. *)
Lemma failed_encoding_empties_the_file_witness :
  let w := started "" disk_with_notes in
  @write_file strict (VStr "notes.txt") (VStr "hello") (VStr "latin-9") w
  = (Ret (failure "写入文件失败: unknown encoding: latin-9"),
     set_fs (<[ ["notes.txt"] := File [] ]> disk_with_notes) w)
  /\ locate (snd (@write_file strict (VStr "notes.txt") (VStr "hello") (VStr "latin-9") w))
            (parse "notes.txt")
     = inr (File []).
Proof.
  apply (@failed_encoding_empties_the_file strict (started "" disk_with_notes)
           "notes.txt" "hello" "latin-9" (list_byte_of_string "remember")
           (LibraryError "LookupError" "unknown encoding: latin-9")).
  - apply disk_with_notes_in_order.
  - apply (bool_decide_unpack _). vm_compute. exact I.
  - reflexivity.
  - reflexivity.
Defined.



(** Writing to the directory [d]. *)
Lemma a_directory_is_not_overwritten_witness :
  let w := started "" disk_with_dir in
  @write_file strict (VStr "d") (VStr "hello") (VStr "utf-8") w
  = (Ret (failure "写入文件失败: [Errno 21] Is a directory: 'd'"), w)
  /\ @create_file strict (VStr "d") (VStr "hello") (VStr "utf-8") w
     = (Ret (failure "创建文件失败: [Errno 21] Is a directory: 'd'"), w).
Proof.
  apply (@a_directory_is_not_overwritten strict (started "" disk_with_dir)
           "d" "hello" "utf-8").
  - apply disk_with_dir_in_order.
  - apply (bool_decide_unpack _). vm_compute. exact I.
  - reflexivity.
Defined.

(** Writing [d/e/f.txt] twice. *)
Lemma writing_twice_is_writing_once_witness :
  let first := @write_file strict (VStr "d/e/f.txt") (VStr "hello") (VStr "utf-8")
                           (started "" empty_disk) in
  @write_file strict (VStr "d/e/f.txt") (VStr "hello") (VStr "utf-8") (snd first) = first.
Proof.
  apply (@writing_twice_is_writing_once strict (started "" empty_disk)
           "d/e/f.txt" "hello" "utf-8").
  - apply empty_disk_in_order.
  - apply (bool_decide_unpack _). vm_compute. exact I.
Defined.

End FileCases.
